(** * Order-prediction engine: a shallow embedding of [predictor.py]

    The development follows [predictor.py] top to bottom: the weather helper
    [get_hourly_weather_forecast], then [generate_predictions] with the pandas
    operations it calls ([drop_duplicates], [get_dummies], [reindex],
    [groupby(...).mean()], [sort_values], [pivot], [fillna], [to_dict]),
    and then the route of [api.py].

    Conventions of the model.
    - A Python [str] is the [string] of its UTF-8 bytes.  Equality,
      concatenation, the substring test and the order of two texts (Python
      compares code points) are those of the byte strings; where the code
      looks at single characters ([s[i]], the digit class of a regular
      expression) the bytes are decoded.
    - A Python [int] is a [Z].  A Python or numpy float is a [float], the
      binary64 numbers with their IEEE arithmetic.
    - A value decoded from JSON, and every dict the module returns, is a
      [json] value.
    - A cell of the two menu columns is a [cell]: a text, or the NaN that
      [read_csv] puts where a field is empty or reads [NA].
    - Everything outside the module is a field of [env]: the clock, the files
      read at import time, the classifier, the holiday calendar, the HTTP
      transport and numpy's sorting routine.
    - A function that can leave by an exception returns an [outcome]; the
      calls that leave the process (the HTTP GET, the classifier) are
      recorded in a trace of [event]s.
    - pandas is followed as of its 2.x releases, the Unicode database as of
      CPython 3.11 (Unicode 14.0). *)

From Stdlib Require Import List String Ascii Bool Arith ZArith NArith.
From Stdlib Require Import Floats DecimalString Lia Permutation Sorted.
Import ListNotations.

Local Open Scope string_scope.
Local Open Scope list_scope.

(** ** Python values *)

#[local] Unset Elimination Schemes.
Inductive json : Type :=
| JNull
| JBool (b : bool)
| JInt (z : Z)
| JFloat (x : float)
| JStr (s : string)
| JArr (items : list json)
| JObj (fields : list (string * json)).
#[local] Set Elimination Schemes.

Inductive exn : Type :=
| KeyError (key : string)                           (* [d[key]] on a dict or a frame without that key *)
| KeyErrorInt (key : Z)                             (* [d[i]] on a dict decoded from JSON *)
| KeyErrorLabels (requested missing : list string)  (* [df[labels]]: the message names the labels that are no columns *)
| IndexError
| TypeError
| ValueError (msg : string)
| HTTPError (status : Z)
| TransportError (msg : string)
| JSONDecodeError.

Inductive outcome (A : Type) : Type :=
| Returned (a : A)
| Raised (e : exn).
Arguments Returned {A} a.
Arguments Raised {A} e.

Definition bind {A B : Type} (m : outcome A) (k : A -> outcome B) : outcome B :=
  match m with
  | Returned a => k a
  | Raised e => Raised e
  end.

Notation "x <- m ;; k" := (bind m (fun x => k))
  (at level 61, m at next level, right associativity).

(** [d.get(k)] on the field list of a dict. *)
Fixpoint assoc {A : Type} (k : string) (kv : list (string * A)) : option A :=
  match kv with
  | [] => None
  | (k', v) :: rest => if String.eqb k k' then Some v else assoc k rest
  end.

Definition has_key {A : Type} (k : string) (kv : list (string * A)) : bool :=
  match assoc k kv with Some _ => true | None => false end.

(** [v[k]] for a string key. *)
Definition getitem_str (v : json) (k : string) : outcome json :=
  match v with
  | JObj kv =>
      match assoc k kv with
      | Some x => Returned x
      | None => Raised (KeyError k)
      end
  | _ => Raised TypeError
  end.

(** Python sequence indexing: negative indices count from the end. *)
Definition seq_index {A : Type} (l : list A) (i : Z) : option A :=
  let n := Z.of_nat (List.length l) in
  if ((0 <=? i) && (i <? n))%Z then nth_error l (Z.to_nat i)
  else if ((- n <=? i) && (i <? 0))%Z then nth_error l (Z.to_nat (n + i))
  else None.

(** ** Text *)

Definition byte_between (lo hi : N) (c : ascii) : bool :=
  ((lo <=? N_of_ascii c) && (N_of_ascii c <=? hi))%N.

(** A byte that continues a character begun before it. *)
Definition is_continuation (c : ascii) : bool := byte_between 0x80 0xBF c.

Definition continuation_bits (c : ascii) : N := (N_of_ascii c - 0x80)%N.

(** The first character of a text, as its code point, and the text after
    it; [None] where the text is empty or does not start with the UTF-8
    form of a code point. *)
Definition utf8_head (s : string) : option (N * string) :=
  match s with
  | EmptyString => None
  | String a r1 =>
      if byte_between 0 0x7F a then Some (N_of_ascii a, r1)
      else
        match r1 with
        | String b r2 =>
            if negb (is_continuation b) then None
            else if byte_between 0xC2 0xDF a then
              Some (((N_of_ascii a - 0xC0) * 64 + continuation_bits b)%N, r2)
            else
              match r2 with
              | String c r3 =>
                  if negb (is_continuation c) then None
                  else if byte_between 0xE0 0xEF a then
                    let cp := (((N_of_ascii a - 0xE0) * 64 + continuation_bits b) * 64
                               + continuation_bits c)%N in
                    if (0x800 <=? cp)%N then Some (cp, r3) else None
                  else
                    match r3 with
                    | String d r4 =>
                        if is_continuation d && byte_between 0xF0 0xF4 a then
                          let cp := ((((N_of_ascii a - 0xF0) * 64 + continuation_bits b) * 64
                                      + continuation_bits c) * 64 + continuation_bits d)%N in
                          if ((0x10000 <=? cp) && (cp <=? 0x10FFFF))%N then Some (cp, r4)
                          else None
                        else None
                    | EmptyString => None
                    end
              | EmptyString => None
              end
        | EmptyString => None
        end
  end.

(** The characters of a text, each as the text of that one character: a
    continuation byte belongs to the character of the byte before it. *)
Fixpoint characters (s : string) : list string :=
  match s with
  | EmptyString => []
  | String a r =>
      let cs := characters r in
      match r with
      | String b _ =>
          if is_continuation b then
            match cs with
            | c :: cs' => String a c :: cs'
            | [] => [String a EmptyString]
            end
          else String a EmptyString :: cs
      | EmptyString => [String a EmptyString]
      end
  end.

(** [v[i]] for an integer index. A dict decoded from JSON has string keys
    only, so an integer key is never found. *)
Definition getitem_int (v : json) (i : Z) : outcome json :=
  match v with
  | JArr l =>
      match seq_index l i with
      | Some x => Returned x
      | None => Raised IndexError
      end
  | JStr s =>
      match seq_index (characters s) i with
      | Some c => Returned (JStr c)
      | None => Raised IndexError
      end
  | JObj _ => Raised (KeyErrorInt i)
  | _ => Raised TypeError
  end.

(** [pat in s] on two strings. *)
Fixpoint str_contains (pat s : string) : bool :=
  String.prefix pat s ||
  match s with
  | EmptyString => false
  | String _ rest => str_contains pat rest
  end.

Definition is_str (k : string) (v : json) : bool :=
  match v with
  | JStr s => String.eqb s k
  | _ => false
  end.

(** [k in v]: key test on a dict, membership on a list, substring test on a
    string, [TypeError] on anything else. *)
Definition py_in (k : string) (v : json) : outcome bool :=
  match v with
  | JObj kv => Returned (has_key k kv)
  | JArr l => Returned (existsb (is_str k) l)
  | JStr s => Returned (str_contains k s)
  | _ => Raised TypeError
  end.

(** ** Calendar dates ([datetime.date]) *)

Record date : Type := mkdate { year : Z; month : Z; day : Z }.

Definition is_leap (y : Z) : bool :=
  ((y mod 4 =? 0) && (negb (y mod 100 =? 0) || (y mod 400 =? 0)))%Z.

Definition days_before_year (y : Z) : Z :=
  (let y := y - 1 in y * 365 + y / 4 - y / 100 + y / 400)%Z.

Definition DAYS_IN_MONTH : list Z :=
  [-1; 31; 28; 31; 30; 31; 30; 31; 31; 30; 31; 30; 31]%Z.

Definition DAYS_BEFORE_MONTH : list Z :=
  [-1; 0; 31; 59; 90; 120; 151; 181; 212; 243; 273; 304; 334]%Z.

Definition days_in_month (y m : Z) : Z :=
  if ((m =? 2) && is_leap y)%Z then 29%Z
  else nth (Z.to_nat m) DAYS_IN_MONTH 0%Z.

Definition days_before_month (y m : Z) : Z :=
  (nth (Z.to_nat m) DAYS_BEFORE_MONTH 0 +
   (if (2 <? m) && is_leap y then 1 else 0))%Z.

Definition toordinal (d : date) : Z :=
  (days_before_year (year d) + days_before_month (year d) (month d) + day d)%Z.

(** [date(y, m, d)] raises [ValueError] outside these bounds. *)
Definition check_date_fields (y m d : Z) : bool :=
  ((1 <=? y) && (y <=? 9999) && (1 <=? m) && (m <=? 12) &&
   (1 <=? d) && (d <=? days_in_month y m))%Z.

(** [(a - b).days] *)
Definition date_diff_days (a b : date) : Z := (toordinal a - toordinal b)%Z.

(** [d.weekday()]: Monday is 0. *)
Definition weekday (d : date) : Z := ((toordinal d + 6) mod 7)%Z.

(** [d.strftime('%A')] *)
Definition strftime_A (d : date) : string :=
  nth (Z.to_nat (weekday d))
      ["Monday"; "Tuesday"; "Wednesday"; "Thursday"; "Friday"; "Saturday"; "Sunday"]
      "Monday".

(** ** [datetime.strptime(s, '%Y-%m-%d')]

    [_strptime] turns the format into the regular expression
    [(?P<Y>\d\d\d\d)-(?P<m>1[0-2]|0[1-9]|[1-9])-(?P<d>3[0-1]|[1-2]\d|0[1-9]|[1-9]| [1-9])],
    matches it at the start of the text, rejects text left over, and builds
    the date, which checks the field ranges.  Each group below lists its
    matches in the order the alternatives are tried.  The class [\d] is
    that of the Unicode decimal digits, which [int] reads by their digit
    values; a range such as [[1-9]] holds the ASCII digits only. *)

Definition in_range (lo hi : ascii) (c : ascii) : bool :=
  (nat_of_ascii lo <=? nat_of_ascii c)%nat && (nat_of_ascii c <=? nat_of_ascii hi)%nat.

Definition is_digit (c : ascii) : bool := in_range "0" "9" c.

Definition digit_val (c : ascii) : Z := (Z.of_nat (nat_of_ascii c) - 48)%Z.

(** The code points of the digits zero of Unicode 14.0 (category Nd); the
    digits one to nine of each script follow its zero. *)
Definition decimal_zeros : list N :=
  [0x30; 0x660; 0x6F0; 0x7C0; 0x966; 0x9E6; 0xA66; 0xAE6; 0xB66; 0xBE6; 0xC66;
   0xCE6; 0xD66; 0xDE6; 0xE50; 0xED0; 0xF20; 0x1040; 0x1090; 0x17E0; 0x1810;
   0x1946; 0x19D0; 0x1A80; 0x1A90; 0x1B50; 0x1BB0; 0x1C40; 0x1C50; 0xA620;
   0xA8D0; 0xA900; 0xA9D0; 0xA9F0; 0xAA50; 0xABF0; 0xFF10; 0x104A0; 0x10D30;
   0x11066; 0x110F0; 0x11136; 0x111D0; 0x112F0; 0x11450; 0x114D0; 0x11650;
   0x116C0; 0x11730; 0x118E0; 0x11950; 0x11C50; 0x11D50; 0x11DA0; 0x16A60;
   0x16AC0; 0x16B50; 0x1D7CE; 0x1D7D8; 0x1D7E2; 0x1D7EC; 0x1D7F6; 0x1E140;
   0x1E2F0; 0x1E950; 0x1FBF0]%N.

(** The digit value of a code point of the class [\d]. *)
Definition decimal_value (cp : N) : option Z :=
  match find (fun zero => (zero <=? cp) && (cp <? zero + 10))%N decimal_zeros with
  | Some zero => Some (Z.of_N (cp - zero))
  | None => None
  end.

(** [\d]: one decimal digit at the start of the text. *)
Definition re_digit (s : string) : option (Z * string) :=
  match utf8_head s with
  | Some (cp, rest) =>
      match decimal_value cp with
      | Some v => Some (v, rest)
      | None => None
      end
  | None => None
  end.

(** [[lo-hi]] between two ASCII digits. *)
Definition re_range (lo hi : ascii) (s : string) : option (Z * string) :=
  match s with
  | String a rest => if in_range lo hi a then Some (digit_val a, rest) else None
  | EmptyString => None
  end.

(** Two digits in a row, read as a number. *)
Definition two_chars (p1 p2 : string -> option (Z * string)) (s : string)
    : list (Z * string) :=
  match p1 s with
  | Some (a, r1) =>
      match p2 r1 with
      | Some (b, r2) => [((10 * a + b)%Z, r2)]
      | None => []
      end
  | None => []
  end.

Definition one_char (p : string -> option (Z * string)) (s : string) : list (Z * string) :=
  match p s with
  | Some x => [x]
  | None => []
  end.

Definition space_char (p : string -> option (Z * string)) (s : string)
    : list (Z * string) :=
  match s with
  | String a rest => if Ascii.eqb a " " then one_char p rest else []
  | EmptyString => []
  end.

Definition re_Y (s : string) : list (Z * string) :=
  match re_digit s with
  | Some (a, r1) =>
      match re_digit r1 with
      | Some (b, r2) =>
          match re_digit r2 with
          | Some (c, r3) =>
              match re_digit r3 with
              | Some (d, r4) => [((1000 * a + 100 * b + 10 * c + d)%Z, r4)]
              | None => []
              end
          | None => []
          end
      | None => []
      end
  | None => []
  end.

Definition re_m (s : string) : list (Z * string) :=
  two_chars (re_range "1" "1") (re_range "0" "2") s ++
  two_chars (re_range "0" "0") (re_range "1" "9") s ++
  one_char (re_range "1" "9") s.

Definition re_d (s : string) : list (Z * string) :=
  two_chars (re_range "3" "3") (re_range "0" "1") s ++
  two_chars (re_range "1" "2") re_digit s ++
  two_chars (re_range "0" "0") (re_range "1" "9") s ++
  one_char (re_range "1" "9") s ++
  space_char (re_range "1" "9") s.

Definition re_dash (s : string) : list string :=
  match s with
  | String a rest => if Ascii.eqb a "-" then [rest] else []
  | _ => []
  end.

(** All ways the expression matches a prefix of [s], first choice first. *)
Definition re_Ymd (s : string) : list (Z * Z * Z * string) :=
  flat_map (fun '(y, r1) =>
    flat_map (fun r2 =>
      flat_map (fun '(m, r3) =>
        flat_map (fun r4 =>
          map (fun '(d, r5) => (y, m, d, r5)) (re_d r4))
          (re_dash r3))
        (re_m r2))
      (re_dash r1))
    (re_Y s).

(** [None] stands for the [ValueError] that [generate_predictions] catches. *)
Definition strptime_Ymd (s : string) : option date :=
  match re_Ymd s with
  | [] => None
  | (y, m, d, rest) :: _ =>
      match rest with
      | EmptyString => if check_date_fields y m d then Some (mkdate y m d) else None
      | String _ _ => None
      end
  end.

(** ** Floats *)

(** The float of a count. *)
Definition float_of_nat (n : nat) : float :=
  SF2Prim (binary_normalize prec emax (Z.of_nat n) 0 false).

(** The sign bit, and whether a float is a number without being infinite. *)
Definition sign_bit (x : float) : bool :=
  match Prim2SF x with
  | S754_zero s | S754_infinity s | S754_finite s _ _ => s
  | S754_nan => false
  end.

Definition is_number (x : float) : bool :=
  match Prim2SF x with
  | S754_zero _ | S754_finite _ _ _ => true
  | S754_infinity _ | S754_nan => false
  end.

(** ** Data frames *)

(** A [DataFrame]: a number of rows and labelled columns of cells. *)
Record frame : Type := mkframe {
  nrows : nat;
  columns : list (string * list json)
}.

Definition labels (df : frame) : list string := map fst (columns df).

(** [df.to_dict(orient='records')] *)
Definition to_dict_records (df : frame) : list json :=
  map (fun i => JObj (map (fun '(c, cells) => (c, nth i cells JNull)) (columns df)))
      (seq 0 (nrows df)).

(** A cell of a text column read by [read_csv]: a text, or the NaN put
    where the field is empty.  The two menu columns are taken to be text
    columns; a column in which every field is a number is read as numbers
    and is outside the model. *)
Inductive cell : Type :=
| Str (s : string)
| NA.

Definition cell_eqb (a b : cell) : bool :=
  match a, b with
  | Str x, Str y => String.eqb x y
  | NA, NA => true
  | _, _ => false
  end.

Definition is_na (c : cell) : bool :=
  match c with
  | NA => true
  | Str _ => false
  end.

(** The Python value of a cell. *)
Definition cell_value (c : cell) : json :=
  match c with
  | Str s => JStr s
  | NA => JFloat nan
  end.

(** The cells that hold a text. *)
Definition texts (cells : list cell) : list string :=
  flat_map (fun c => match c with Str s => [s] | NA => [] end) cells.

(** ** The environment of the module *)

Record request : Type := mkrequest {
  url : string;
  params : list (string * json)
}.

Record response : Type := mkresponse {
  status_code : Z;
  body : option json       (* [None]: the body is not valid JSON *)
}.

Inductive event : Type :=
| Outbound (r : request)    (* [requests.get] *)
| Scored (X : frame).       (* [model.predict_proba] *)

Record env : Type := mkenv {
  today : date;                                  (* [datetime.today().date()] *)
  api_key : string;                              (* [api_key.txt], stripped *)
  df_base : list (cell * cell);                  (* [food_item_name], [food_item_category] of each row of the CSV *)
  model_columns : list string;                   (* [model_columns.joblib] *)
  predict_proba : frame -> outcome (list float); (* [model.predict_proba(X)[:, 1]] *)
  holiday_calendar : date -> bool;               (* [d in holiday_calendar] *)
  requests_get : request -> outcome response;    (* [requests.get(url, params=...)] *)
  argsort : list float -> list nat;              (* [ndarray.argsort(kind='quicksort')] *)
  exn_str : exn -> string                        (* [str(e)] *)
}.

Definition no_nan (l : list float) : Prop := Forall (fun x => is_nan x = false) l.

Definition float_le (x y : float) : Prop := (x <=? y)%float = true.

(** What numpy promises of [argsort] on an array without NaN: the indices
    of the array, arranged so that the values they select ascend.  The order
    of equal values is the routine's own. *)
Definition argsort_ok (srt : list float -> list nat) : Prop :=
  forall l, no_nan l ->
    Permutation (srt l) (seq 0 (List.length l)) /\
    StronglySorted float_le (map (fun i => nth i l 0%float) (srt l)).

(** A stable [argsort]: equal values keep their positions' order. *)
Definition argsort_stable (srt : list float -> list nat) : Prop :=
  forall l p q, no_nan l -> (p < q < List.length (srt l))%nat ->
    (nth (nth p (srt l) O) l 0 =? nth (nth q (srt l) O) l 0)%float = true ->
    (nth p (srt l) O < nth q (srt l) O)%nat.

(** ** Configuration constants *)

Definition RESTAURANT_LOCATION : string := "Tamil Nadu".

(** ** [get_hourly_weather_forecast] *)

Definition base_url : string := "http://api.weatherapi.com/v1/forecast.json".

Definition error_dict (msg : string) : json := JObj [("error", JStr msg)].

(** [response.raise_for_status()] *)
Definition raise_for_status (r : response) : outcome unit :=
  if ((400 <=? status_code r) && (status_code r <? 600))%Z
  then Raised (HTTPError (status_code r))
  else Returned tt.

(** [response.json()] *)
Definition response_json (r : response) : outcome json :=
  match body r with
  | Some j => Returned j
  | None => Raised JSONDecodeError
  end.

Definition weather_request (E : env) (location : string) (days : Z) : request :=
  mkrequest base_url
    [("key", JStr (api_key E)); ("q", JStr location); ("days", JInt days)].

(** The body of the [try] block. *)
Definition fetch_hour (E : env) (req : request) (target_hour : Z) : outcome json :=
  response <- requests_get E req ;;
  _ <- raise_for_status response ;;
  j <- response_json response ;;
  forecast <- getitem_str j "forecast" ;;
  forecastday <- getitem_str forecast "forecastday" ;;
  last_day <- getitem_int forecastday (-1) ;;
  hourly_data <- getitem_str last_day "hour" ;;
  getitem_int hourly_data target_hour.

Definition forecast_days (E : env) (target_date : date) : Z :=
  (date_diff_days target_date (today E) + 1)%Z.

Definition get_hourly_weather_forecast (E : env) (location : string)
    (target_date : date) (target_hour : Z) : json * list event :=
  let days := forecast_days E target_date in
  if negb ((0 <? days) && (days <=? 14))%Z then
    (error_dict "Date must be within the next 14 days.", [])
  else
    let req := weather_request E location days in
    match fetch_hour E req target_hour with
    | Returned hour => (hour, [Outbound req])
    | Raised e =>
        (error_dict ("API or data parsing error: " ++ exn_str E e), [Outbound req])
    end.

(** ** Feature rows *)

(** [base_scenario]: the thirteen fields shared by the two rows of an item. *)
Record base_scenario : Type := mkbase {
  hour : Z;
  food_item_name : cell;
  food_item_category : cell;
  day_of_the_week : string;
  day_type : string;
  temperature_c : json;
  wind_kph : json;
  precipitation_mm : json;
  cloud : json;
  humidity : json;
  pressure_mb : json;
  is_holiday : bool;
  is_special_event : bool
}.

(** [{**base_scenario, 'order_type': ...}] *)
Record scenario : Type := mkscenario {
  base : base_scenario;
  order_type : string
}.

(** [df.drop_duplicates()]: the first occurrence of each row is kept; two
    missing cells count as equal. *)
Fixpoint drop_duplicates_from (seen rows : list (cell * cell)) : list (cell * cell) :=
  match rows with
  | [] => []
  | r :: rest =>
      if existsb (fun s => cell_eqb (fst s) (fst r) && cell_eqb (snd s) (snd r)) seen
      then drop_duplicates_from seen rest
      else r :: drop_duplicates_from (r :: seen) rest
  end.

Definition drop_duplicates (rows : list (cell * cell)) : list (cell * cell) :=
  drop_duplicates_from [] rows.

Definition make_base (target_hour : Z) (row : cell * cell)
    (day_of_week day_type : string) (weather_data : json)
    (is_holiday is_special_event : bool) : outcome base_scenario :=
  temp_c <- getitem_str weather_data "temp_c" ;;
  wind <- getitem_str weather_data "wind_kph" ;;
  precip <- getitem_str weather_data "precip_mm" ;;
  cloud <- getitem_str weather_data "cloud" ;;
  humidity <- getitem_str weather_data "humidity" ;;
  pressure <- getitem_str weather_data "pressure_mb" ;;
  Returned (mkbase target_hour (fst row) (snd row) day_of_week day_type
                   temp_c wind precip cloud humidity pressure
                   is_holiday is_special_event).

(** The loop over [unique_items.iterrows()]. *)
Fixpoint build_scenarios (target_hour : Z) (day_of_week day_type : string)
    (weather_data : json) (is_holiday is_special_event : bool)
    (unique_items : list (cell * cell)) : outcome (list scenario) :=
  match unique_items with
  | [] => Returned []
  | row :: rest =>
      b <- make_base target_hour row day_of_week day_type weather_data
                     is_holiday is_special_event ;;
      scenarios <- build_scenarios target_hour day_of_week day_type weather_data
                                   is_holiday is_special_event rest ;;
      Returned (mkscenario b "Dine In" :: mkscenario b "Take Away" :: scenarios)
  end.

(** [pd.DataFrame(scenarios)]: the columns are the keys of the dicts, in
    insertion order; an empty list gives a frame without columns. *)
Definition DataFrame (scenarios : list scenario) : frame :=
  match scenarios with
  | [] => mkframe 0 []
  | _ :: _ =>
      let col {A} (f : base_scenario -> A) (inj : A -> json) :=
        map (fun s => inj (f (base s))) scenarios in
      mkframe (List.length scenarios)
        [("hour", col hour JInt);
         ("food_item_name", col food_item_name cell_value);
         ("food_item_category", col food_item_category cell_value);
         ("day_of_the_week", col day_of_the_week JStr);
         ("day_type", col day_type JStr);
         ("temperature_c", col temperature_c (fun j => j));
         ("wind_kph", col wind_kph (fun j => j));
         ("precipitation_mm", col precipitation_mm (fun j => j));
         ("cloud", col cloud (fun j => j));
         ("humidity", col humidity (fun j => j));
         ("pressure_mb", col pressure_mb (fun j => j));
         ("is_holiday", col is_holiday JBool);
         ("is_special_event", col is_special_event JBool);
         ("order_type", map (fun s => JStr (order_type s)) scenarios)]
  end.

(** ** pandas operations *)

Fixpoint insert_sorted (x : string) (l : list string) : list string :=
  match l with
  | [] => [x]
  | y :: rest => if String.leb x y then x :: l else y :: insert_sorted x rest
  end.

Definition sort_strings (l : list string) : list string :=
  fold_right insert_sorted [] l.

(** The distinct values of a column in ascending order: the categories of
    [get_dummies], the group keys of [groupby], the axes of [pivot]. *)
Definition levels (l : list string) : list string :=
  sort_strings (nodup string_dec l).

Definition strings_of (cells : list json) : list string :=
  flat_map (fun c => match c with JStr s => [s] | _ => [] end) cells.

(** [_get_dummies_1d]: one indicator column per level, labelled
    [prefix_level]; a missing cell belongs to no level.  The columns
    encoded here hold texts and missing cells. *)
Definition dummies (prefix : string) (cells : list json) : list (string * list json) :=
  map (fun level => ((prefix ++ "_" ++ level)%string, map (fun c => JBool (is_str level c)) cells))
      (levels (strings_of cells)).

(** [Index.unique]: the distinct labels, in the order of their first
    occurrence. *)
Definition unique (l : list string) : list string :=
  rev (nodup string_dec (rev l)).

(** [data[columns]]: every label has to be a column; the [KeyError] carries
    the requested labels and the distinct ones that are no columns. *)
Definition select_columns (names : list string) (cols : list (string * list json))
    : outcome (list (string * list json)) :=
  match filter (fun c => negb (has_key c cols)) names with
  | [] =>
      Returned (map (fun c => (c, match assoc c cols with
                                  | Some cells => cells
                                  | None => []
                                  end)) names)
  | missing => Raised (KeyErrorLabels names (unique missing))
  end.

(** [data.drop(columns, axis=1)] *)
Definition drop_columns (names : list string) (cols : list (string * list json))
    : list (string * list json) :=
  filter (fun col => negb (existsb (String.eqb (fst col)) names)) cols.

(** [pd.get_dummies(data, columns=cols)]: the columns left alone come first,
    then the indicators of each encoded column, in the order of [cols]. *)
Definition get_dummies (data : frame) (cols : list string) : outcome frame :=
  data_to_encode <- select_columns cols (columns data) ;;
  Returned (mkframe (nrows data)
              (drop_columns cols (columns data) ++
               flat_map (fun col => dummies (fst col) (snd col)) data_to_encode)).

Fixpoint all_distinct (l : list string) : bool :=
  match l with
  | [] => true
  | x :: rest => negb (existsb (String.eqb x) rest) && all_distinct rest
  end.

(** [df.reindex(columns=cols, fill_value=fill_value)] *)
Definition reindex (df : frame) (cols : list string) (fill_value : json) : outcome frame :=
  if all_distinct (labels df) then
    Returned (mkframe (nrows df)
                (map (fun c => (c, match assoc c (columns df) with
                                   | Some cells => cells
                                   | None => repeat fill_value (nrows df)
                                   end)) cols))
  else Raised (ValueError "cannot reindex on an axis with duplicate labels").

(** [group_mean]: the values that are not NaN are summed with Kahan's
    compensation and the sum is divided by their number; a group without
    such a value has the mean NaN. *)
Record mean_state : Type := mkmean {
  nobs : nat;
  sumx : float;
  compensation : float
}.

Definition mean_step (st : mean_state) (val : float) : mean_state :=
  if is_nan val then st
  else
    let y := (val - compensation st)%float in
    let t := (sumx st + y)%float in
    let c := (t - sumx st - y)%float in
    mkmean (S (nobs st)) t (if is_nan c then 0%float else c).

Definition mean (values : list float) : float :=
  let st := fold_left mean_step values (mkmean 0 0%float 0%float) in
  match nobs st with
  | O => nan
  | S _ => (sumx st / float_of_nat (nobs st))%float
  end.

Definition group (k : string) (rows : list (cell * float)) : list float :=
  map snd (filter (fun r => cell_eqb (fst r) (Str k)) rows).

(** [df.groupby(key)[value].mean().reset_index()]: one row per key, keys
    ascending; a row whose key is missing belongs to no group. *)
Definition groupby_mean (rows : list (cell * float)) : list (string * float) :=
  map (fun k => (k, mean (group k rows))) (levels (texts (map fst rows))).

(** [l[~mask]] and [l[mask]]: the elements where the mask is off, and
    where it is on. *)
Definition mask_off {A : Type} (l : list A) (mask : list bool) : list A :=
  map fst (filter (fun x => negb (snd x)) (combine l mask)).

Definition mask_on {A : Type} (l : list A) (mask : list bool) : list A :=
  map fst (filter snd (combine l mask)).

(** [nargsort(items, kind='quicksort', ascending=False)]: the values that
    are not NaN are reversed, sorted ascending, and the result is reversed
    again; the positions of the NaNs come last. *)
Definition nargsort_desc (E : env) (items : list float) : list nat :=
  let mask := map is_nan items in
  let idx := seq 0 (List.length items) in
  let non_nans := rev (mask_off items mask) in
  let non_nan_idx := rev (mask_off idx mask) in
  let nan_idx := mask_on idx mask in
  let indexer := map (fun j => nth j non_nan_idx O) (argsort E non_nans) in
  rev indexer ++ nan_idx.

(** [df.sort_values('probability', ascending=False)] *)
Definition sort_values_desc (E : env) (rows : list (string * float)) : list (string * float) :=
  map (fun i => nth i rows (EmptyString, 0%float)) (nargsort_desc E (map snd rows)).

Definition same_entry (r r' : cell * string * float) : bool :=
  cell_eqb (fst (fst r')) (fst (fst r)) && String.eqb (snd (fst r')) (snd (fst r)).

Definition duplicated_pair (r : cell * string * float) (rest : list (cell * string * float))
    : bool :=
  existsb (same_entry r) rest.

Fixpoint has_duplicate_pairs (rows : list (cell * string * float)) : bool :=
  match rows with
  | [] => false
  | r :: rest => duplicated_pair r rest || has_duplicate_pairs rest
  end.

(** The value filed under an index and a column, NaN where there is none. *)
Definition pivot_cell (rows : list (cell * string * float)) (i : cell) (c : string) : float :=
  match find (fun r => cell_eqb (fst (fst r)) i && String.eqb (snd (fst r)) c) rows with
  | Some r => snd r
  | None => nan
  end.

(** The index of the wide table: the missing name first, if a row has it,
    then the names in ascending order. *)
Definition pivot_index (names : list cell) : list cell :=
  (if existsb is_na names then [NA] else []) ++ map Str (levels (texts names)).

(** [df.pivot(index=..., columns=..., values=...)] on rows
    (index, column, value). *)
Record pivot_table : Type := mkpivot {
  pt_index : list cell;
  pt_columns : list (string * list float)
}.

Definition pivot (rows : list (cell * string * float)) : outcome pivot_table :=
  if has_duplicate_pairs rows then
    Raised (ValueError "Index contains duplicate entries, cannot reshape")
  else
    let index := pivot_index (map (fun r => fst (fst r)) rows) in
    Returned (mkpivot index
                (map (fun c => (c, map (fun i => pivot_cell rows i c) index))
                     (levels (map (fun r => snd (fst r)) rows)))).

(** [.fillna(0)] on a cell of a float column, and on a cell of the name
    column. *)
Definition fillna0 (x : float) : float := if is_nan x then 0%float else x.

Definition fillna0_name (c : cell) : json :=
  match c with
  | Str s => JStr s
  | NA => JInt 0
  end.

(** ** ['{:.2%}'.format]

    The float is multiplied by 100, as a float, and the exact value of the
    product is written in fixed notation with two decimals, rounded to the
    nearest with ties to even. *)

(** [num / den] rounded to the nearest integer, a tie to the even one. *)
Definition round_half_even (num den : Z) : Z :=
  let q := (num / den)%Z in
  match (2 * (num mod den) ?= den)%Z with
  | Lt => q
  | Gt => (q + 1)%Z
  | Eq => if Z.even q then q else (q + 1)%Z
  end.

(** The hundredths of [m * 2^e]. *)
Definition hundredths (m : positive) (e : Z) : Z :=
  match e with
  | Zneg k => round_half_even (100 * Zpos m) (2 ^ Zpos k)
  | _ => (100 * Zpos m * 2 ^ e)%Z
  end.

Definition digit_char (d : Z) : ascii := ascii_of_nat (48 + Z.to_nat d).

Definition two_digits (n : Z) : string :=
  String (digit_char (n / 10)) (String (digit_char (n mod 10)) EmptyString).

Definition str_of_Z (n : Z) : string := NilZero.string_of_uint (N.to_uint (Z.to_N n)).

Definition fixed2 (n : Z) : string :=
  (str_of_Z (n / 100) ++ "." ++ two_digits (n mod 100))%string.

Definition sign_text (s : bool) : string := if s then "-" else EmptyString.

Definition format_pct (p : float) : string :=
  (match Prim2SF (p * 100)%float with
   | S754_nan => "nan"
   | S754_infinity s => sign_text s ++ "inf"
   | S754_zero s => sign_text s ++ "0.00"
   | S754_finite s m e => sign_text s ++ fixed2 (hundredths m e)
   end ++ "%")%string.

(** The pattern [\d+\.\d{2}%], matched against the whole text. *)
Fixpoint skip_digits (s : string) : string :=
  match s with
  | String c rest => if is_digit c then skip_digits rest else s
  | EmptyString => EmptyString
  end.

Definition matches_pct (s : string) : bool :=
  match s with
  | String c rest =>
      is_digit c &&
      match skip_digits rest with
      | String dot (String a (String b (String pct EmptyString))) =>
          Ascii.eqb dot "." && is_digit a && is_digit b && Ascii.eqb pct "%"
      | _ => false
      end
  | EmptyString => false
  end.

(** ** [generate_predictions] *)

Definition categorical : list string :=
  ["food_item_name"; "food_item_category"; "day_of_the_week"; "day_type"; "order_type"].

Definition day_type_of (day_of_week : string) : string :=
  if existsb (String.eqb day_of_week) ["Saturday"; "Sunday"] then "Weekend" else "Weekday".

(** Steps 2 to 4 up to the aligned frame: the feature rows and the frame
    handed to the classifier. *)
Definition prepare_features (E : env) (target_date : date) (target_hour : Z)
    (is_special_event : bool) (weather_data : json) : outcome (list scenario * frame) :=
  let unique_items := drop_duplicates (df_base E) in
  let day_of_week := strftime_A target_date in
  let day_type := day_type_of day_of_week in
  let is_holiday := holiday_calendar E target_date in
  scenarios <- build_scenarios target_hour day_of_week day_type weather_data
                               is_holiday is_special_event unique_items ;;
  let future_df := DataFrame scenarios in
  future_encoded <- get_dummies future_df categorical ;;
  future_aligned <- reindex future_encoded (model_columns E) (JInt 0) ;;
  Returned (scenarios, future_aligned).

(** [future_df['probability'] = predictions_proba] *)
Definition assign_probability (scenarios : list scenario) (predictions_proba : list float)
    : outcome (list (scenario * float)) :=
  if (List.length predictions_proba =? List.length scenarios)%nat
  then Returned (combine scenarios predictions_proba)
  else Raised (ValueError "Length of values does not match length of index").

Definition name_probability (r : scenario * float) : cell * float :=
  (food_item_name (base (fst r)), snd r).

Definition name_type_probability (r : scenario * float) : cell * string * float :=
  (food_item_name (base (fst r)), order_type (fst r), snd r).

(** The rows of [overall] before formatting: grouped, averaged, sorted. *)
Definition overall_ranking (E : env) (future_df : list (scenario * float))
    : list (string * float) :=
  sort_values_desc E (groupby_mean (map name_probability future_df)).

Definition overall_frame (E : env) (future_df : list (scenario * float)) : frame :=
  let overall := overall_ranking E future_df in
  mkframe (List.length overall)
    [("food_item_name", map (fun r => JStr (fst r)) overall);
     ("probability", map (fun r => JStr (format_pct (snd r))) overall)].

Definition formatted_column (c : string) : bool :=
  String.eqb c "Dine In" || String.eqb c "Take Away".

(** [pivot(...).reset_index().fillna(0)], then the two columns formatted. *)
Definition detailed_frame (future_df : list (scenario * float)) : outcome frame :=
  wide <- pivot (map name_type_probability future_df) ;;
  let filled := map (fun col => (fst col, map fillna0 (snd col))) (pt_columns wide) in
  if negb (has_key "Dine In" filled) then Raised (KeyError "Dine In")
  else if negb (has_key "Take Away" filled) then Raised (KeyError "Take Away")
  else
    Returned (mkframe (List.length (pt_index wide))
                (("food_item_name", map fillna0_name (pt_index wide)) ::
                 map (fun col =>
                        (fst col,
                         if formatted_column (fst col)
                         then map (fun q => JStr (format_pct q)) (snd col)
                         else map JFloat (snd col)))
                     filled)).

(** Step 5 and 6: aggregate, format and build the response. *)
Definition aggregate (E : env) (target_date_str : string) (target_date : date)
    (target_hour : Z) (is_special_event : bool) (weather_data : json)
    (future_df : list (scenario * float)) : outcome json :=
  let overall := overall_frame E future_df in
  detailed <- detailed_frame future_df ;;
  temp_c <- getitem_str weather_data "temp_c" ;;
  precip <- getitem_str weather_data "precip_mm" ;;
  wind <- getitem_str weather_data "wind_kph" ;;
  cloud <- getitem_str weather_data "cloud" ;;
  Returned (JObj
    [("prediction_metadata", JObj
        [("target_date", JStr target_date_str);
         ("target_hour", JInt target_hour);
         ("is_special_event", JBool is_special_event);
         ("is_public_holiday", JBool (holiday_calendar E target_date));
         ("day_of_week", JStr (strftime_A target_date))]);
     ("weather_conditions", JObj
        [("temperature_c", temp_c);
         ("precipitation_mm", precip);
         ("wind_kph", wind);
         ("cloud_percent", cloud)]);
     ("overall_prediction", JArr (to_dict_records overall));
     ("detailed_prediction", JArr (to_dict_records detailed))]).

Definition invalid_date_error : json :=
  error_dict "Invalid date format. Please use YYYY-MM-DD.".

Definition out_of_range_error : json :=
  error_dict "Date must be within the next 14 days.".

Definition generate_predictions (E : env) (target_date_str : string)
    (target_hour : Z) (is_special_event : bool) : outcome json * list event :=
  match strptime_Ymd target_date_str with
  | None => (Returned invalid_date_error, [])
  | Some target_date =>
      let (weather_data, tr) :=
        get_hourly_weather_forecast E RESTAURANT_LOCATION target_date target_hour in
      match py_in "error" weather_data with
      | Raised e => (Raised e, tr)
      | Returned true => (Returned weather_data, tr)
      | Returned false =>
          match prepare_features E target_date target_hour is_special_event weather_data with
          | Raised e => (Raised e, tr)
          | Returned (scenarios, future_aligned) =>
              (predictions_proba <- predict_proba E future_aligned ;;
               future_df <- assign_probability scenarios predictions_proba ;;
               aggregate E target_date_str target_date target_hour is_special_event
                         weather_data future_df,
               tr ++ [Scored future_aligned])
          end
      end
  end.

(** [api.py] tells a prediction from an error by the same test. *)
Definition is_success (result : outcome json * list event) : Prop :=
  exists v, fst result = Returned v /\ py_in "error" v = Returned false.

(** ** A concrete environment

    numpy's quicksort finishes a partition of at most sixteen elements by
    insertion sort, so on short arrays [argsort] is the stable function
    below. *)

Fixpoint insert_by_value (x : nat * float) (l : list (nat * float)) : list (nat * float) :=
  match l with
  | [] => [x]
  | y :: rest =>
      if (snd x <=? snd y)%float then x :: l else y :: insert_by_value x rest
  end.

Definition insertion_argsort (l : list float) : list nat :=
  map fst (fold_right insert_by_value [] (combine (seq 0 (List.length l)) l)).

Definition sample_hour : json :=
  JObj [("temp_c", JInt 22); ("wind_kph", JInt 5); ("precip_mm", JInt 0);
        ("cloud", JInt 10); ("humidity", JInt 50); ("pressure_mb", JInt 1012)].

Definition sample_body : json :=
  JObj [("forecast", JObj [("forecastday", JArr [JObj [("hour", JArr (repeat sample_hour 24))]])])].

Definition sample_columns : list string :=
  ["hour"; "temperature_c"; "is_special_event"; "food_item_name_Apple Pie";
   "food_item_name_Burger"; "order_type_Dine In"; "order_type_Take Away";
   "day_of_the_week_Monday"].

(** A classifier that looks at the order-type indicator only. *)
Definition sample_classifier (X : frame) : outcome (list float) :=
  match assoc "order_type_Dine In" (columns X) with
  | Some cells =>
      Returned (map (fun c => match c with JBool true => 0.75 | _ => 0.5 end)%float cells)
  | None => Returned (repeat 0.5%float (nrows X))
  end.

(** A row of the menu file with both fields filled. *)
Definition menu_row (name category : string) : cell * cell := (Str name, Str category).

Definition sample_env_on (current : date) : env :=
  mkenv current "secret"
        [menu_row "Burger" "Main"; menu_row "Apple Pie" "Dessert"; menu_row "Burger" "Main"]
        sample_columns sample_classifier (fun _ => false)
        (fun _ => Returned (mkresponse 200 (Some sample_body)))
        insertion_argsort (fun _ => "failure").

Definition sample_env : env := sample_env_on (mkdate 2024 12 24).

(** ** Vocabulary of the statements *)

(** The menu item a feature row belongs to. *)
Definition item_of (b : base_scenario) : cell * cell :=
  (food_item_name b, food_item_category b).

(** The two feature rows of an item: equal but for the order type. *)
Definition two_rows (b : base_scenario) : list scenario :=
  [mkscenario b "Dine In"; mkscenario b "Take Away"].

(** The columns [get_dummies] leaves alone, and the indicator columns it
    adds for the five categorical fields. *)
Definition plain_columns (scenarios : list scenario) : list (string * list json) :=
  let col {A} (f : base_scenario -> A) (inj : A -> json) :=
    map (fun s => inj (f (base s))) scenarios in
  [("hour", col hour JInt);
   ("temperature_c", col temperature_c (fun j => j));
   ("wind_kph", col wind_kph (fun j => j));
   ("precipitation_mm", col precipitation_mm (fun j => j));
   ("cloud", col cloud (fun j => j));
   ("humidity", col humidity (fun j => j));
   ("pressure_mb", col pressure_mb (fun j => j));
   ("is_holiday", col is_holiday JBool);
   ("is_special_event", col is_special_event JBool)].

Definition indicator_columns (scenarios : list scenario) : list (string * list json) :=
  let col {A} (f : base_scenario -> A) (inj : A -> json) :=
    map (fun s => inj (f (base s))) scenarios in
  dummies "food_item_name" (col food_item_name cell_value) ++
  dummies "food_item_category" (col food_item_category cell_value) ++
  dummies "day_of_the_week" (col day_of_the_week JStr) ++
  dummies "day_type" (col day_type JStr) ++
  dummies "order_type" (map (fun s => JStr (order_type s)) scenarios).

(** Which categorical field an indicator label belongs to (0: none). *)
Definition label_kind (s : string) : nat :=
  if String.prefix "food_item_name_" s then 1
  else if String.prefix "food_item_category_" s then 2
  else if String.prefix "day_of_the_week_" s then 3
  else if String.prefix "day_type_" s then 4
  else if String.prefix "order_type_" s then 5
  else 0.

(** The date format as the spec words it, [YYYY-MM-DD]: four digits, a dash,
    two digits, a dash, two digits. *)
Definition exactly_YYYY_MM_DD (s : string) : bool :=
  match s with
  | String y1 (String y2 (String y3 (String y4 (String c1
      (String m1 (String m2 (String c2 (String d1 (String d2 EmptyString))))))))) =>
      is_digit y1 && is_digit y2 && is_digit y3 && is_digit y4 && Ascii.eqb c1 "-" &&
      is_digit m1 && is_digit m2 && Ascii.eqb c2 "-" && is_digit d1 && is_digit d2
  | _ => false
  end.

(** The texts that [strptime] reads as a date.  [digit k] is the ASCII
    digit of [k]; [decimal c k] says that the text [c] is one character, a
    decimal digit of any script, of value [k]. *)
Definition digit (k : Z) : string := String (digit_char k) EmptyString.

Definition decimal (c : string) (k : Z) : Prop := re_digit c = Some (k, EmptyString).

(** A year: four decimal digits. *)
Definition year_text (t : string) (y : Z) : Prop :=
  exists c1 c2 c3 c4 k1 k2 k3 k4,
    t = (c1 ++ c2 ++ c3 ++ c4)%string /\
    decimal c1 k1 /\ decimal c2 k2 /\ decimal c3 k3 /\ decimal c4 k4 /\
    y = (1000 * k1 + 100 * k2 + 10 * k3 + k4)%Z.

(** A month: 1 to 12 in ASCII digits, a leading zero allowed below 10. *)
Definition month_text (t : string) (m : Z) : Prop :=
  ((1 <= m <= 9)%Z /\ (t = digit m \/ t = ("0" ++ digit m)%string)) \/
  ((10 <= m <= 12)%Z /\ t = ("1" ++ digit (m - 10))%string).

(** A day: 1 to 31; below 10 in one ASCII digit, alone or after a zero or
    a space; from 10 to 29 an ASCII 1 or 2 and a decimal digit of any
    script; 30 and 31 in ASCII digits. *)
Definition day_text (t : string) (d : Z) : Prop :=
  ((1 <= d <= 9)%Z /\
   (t = digit d \/ t = ("0" ++ digit d)%string \/ t = (" " ++ digit d)%string)) \/
  ((10 <= d <= 29)%Z /\ exists c, t = (digit (d / 10) ++ c)%string /\ decimal c (d mod 10)) \/
  ((30 <= d <= 31)%Z /\ t = ("3" ++ digit (d - 30))%string).

(** A text that writes a date of the calendar: year, month and day as
    above, joined by dashes. *)
Definition written_date (s : string) (d : date) : Prop :=
  exists ty tm td,
    s = (ty ++ "-" ++ tm ++ "-" ++ td)%string /\
    year_text ty (year d) /\ month_text tm (month d) /\ day_text td (day d) /\
    check_date_fields (year d) (month d) (day d) = true.

(** The sample environment with a transport that cannot connect. *)
Definition offline_env : env :=
  mkenv (mkdate 2024 12 24) "secret"
        [menu_row "Burger" "Main"; menu_row "Apple Pie" "Dessert"; menu_row "Burger" "Main"]
        sample_columns sample_classifier (fun _ => false)
        (fun _ => Raised (TransportError "connection refused"))
        insertion_argsort (fun _ => "failure").

(** The sample environment with a provider that answers two-day forecasts
    only, and refuses every other request. *)
Definition two_day_env : env :=
  mkenv (mkdate 2024 12 24) "secret"
        [menu_row "Burger" "Main"; menu_row "Apple Pie" "Dessert"; menu_row "Burger" "Main"]
        sample_columns sample_classifier (fun _ => false)
        (fun r => match assoc "days" (params r) with
                  | Some (JInt days) =>
                      if (days =? 2)%Z then Returned (mkresponse 200 (Some sample_body))
                      else Returned (mkresponse 500 None)
                  | _ => Returned (mkresponse 500 None)
                  end)
        insertion_argsort (fun _ => "failure").

(** The index and column [pivot] files a scored row under. *)
Definition pivot_key (s : scenario) : cell * string :=
  (food_item_name (base s), order_type s).

(** A menu in which one name carries two categories. *)
Definition ambiguous_env : env :=
  mkenv (mkdate 2024 12 24) "secret"
        [menu_row "Burger" "Main"; menu_row "Burger" "Snack"]
        sample_columns sample_classifier (fun _ => false)
        (fun _ => Returned (mkresponse 200 (Some sample_body)))
        insertion_argsort (fun _ => "failure").

(** A menu in which one row has no name. *)
Definition unnamed_env : env :=
  mkenv (mkdate 2024 12 24) "secret"
        [menu_row "Burger" "Main"; (NA, Str "Dessert")]
        sample_columns sample_classifier (fun _ => false)
        (fun _ => Returned (mkresponse 200 (Some sample_body)))
        insertion_argsort (fun _ => "failure").

(** The mean of the two order-type probabilities of each menu item that has
    a name, the items in menu order: the probabilities come two per item,
    dine-in first. *)
Fixpoint per_item_means (items : list (cell * cell)) (probs : list float)
    : list (string * float) :=
  match items, probs with
  | item :: items', dine_in :: take_away :: probs' =>
      match fst item with
      | Str name => [(name, mean [dine_in; take_away])]
      | NA => []
      end ++ per_item_means items' probs'
  | _, _ => []
  end.

(** [x] does not rank below [y]: NaN ranks last. *)
Definition not_below (x y : float) : Prop :=
  is_nan y = true \/ (y <=? x)%float = true.

Definition descending (l : list (string * float)) : Prop :=
  StronglySorted (fun a b => not_below (snd a) (snd b)) l.

(** Two means that no comparison tells apart. *)
Definition tied (x y : float) : Prop :=
  (x =? y)%float = true \/ (is_nan x = true /\ is_nan y = true).

(** One entry of [overall_prediction]. *)
Definition overall_record (r : string * float) : json :=
  JObj [("food_item_name", JStr (fst r)); ("probability", JStr (format_pct (snd r)))].

Fixpoint all_digits (s : string) : bool :=
  match s with
  | EmptyString => true
  | String c rest => is_digit c && all_digits rest
  end.

(** The scored rows as [pivot] sees them: name, order type, probability;
    two per menu item, dine-in first. *)
Fixpoint scored_rows (items : list (cell * cell)) (probs : list float)
    : list (cell * string * float) :=
  match items, probs with
  | item :: items', dine_in :: take_away :: probs' =>
      (fst item, "Dine In", dine_in) :: (fst item, "Take Away", take_away)
      :: scored_rows items' probs'
  | _, _ => []
  end.

(** Each menu item with its dine-in and its takeaway probability. *)
Fixpoint per_item_pairs (items : list (cell * cell)) (probs : list float)
    : list (cell * float * float) :=
  match items, probs with
  | item :: items', dine_in :: take_away :: probs' =>
      (fst item, dine_in, take_away) :: per_item_pairs items' probs'
  | _, _ => []
  end.

(** The row of the wide table for one name. *)
Definition pivot_row (scored : list (cell * string * float)) (name : cell)
    : cell * float * float :=
  (name, pivot_cell scored name "Dine In", pivot_cell scored name "Take Away").

(** One entry of [detailed_prediction]: what [fillna(0)] leaves of the
    name and of the two probabilities, the latter as percent texts. *)
Definition detailed_record (r : cell * float * float) : json :=
  JObj [("food_item_name", fillna0_name (fst (fst r)));
        ("Dine In", JStr (format_pct (fillna0 (snd (fst r)))));
        ("Take Away", JStr (format_pct (fillna0 (snd r))))].

(** A probability that is written without a sign and with digits: its
    sign bit is clear and its hundredfold is finite.  Every float from 0.0
    to 1.0 is one; -0.0, NaN and the infinities are not. *)
Definition plain_probability (p : float) : Prop :=
  sign_bit p = false /\ is_number (p * 100)%float = true.

(** The order insertion sort leaves index-value pairs in: by value, and by
    index among equal values. *)
Definition by_value_then_index (x y : nat * float) : Prop :=
  (snd x <=? snd y)%float = true /\
  ((snd x =? snd y)%float = true -> (fst x < fst y)%nat).

(** [x] comes before [y] in [l]. *)
Definition precedes {A : Type} (x y : A) (l : list A) : Prop :=
  exists l1 l2 l3, l = l1 ++ x :: l2 ++ y :: l3.

(** Tie-break as the spec words it: entries of equal probability stand in
    the ranking in the order their names have in the menu. *)
Definition ties_keep_menu_order (menu : list cell) (ranked : list (string * float)) : Prop :=
  forall a b, precedes a b ranked -> tied (snd a) (snd b) ->
    precedes (Str (fst a)) (Str (fst b)) menu.

(** Tie-break as the code has it under a stable sort: entries of equal
    probability stand in ascending order of name. *)
Definition ties_in_name_order (ranked : list (string * float)) : Prop :=
  forall p q, (p < q < List.length ranked)%nat ->
    tied (snd (nth p ranked (EmptyString, 0%float))) (snd (nth q ranked (EmptyString, 0%float))) ->
    String.ltb (fst (nth p ranked (EmptyString, 0%float)))
               (fst (nth q ranked (EmptyString, 0%float))) = true.

Definition str_lt (a b : string) : Prop := String.ltb a b = true.

(** ** Vocabulary of the further properties *)

(** The requests the module may send: the forecast URL, the key, the fixed
    location, and a number of days from 1 to 14. *)
Definition forecast_request (E : env) (r : request) : Prop :=
  exists days, (1 <= days <= 14)%Z /\ r = weather_request E RESTAURANT_LOCATION days.

(** The fields of an hour slice that [generate_predictions] reads, in the
    order it reads them. *)
Definition weather_keys : list string :=
  ["temp_c"; "wind_kph"; "precip_mm"; "cloud"; "humidity"; "pressure_mb"].

(** A provider answer whose last forecast day carries the list [hours]. *)
Definition carries_hours (r : response) (hours : list json) : Prop :=
  ~ (400 <= status_code r < 600)%Z /\
  exists top forecast earlier last_day,
    body r = Some (JObj top) /\
    assoc "forecast" top = Some (JObj forecast) /\
    assoc "forecastday" forecast = Some (JArr (earlier ++ [JObj last_day])) /\
    assoc "hour" last_day = Some (JArr hours).

(** * [api.py] *)

Module Api.

Record PredictionInput : Type := mkPredictionInput {
  target_date : string;
  target_hour : Z;
  is_special_event : bool
}.

(** [target_hour: int = Field(..., ge=0, le=23)] *)
Definition valid (payload : PredictionInput) : bool :=
  ((0 <=? target_hour payload) && (target_hour payload <=? 23))%Z.

(** What the route gives back: the returned dict (status 200), a raised
    [HTTPException], the rejection of a body that does not validate, or an
    exception nobody handles. *)
Inductive reply : Type :=
| Ok (content : json)
| HTTPException (code : Z) (detail : json)
| ValidationError
| InternalError (e : exn).

Definition create_prediction (E : env) (payload : PredictionInput) : reply * list event :=
  let (result, tr) :=
    generate_predictions E (target_date payload) (target_hour payload)
                         (is_special_event payload) in
  match result with
  | Raised e => (InternalError e, tr)
  | Returned prediction_result =>
      match py_in "error" prediction_result with
      | Raised e => (InternalError e, tr)
      | Returned true =>
          match getitem_str prediction_result "error" with
          | Returned detail => (HTTPException 400 detail, tr)
          | Raised e => (InternalError e, tr)
          end
      | Returned false => (Ok prediction_result, tr)
      end
  end.

(** The route [POST /predict]: the body is validated before the function
    runs. *)
Definition predict (E : env) (payload : PredictionInput) : reply * list event :=
  if valid payload then create_prediction E payload else (ValidationError, []).

End Api.

(** [d.isoformat()]: the date as [YYYY-MM-DD], each field padded with
    zeros. *)
Definition four_digits (n : Z) : string :=
  String (digit_char (n / 1000))
    (String (digit_char (n / 100 mod 10)) (two_digits (n mod 100))).

Definition isoformat (d : date) : string :=
  (four_digits (year d) ++ "-" ++ two_digits (month d) ++ "-" ++ two_digits (day d))%string.

(** A date of the calendar, and the order of the calendar. *)
Definition valid_date (d : date) : Prop :=
  check_date_fields (year d) (month d) (day d) = true.

Definition date_lt (a b : date) : Prop :=
  (year a < year b \/
   (year a = year b /\
    (month a < month b \/ (month a = month b /\ day a < day b))))%Z.

(** A feature row with another event flag. *)
Definition with_event (ev : bool) (s : scenario) : scenario :=
  let b := base s in
  mkscenario
    (mkbase (hour b) (food_item_name b) (food_item_category b) (day_of_the_week b)
            (day_type b) (temperature_c b) (wind_kph b) (precipitation_mm b) (cloud b)
            (humidity b) (pressure_mb b) (is_holiday b) ev)
    (order_type s).

(** Environments for the examples: a menu, the hour slices the provider
    sends for the last forecast day, and a classifier that gives every row
    one half. *)
Definition body_of (hours : list json) : json :=
  JObj [("location", JObj [("name", JStr "Chennai")]);
        ("forecast", JObj [("forecastday", JArr [JObj [("date", JStr "2024-12-25");
                                                        ("hour", JArr hours)]])])].

Definition env_with (menu : list (cell * cell)) (hours : list json) : env :=
  mkenv (mkdate 2024 12 24) "secret" menu sample_columns
        (fun X => Returned (repeat 0.5%float (nrows X))) (fun _ => false)
        (fun _ => Returned (mkresponse 200 (Some (body_of hours))))
        insertion_argsort (fun _ => "failure").

Definition sample_menu : list (cell * cell) :=
  [menu_row "Burger" "Main"; menu_row "Apple Pie" "Dessert"].

Definition sample_slice : list (string * json) :=
  [("temp_c", JInt 22); ("wind_kph", JInt 5); ("precip_mm", JInt 0);
   ("cloud", JInt 10); ("humidity", JInt 50); ("pressure_mb", JInt 1012)].

(** A slice without the humidity field. *)
Definition dry_slice : list (string * json) :=
  [("temp_c", JInt 22); ("wind_kph", JInt 5); ("precip_mm", JInt 0);
   ("cloud", JInt 10); ("pressure_mb", JInt 1012)].

(** A slice that carries an [error] entry of its own. *)
Definition odd_slice : list (string * json) :=
  [("temp_c", JInt 22); ("error", JStr "sensor offline")].

Definition sample_payload : Api.PredictionInput :=
  Api.mkPredictionInput "2024-12-25" 19 false.

Definition burger_rows : list scenario :=
  two_rows (mkbase 19 (Str "Burger") (Str "Main") "Wednesday" "Weekday"
                   (JInt 22) (JInt 5) (JInt 0) (JInt 10) (JInt 50) (JInt 1012)
                   false false).

(** * Properties *)

(** ** The outcome monad *)

Lemma bind_Returned {A B : Type} (m : outcome A) (k : A -> outcome B) (b : B) :
  bind m k = Returned b -> exists a, m = Returned a /\ k a = Returned b.
Proof.
  destruct m as [a | e]; simpl; intros H.
  - exists a. split; [reflexivity | exact H].
  - discriminate H.
Qed.

Ltac inv_bind H :=
  let a := fresh "a" in
  let Ha := fresh "Ha" in
  apply bind_Returned in H; destruct H as [a [Ha H]].

(** ** [drop_duplicates] *)

Lemma cell_eqb_eq a b : cell_eqb a b = true <-> a = b.
Proof.
  destruct a as [x |], b as [y |]; simpl; split; intros H;
    try reflexivity; try discriminate H.
  - apply String.eqb_eq in H. subst y. reflexivity.
  - injection H as ->. apply String.eqb_refl.
Qed.

Lemma cell_eqb_refl a : cell_eqb a a = true.
Proof. apply cell_eqb_eq. reflexivity. Qed.

Lemma cell_eqb_neq a b : cell_eqb a b = false <-> a <> b.
Proof.
  split.
  - intros H Heq. apply cell_eqb_eq in Heq. rewrite Heq in H. discriminate H.
  - intros H. destruct (cell_eqb a b) eqn:Heq; [| reflexivity].
    apply cell_eqb_eq in Heq. contradiction.
Qed.

Lemma cell_eq_dec (a b : cell) : {a = b} + {a <> b}.
Proof. decide equality. apply string_dec. Qed.

Lemma seen_spec (r : cell * cell) seen :
  existsb (fun s => cell_eqb (fst s) (fst r) && cell_eqb (snd s) (snd r)) seen = true
  <-> In r seen.
Proof.
  rewrite existsb_exists. split.
  - intros [[a b] [Hin Heq]]. apply andb_true_iff in Heq. simpl in Heq.
    destruct Heq as [H1 H2]. apply cell_eqb_eq in H1, H2.
    destruct r as [n c]. simpl in *. subst. exact Hin.
  - intros Hin. exists r. split; [exact Hin |].
    rewrite !cell_eqb_refl. reflexivity.
Qed.

Lemma drop_duplicates_from_spec rows : forall seen,
  NoDup (drop_duplicates_from seen rows) /\
  forall x, In x (drop_duplicates_from seen rows) <-> In x rows /\ ~ In x seen.
Proof.
  induction rows as [| r rest IH]; intros seen; simpl.
  - split; [constructor | intros x; tauto].
  - destruct (existsb _ seen) eqn:Hseen.
    + apply seen_spec in Hseen. destruct (IH seen) as [Hnd Hin].
      split; [exact Hnd |]. intros x. rewrite Hin. split.
      * intros [H1 H2]. split; [right; exact H1 | exact H2].
      * intros [[-> | H1] H2]; [contradiction | split; assumption].
    + assert (Hnot : ~ In r seen).
      { intros Hin. apply seen_spec in Hin. rewrite Hin in Hseen. discriminate. }
      destruct (IH (r :: seen)) as [Hnd Hin]. split.
      * constructor; [| exact Hnd]. rewrite Hin. simpl. tauto.
      * intros x. simpl. rewrite Hin. simpl. split.
        -- intros [<- | [H1 H2]]; [tauto |]. split; [right; exact H1 | tauto].
        -- intros [[<- | H1] H2]; [left; reflexivity |].
           destruct (cell_eq_dec (fst r) (fst x)) as [e1 | n1];
             destruct (cell_eq_dec (snd r) (snd x)) as [e2 | n2];
             try (right; split; [exact H1 | intros [<- | H3]; [congruence | contradiction]]).
           left. destruct r, x; simpl in *; subst; reflexivity.
Qed.

Lemma drop_duplicates_NoDup rows : NoDup (drop_duplicates rows).
Proof. apply (drop_duplicates_from_spec rows []). Qed.

Lemma drop_duplicates_In rows x : In x (drop_duplicates rows) <-> In x rows.
Proof.
  unfold drop_duplicates. rewrite (proj2 (drop_duplicates_from_spec rows [])). simpl. tauto.
Qed.

(** ** Feature rows *)

Lemma make_base_inv h row dow dt w hol ev b :
  make_base h row dow dt w hol ev = Returned b ->
  item_of b = row /\ hour b = h /\ day_of_the_week b = dow /\ day_type b = dt /\
  is_holiday b = hol /\ is_special_event b = ev /\
  getitem_str w "temp_c" = Returned (temperature_c b) /\
  getitem_str w "wind_kph" = Returned (wind_kph b) /\
  getitem_str w "precip_mm" = Returned (precipitation_mm b) /\
  getitem_str w "cloud" = Returned (cloud b) /\
  getitem_str w "humidity" = Returned (humidity b) /\
  getitem_str w "pressure_mb" = Returned (pressure_mb b).
Proof.
  unfold make_base. intros H.
  do 6 inv_bind H.
  injection H as <-. destruct row as [n c]. simpl.
  repeat split; assumption.
Qed.

Lemma build_scenarios_inv h dow dt w hol ev items scenarios :
  build_scenarios h dow dt w hol ev items = Returned scenarios ->
  exists bases,
    scenarios = flat_map two_rows bases /\
    map item_of bases = items /\
    Forall (fun b => make_base h (item_of b) dow dt w hol ev = Returned b) bases.
Proof.
  revert scenarios. induction items as [| row rest IH]; simpl; intros scenarios H.
  - injection H as <-. exists []. repeat split. constructor.
  - inv_bind H. inv_bind H. injection H as <-.
    destruct (IH _ Ha0) as [bases [-> [Hitems Hall]]].
    exists (a :: bases). simpl. repeat split.
    + f_equal; [| exact Hitems]. apply (make_base_inv _ _ _ _ _ _ _ _ Ha).
    + constructor; [| exact Hall].
      destruct (make_base_inv _ _ _ _ _ _ _ _ Ha) as [-> _]. exact Ha.
Qed.

Lemma flat_map_two_rows_length bases :
  List.length (flat_map two_rows bases) = (2 * List.length bases)%nat.
Proof.
  induction bases as [| b bases IH]; simpl; [reflexivity | rewrite IH; lia].
Qed.

(** ** The stages of a successful request *)

Lemma assign_probability_inv scenarios probs future_df :
  assign_probability scenarios probs = Returned future_df ->
  List.length probs = List.length scenarios /\ future_df = combine scenarios probs.
Proof.
  unfold assign_probability.
  destruct (Nat.eqb_spec (List.length probs) (List.length scenarios)) as [Hlen | Hlen];
    intros H; [| discriminate H].
  injection H as <-. split; [exact Hlen | reflexivity].
Qed.

Lemma generate_predictions_success E s h ev v :
  fst (generate_predictions E s h ev) = Returned v ->
  py_in "error" v = Returned false ->
  exists d w tr scenarios X probs,
    strptime_Ymd s = Some d /\
    get_hourly_weather_forecast E RESTAURANT_LOCATION d h = (w, tr) /\
    py_in "error" w = Returned false /\
    prepare_features E d h ev w = Returned (scenarios, X) /\
    predict_proba E X = Returned probs /\
    List.length probs = List.length scenarios /\
    aggregate E s d h ev w (combine scenarios probs) = Returned v /\
    snd (generate_predictions E s h ev) = tr ++ [Scored X].
Proof.
  unfold generate_predictions.
  destruct (strptime_Ymd s) as [d |]; simpl.
  2:{ intros H; injection H as <-. discriminate. }
  destruct (get_hourly_weather_forecast E RESTAURANT_LOCATION d h) as [w tr] eqn:Hw.
  destruct (py_in "error" w) as [[|] | e] eqn:Hin; simpl.
  - intros H; injection H as <-. rewrite Hin. discriminate.
  - destruct (prepare_features E d h ev w) as [[scenarios X] | e] eqn:Hprep; simpl.
    2:{ discriminate. }
    intros H Herr. inv_bind H. inv_bind H.
    apply assign_probability_inv in Ha0. destruct Ha0 as [Hlen ->].
    exists d, w, tr, scenarios, X, a. repeat split; assumption.
  - discriminate.
Qed.

Lemma prepare_features_inv E d h ev w scenarios X :
  prepare_features E d h ev w = Returned (scenarios, X) ->
  exists enc,
    build_scenarios h (strftime_A d) (day_type_of (strftime_A d)) w
                    (holiday_calendar E d) ev (drop_duplicates (df_base E))
      = Returned scenarios /\
    get_dummies (DataFrame scenarios) categorical = Returned enc /\
    reindex enc (model_columns E) (JInt 0) = Returned X.
Proof.
  unfold prepare_features. intros H.
  do 3 inv_bind H. injection H as <- <-.
  exists a0. repeat split; assumption.
Qed.

Lemma get_dummies_nrows data cols enc :
  get_dummies data cols = Returned enc -> nrows enc = nrows data.
Proof.
  unfold get_dummies. intros H. inv_bind H. injection H as <-. reflexivity.
Qed.

Lemma reindex_nrows df cols fill X :
  reindex df cols fill = Returned X -> nrows X = nrows df.
Proof.
  unfold reindex. destruct (all_distinct (labels df)); intros H; [| discriminate H].
  injection H as <-. reflexivity.
Qed.

Lemma get_dummies_nonempty scenarios enc :
  get_dummies (DataFrame scenarios) categorical = Returned enc -> scenarios <> [].
Proof.
  intros H ->. discriminate H.
Qed.

Lemma DataFrame_nrows scenarios : nrows (DataFrame scenarios) = List.length scenarios.
Proof. destruct scenarios; reflexivity. Qed.

(** ** Association lists and labels *)

Lemma existsb_eqb_In x l : existsb (String.eqb x) l = true <-> In x l.
Proof.
  rewrite existsb_exists. split.
  - intros [y [Hin Heq]]. apply String.eqb_eq in Heq. subst. exact Hin.
  - intros Hin. exists x. split; [exact Hin | apply String.eqb_refl].
Qed.

Lemma all_distinct_NoDup l : all_distinct l = true <-> NoDup l.
Proof.
  induction l as [| x l IH]; simpl.
  - split; [constructor | reflexivity].
  - rewrite andb_true_iff, negb_true_iff, IH. split.
    + intros [Hx Hl]. constructor; [| exact Hl].
      intros Hin. apply existsb_eqb_In in Hin. congruence.
    + intros H. inversion H as [| ? ? Hx Hl]; subst. split; [| exact Hl].
      destruct (existsb (String.eqb x) l) eqn:He; [| reflexivity].
      apply existsb_eqb_In in He. contradiction.
Qed.

Lemma assoc_None {A : Type} c (kv : list (string * A)) :
  assoc c kv = None <-> ~ In c (map fst kv).
Proof.
  induction kv as [| [k v] kv IH]; simpl.
  - tauto.
  - destruct (String.eqb_spec c k) as [-> | Hne].
    + split; [discriminate | tauto].
    + rewrite IH. split; [intros H [Hk | Hin]; [congruence | tauto] | tauto].
Qed.

Lemma assoc_map_key {A : Type} (f : string -> A) c l :
  In c l -> assoc c (map (fun k => (k, f k)) l) = Some (f c).
Proof.
  induction l as [| k l IH]; simpl; [tauto |].
  destruct (String.eqb_spec c k) as [-> | Hne]; [reflexivity |].
  intros [Hk | Hin]; [congruence | exact (IH Hin)].
Qed.

Lemma map_fst_map_key {A : Type} (f : string -> A) l :
  map fst (map (fun k => (k, f k)) l) = l.
Proof. induction l as [| k l IH]; simpl; [reflexivity | rewrite IH; reflexivity]. Qed.

(** ** Sorting the levels *)

Lemma insert_sorted_perm x l : Permutation (insert_sorted x l) (x :: l).
Proof.
  induction l as [| y l IH]; simpl; [reflexivity |].
  destruct (String.leb x y); [reflexivity |].
  rewrite IH. apply perm_swap.
Qed.

Lemma sort_strings_perm l : Permutation (sort_strings l) l.
Proof.
  induction l as [| x l IH]; simpl; [reflexivity |].
  rewrite insert_sorted_perm. apply perm_skip. exact IH.
Qed.

Lemma levels_perm l : Permutation (levels l) (nodup string_dec l).
Proof. apply sort_strings_perm. Qed.

Lemma levels_NoDup l : NoDup (levels l).
Proof.
  apply (Permutation_NoDup (Permutation_sym (levels_perm l))). apply NoDup_nodup.
Qed.

Lemma levels_In l x : In x (levels l) <-> In x l.
Proof.
  split; intros H.
  - apply (Permutation_in _ (levels_perm l)) in H. apply nodup_In in H. exact H.
  - apply (Permutation_in _ (Permutation_sym (levels_perm l))). apply nodup_In. exact H.
Qed.

(** ** The labels of the encoded frame are distinct *)

Lemma append_inj p a b : (p ++ a)%string = (p ++ b)%string -> a = b.
Proof.
  induction p as [| c p IH]; simpl; intros H; [exact H |].
  injection H as H. exact (IH H).
Qed.

Lemma dummies_labels prefix cells :
  map fst (dummies prefix cells)
  = map (fun level => (prefix ++ "_" ++ level)%string) (levels (strings_of cells)).
Proof. unfold dummies. rewrite map_map. reflexivity. Qed.

Lemma NoDup_map_injective {A B : Type} (f : A -> B) (l : list A) :
  (forall a b, f a = f b -> a = b) -> NoDup l -> NoDup (map f l).
Proof.
  intros Hinj. induction 1 as [| x l Hx Hl IH]; simpl; constructor; [| exact IH].
  rewrite in_map_iff. intros [y [Heq Hy]]. apply Hinj in Heq. subst. contradiction.
Qed.

Lemma dummies_labels_NoDup prefix cells : NoDup (map fst (dummies prefix cells)).
Proof.
  rewrite dummies_labels. apply NoDup_map_injective; [| apply levels_NoDup].
  intros a b H. apply append_inj in H. apply append_inj in H. exact H.
Qed.

Lemma dummies_kind prefix cells k :
  (forall level, label_kind (prefix ++ "_" ++ level) = k) ->
  forall x, In x (map fst (dummies prefix cells)) -> label_kind x = k.
Proof.
  intros Hk x. rewrite dummies_labels, in_map_iff. intros [level [<- _]]. apply Hk.
Qed.

Lemma NoDup_app_kind (k : nat) (l1 l2 : list string) :
  NoDup l1 -> NoDup l2 ->
  (forall x, In x l1 -> label_kind x = k) ->
  (forall x, In x l2 -> label_kind x <> k) ->
  NoDup (l1 ++ l2).
Proof.
  intros H1 H2 Hk1 Hk2. apply NoDup_app; [exact H1 | exact H2 |].
  intros x Hx1 Hx2. exact (Hk2 x Hx2 (Hk1 x Hx1)).
Qed.

Lemma get_dummies_DataFrame scenarios :
  scenarios <> [] ->
  get_dummies (DataFrame scenarios) categorical
  = Returned (mkframe (List.length scenarios)
                      (plain_columns scenarios ++ indicator_columns scenarios)).
Proof.
  destruct scenarios as [| s ss]; [congruence | intros _].
  unfold indicator_columns. rewrite <- (app_nil_r (dummies "order_type" _)).
  reflexivity.
Qed.

Lemma plain_labels scenarios x :
  In x (map fst (plain_columns scenarios)) -> label_kind x = 0%nat.
Proof.
  simpl. intros Hx.
  repeat (destruct Hx as [<- | Hx]; [reflexivity |]). contradiction.
Qed.

Ltac kind_of_dummies Hx n :=
  apply (fun Hk => dummies_kind _ _ n Hk) in Hx; [rewrite Hx | intros [|]; reflexivity].

Lemma indicator_labels scenarios x :
  In x (map fst (indicator_columns scenarios)) -> label_kind x <> 0%nat.
Proof.
  unfold indicator_columns. rewrite !map_app. intros Hx.
  repeat (apply in_app_or in Hx; destruct Hx as [Hx | Hx]);
    [kind_of_dummies Hx 1%nat | kind_of_dummies Hx 2%nat | kind_of_dummies Hx 3%nat
     | kind_of_dummies Hx 4%nat | kind_of_dummies Hx 5%nat]; discriminate.
Qed.

Lemma indicator_labels_NoDup scenarios : NoDup (map fst (indicator_columns scenarios)).
Proof.
  unfold indicator_columns. rewrite !map_app.
  apply (NoDup_app_kind 1); [apply dummies_labels_NoDup | | |].
  - apply (NoDup_app_kind 2); [apply dummies_labels_NoDup | | |].
    + apply (NoDup_app_kind 3); [apply dummies_labels_NoDup | | |].
      * apply (NoDup_app_kind 4); try apply dummies_labels_NoDup.
        -- apply dummies_kind. intros [|]; reflexivity.
        -- intros x Hx. kind_of_dummies Hx 5%nat. discriminate.
      * apply dummies_kind. intros [|]; reflexivity.
      * intros x Hx. repeat (apply in_app_or in Hx; destruct Hx as [Hx | Hx]);
          [kind_of_dummies Hx 4%nat | kind_of_dummies Hx 5%nat]; discriminate.
    + apply dummies_kind. intros [|]; reflexivity.
    + intros x Hx. repeat (apply in_app_or in Hx; destruct Hx as [Hx | Hx]);
        [kind_of_dummies Hx 3%nat | kind_of_dummies Hx 4%nat | kind_of_dummies Hx 5%nat];
        discriminate.
  - apply dummies_kind. intros [|]; reflexivity.
  - intros x Hx. repeat (apply in_app_or in Hx; destruct Hx as [Hx | Hx]);
      [kind_of_dummies Hx 2%nat | kind_of_dummies Hx 3%nat | kind_of_dummies Hx 4%nat
       | kind_of_dummies Hx 5%nat]; discriminate.
Qed.


Lemma encoded_labels_NoDup scenarios enc :
  get_dummies (DataFrame scenarios) categorical = Returned enc -> NoDup (labels enc).
Proof.
  intros H. pose proof (get_dummies_nonempty _ _ H) as Hne.
  rewrite (get_dummies_DataFrame _ Hne) in H.
  assert (Henc : enc = mkframe (List.length scenarios)
                         (plain_columns scenarios ++ indicator_columns scenarios))
    by congruence.
  rewrite Henc. unfold labels.
  change (NoDup (map fst (plain_columns scenarios ++ indicator_columns scenarios))).
  rewrite map_app.
  apply (NoDup_app_kind 0).
  - apply all_distinct_NoDup. reflexivity.
  - apply indicator_labels_NoDup.
  - apply plain_labels.
  - apply indicator_labels.
Qed.

(** C4. Schema alignment of the encoded feature rows against a column list:
    the aligned frame has exactly the schema's labels in the schema's order;
    a schema column that the expansion lacks holds 0 in every row; an
    expanded column the schema does not name is absent; a column in both is
    carried over unchanged. *)
Theorem C4_schema_alignment (scenarios : list scenario) (schema : list string) (enc : frame) :
  get_dummies (DataFrame scenarios) categorical = Returned enc ->
  exists aligned,
    reindex enc schema (JInt 0) = Returned aligned /\
    labels aligned = schema /\
    nrows aligned = List.length scenarios /\
    (forall c, In c schema -> ~ In c (labels enc) ->
       assoc c (columns aligned) = Some (repeat (JInt 0) (List.length scenarios))) /\
    (forall c, In c (labels enc) -> ~ In c schema -> ~ In c (labels aligned)) /\
    (forall c cells, In c schema -> assoc c (columns enc) = Some cells ->
       assoc c (columns aligned) = Some cells).
Proof.
  intros Henc.
  pose proof (encoded_labels_NoDup _ _ Henc) as Hnd.
  pose proof (get_dummies_nrows _ _ _ Henc) as Hrows.
  rewrite DataFrame_nrows in Hrows.
  unfold reindex. apply all_distinct_NoDup in Hnd. rewrite Hnd.
  set (cell := fun c => match assoc c (columns enc) with
                        | Some cells => cells
                        | None => repeat (JInt 0) (nrows enc)
                        end).
  exists (mkframe (nrows enc) (map (fun c => (c, cell c)) schema)).
  assert (Hlab : labels (mkframe (nrows enc) (map (fun c => (c, cell c)) schema)) = schema).
  { unfold labels. cbn [columns]. apply map_fst_map_key. }
  split; [reflexivity |]. split; [exact Hlab |]. split; [exact Hrows |].
  split; [| split].
  - intros c Hin Hnot. cbn [columns]. rewrite (assoc_map_key cell c schema Hin).
    unfold cell. apply assoc_None in Hnot. rewrite Hnot, Hrows. reflexivity.
  - intros c _ Hnot. rewrite Hlab. exact Hnot.
  - intros c cells Hin Hc. cbn [columns]. rewrite (assoc_map_key cell c schema Hin).
    unfold cell. rewrite Hc. reflexivity.
Qed.

Lemma C4_schema_alignment_witness :
  let scenarios := two_rows (mkbase 19 (Str "Burger") (Str "Main") "Wednesday" "Weekday"
                               (JInt 22) (JInt 5) (JInt 0) (JInt 10) (JInt 50) (JInt 1012)
                               false false) in
  exists enc,
    get_dummies (DataFrame scenarios) categorical = Returned enc /\
    exists aligned,
      reindex enc sample_columns (JInt 0) = Returned aligned /\
      labels aligned = sample_columns /\
      nrows aligned = List.length scenarios /\
      (forall c, In c sample_columns -> ~ In c (labels enc) ->
         assoc c (columns aligned) = Some (repeat (JInt 0) (List.length scenarios))) /\
      (forall c, In c (labels enc) -> ~ In c sample_columns -> ~ In c (labels aligned)) /\
      (forall c cells, In c sample_columns -> assoc c (columns enc) = Some cells ->
         assoc c (columns aligned) = Some cells).
Proof.
  intros scenarios.
  destruct (get_dummies (DataFrame scenarios) categorical) as [enc | e] eqn:Henc;
    [| discriminate Henc].
  exists enc. split; [reflexivity |].
  apply C4_schema_alignment. exact Henc.
Defined.

(** C2. For every successful request the feature rows are, for each distinct
    (name, category) pair of the menu in turn, one row tagged "Dine In" and
    one tagged "Take Away" built on the same base record, and the frame
    handed to the classifier has 2 times as many rows as there are distinct
    menu items.  The distinct items are the rows of the reference set, each
    once. *)
Theorem C2_two_feature_rows_per_item E s h ev :
  is_success (generate_predictions E s h ev) ->
  exists bases enc X,
    NoDup (drop_duplicates (df_base E)) /\
    (forall item, In item (drop_duplicates (df_base E)) <-> In item (df_base E)) /\
    map item_of bases = drop_duplicates (df_base E) /\
    get_dummies (DataFrame (flat_map two_rows bases)) categorical = Returned enc /\
    reindex enc (model_columns E) (JInt 0) = Returned X /\
    In (Scored X) (snd (generate_predictions E s h ev)) /\
    List.length (flat_map two_rows bases) = (2 * List.length (drop_duplicates (df_base E)))%nat /\
    nrows X = (2 * List.length (drop_duplicates (df_base E)))%nat.
Proof.
  intros [v [Hv Herr]].
  destruct (generate_predictions_success _ _ _ _ _ Hv Herr)
    as (d & w & tr & scenarios & X & probs & _ & _ & _ & Hprep & _ & _ & _ & Htr).
  destruct (prepare_features_inv _ _ _ _ _ _ _ Hprep) as (enc & Hbuild & Henc & HX).
  destruct (build_scenarios_inv _ _ _ _ _ _ _ _ Hbuild) as (bases & -> & Hitems & _).
  assert (Hlen : List.length (flat_map two_rows bases)
                 = (2 * List.length (drop_duplicates (df_base E)))%nat).
  { rewrite flat_map_two_rows_length, <- Hitems, length_map. reflexivity. }
  exists bases, enc, X.
  split; [apply drop_duplicates_NoDup |].
  split; [intros item; apply drop_duplicates_In |].
  repeat split; try assumption.
  - rewrite Htr. apply in_or_app. right. left. reflexivity.
  - rewrite (reindex_nrows _ _ _ _ HX), (get_dummies_nrows _ _ _ Henc), DataFrame_nrows.
    exact Hlen.
Qed.

Ltac prove_success :=
  match goal with
  | |- is_success ?r =>
      let o := eval vm_compute in (fst r) in
      match o with
      | Returned ?v => exists v; split; vm_compute; reflexivity
      end
  end.

Lemma C2_two_feature_rows_per_item_witness :
  is_success (generate_predictions sample_env "2024-12-25" 19 false) /\
  exists bases enc X,
    NoDup (drop_duplicates (df_base sample_env)) /\
    (forall item, In item (drop_duplicates (df_base sample_env)) <-> In item (df_base sample_env)) /\
    map item_of bases = drop_duplicates (df_base sample_env) /\
    get_dummies (DataFrame (flat_map two_rows bases)) categorical = Returned enc /\
    reindex enc (model_columns sample_env) (JInt 0) = Returned X /\
    In (Scored X) (snd (generate_predictions sample_env "2024-12-25" 19 false)) /\
    List.length (flat_map two_rows bases)
      = (2 * List.length (drop_duplicates (df_base sample_env)))%nat /\
    nrows X = (2 * List.length (drop_duplicates (df_base sample_env)))%nat.
Proof.
  split.
  - prove_success.
  - apply C2_two_feature_rows_per_item. prove_success.
Defined.

(** ** Texts and their characters *)

Lemma append_assoc (a b c : string) : ((a ++ b) ++ c = a ++ b ++ c)%string.
Proof. induction a as [| x a IH]; simpl; [reflexivity | rewrite IH; reflexivity]. Qed.

Lemma append_nil_r (a : string) : (a ++ "" = a)%string.
Proof. induction a as [| x a IH]; simpl; [reflexivity | rewrite IH; reflexivity]. Qed.

Ltac head_cases :=
  repeat match goal with
         | H : context [if ?b then _ else _] |- _ => destruct b
         | H : context [match ?s with EmptyString => _ | String _ _ => _ end] |- _ =>
             destruct s; cbn [append] in *
         | H : None = Some _ |- _ => discriminate H
         | H : Some _ = Some _ |- _ => injection H as <- <-
         end.

Lemma utf8_head_app c cp rest r :
  utf8_head c = Some (cp, rest) -> utf8_head (c ++ r) = Some (cp, (rest ++ r)%string).
Proof.
  unfold utf8_head. intros H. head_cases; reflexivity.
Qed.

Lemma utf8_head_inv s cp r :
  utf8_head s = Some (cp, r) ->
  exists c, s = (c ++ r)%string /\ utf8_head c = Some (cp, EmptyString).
Proof.
  unfold utf8_head. intros H.
  destruct s as [| a r1]; [discriminate H |].
  destruct (byte_between 0 127 a) eqn:Ha.
  { injection H as <- <-. exists (String a ""). simpl. rewrite Ha. split; reflexivity. }
  destruct r1 as [| b r2]; [discriminate H |].
  destruct (negb (is_continuation b)) eqn:Hb; [discriminate H |].
  destruct (byte_between 194 223 a) eqn:Ha2.
  { injection H as <- <-. exists (String a (String b "")). simpl.
    rewrite Ha, Hb, Ha2. split; reflexivity. }
  destruct r2 as [| c r3]; [discriminate H |].
  destruct (negb (is_continuation c)) eqn:Hc; [discriminate H |].
  destruct (byte_between 224 239 a) eqn:Ha3.
  { match type of H with (if ?t then _ else _) = _ => destruct t eqn:Hcp end;
      [| discriminate H].
    injection H as <- <-. exists (String a (String b (String c ""))). simpl.
    rewrite Ha, Hb, Ha2, Hc, Ha3, Hcp. split; reflexivity. }
  destruct r3 as [| d r4]; [discriminate H |].
  match type of H with (if ?t then _ else _) = _ => destruct t eqn:Hd end;
    [| discriminate H].
  match type of H with (if ?t then _ else _) = _ => destruct t eqn:Hcp end;
    [| discriminate H].
  injection H as <- <-. exists (String a (String b (String c (String d "")))). simpl.
  rewrite Ha, Hb, Ha2, Hc, Ha3, Hd, Hcp. split; reflexivity.
Qed.

(** ** [strptime] *)

Lemma re_digit_app c k r : decimal c k -> re_digit (c ++ r) = Some (k, r).
Proof.
  unfold decimal, re_digit. intros H.
  destruct (utf8_head c) as [[cp rest] |] eqn:Hhead; [| discriminate H].
  rewrite (utf8_head_app _ _ _ r Hhead).
  destruct (decimal_value cp) as [v |]; [| discriminate H].
  injection H as -> ->. reflexivity.
Qed.

Lemma re_digit_inv s k r :
  re_digit s = Some (k, r) -> exists c, s = (c ++ r)%string /\ decimal c k.
Proof.
  unfold decimal, re_digit. intros H.
  destruct (utf8_head s) as [[cp rest] |] eqn:Hhead; [| discriminate H].
  destruct (decimal_value cp) as [v |] eqn:Hv; [| discriminate H].
  injection H as -> ->.
  destruct (utf8_head_inv _ _ _ Hhead) as (c & -> & Hc).
  exists c. split; [reflexivity |]. rewrite Hc, Hv. reflexivity.
Qed.

Lemma decimal_value_bound cp v : decimal_value cp = Some v -> (0 <= v <= 9)%Z.
Proof.
  unfold decimal_value.
  destruct (find _ decimal_zeros) as [zero |] eqn:Hfind; [| discriminate].
  apply find_some in Hfind. destruct Hfind as [_ Hin].
  apply andb_true_iff in Hin. destruct Hin as [H1 H2].
  apply N.leb_le in H1. apply N.ltb_lt in H2.
  intros H. injection H as <-. lia.
Qed.

Lemma decimal_bound c k : decimal c k -> (0 <= k <= 9)%Z.
Proof.
  unfold decimal, re_digit.
  destruct (utf8_head c) as [[cp rest] |]; [| discriminate].
  destruct (decimal_value cp) as [v |] eqn:Hv; [| discriminate].
  intros H. injection H as <- _. exact (decimal_value_bound _ _ Hv).
Qed.

Lemma digit_cases k : (0 <= k <= 9)%Z ->
  (k = 0 \/ k = 1 \/ k = 2 \/ k = 3 \/ k = 4 \/ k = 5 \/ k = 6 \/ k = 7 \/ k = 8 \/ k = 9)%Z.
Proof. lia. Qed.

Ltac each_digit k H :=
  let Hc := fresh "Hc" in
  pose proof (digit_cases k H) as Hc;
  repeat (destruct Hc as [-> | Hc]); [.. | subst k].

(** An ASCII digit is a decimal digit. *)
Lemma decimal_digit k : (0 <= k <= 9)%Z -> decimal (digit k) k.
Proof. intros H. each_digit k H; reflexivity. Qed.

Lemma re_digit_digit k r : (0 <= k <= 9)%Z -> re_digit (String (digit_char k) r) = Some (k, r).
Proof. intros H. exact (re_digit_app (digit k) k r (decimal_digit k H)). Qed.

Lemma nat_of_digit_char k : (0 <= k <= 9)%Z -> nat_of_ascii (digit_char k) = (48 + Z.to_nat k)%nat.
Proof. intros H. each_digit k H; reflexivity. Qed.

Lemma digit_val_char k : (0 <= k <= 9)%Z -> digit_val (digit_char k) = k.
Proof. intros H. unfold digit_val. rewrite (nat_of_digit_char k H). lia. Qed.

Lemma re_range_digit lo hi k r :
  (0 <= k <= 9)%Z ->
  re_range lo hi (String (digit_char k) r)
  = if ((digit_val lo <=? k) && (k <=? digit_val hi))%Z then Some (k, r) else None.
Proof.
  intros H. unfold re_range, in_range.
  rewrite (digit_val_char k H). unfold digit_val. rewrite (nat_of_digit_char k H).
  destruct (Nat.leb_spec (nat_of_ascii lo) (48 + Z.to_nat k));
    destruct (Nat.leb_spec (48 + Z.to_nat k) (nat_of_ascii hi));
    destruct (Z.leb_spec (Z.of_nat (nat_of_ascii lo) - 48) k);
    destruct (Z.leb_spec k (Z.of_nat (nat_of_ascii hi) - 48));
    simpl; try reflexivity; lia.
Qed.

Lemma re_range_inv lo hi s k r :
  (0 <= digit_val lo)%Z -> (digit_val hi <= 9)%Z ->
  re_range lo hi s = Some (k, r) ->
  s = String (digit_char k) r /\ (digit_val lo <= k <= digit_val hi)%Z.
Proof.
  unfold re_range, in_range, digit_val. intros Hlo Hhi H.
  destruct s as [| a rest]; [discriminate H |].
  destruct (Nat.leb_spec (nat_of_ascii lo) (nat_of_ascii a)); [| discriminate H].
  destruct (Nat.leb_spec (nat_of_ascii a) (nat_of_ascii hi)); [| discriminate H].
  simpl in H. injection H as <- <-. unfold digit_char.
  split; [| lia].
  replace (48 + Z.to_nat (Z.of_nat (nat_of_ascii a) - 48))%nat with (nat_of_ascii a) by lia.
  rewrite ascii_nat_embedding. reflexivity.
Qed.

Lemma two_chars_inv p1 p2 s v r :
  In (v, r) (two_chars p1 p2 s) ->
  exists a b r1, p1 s = Some (a, r1) /\ p2 r1 = Some (b, r) /\ v = (10 * a + b)%Z.
Proof.
  unfold two_chars.
  destruct (p1 s) as [[a r1] |]; [| intros []].
  destruct (p2 r1) as [[b r2] |] eqn:H2; [| intros []].
  intros [H | []]. injection H as <- <-. exists a, b, r1.
  split; [reflexivity |]. split; [exact H2 | reflexivity].
Qed.

Lemma one_char_inv p s v r : In (v, r) (one_char p s) -> p s = Some (v, r).
Proof.
  unfold one_char. destruct (p s) as [x |]; [| intros []].
  intros [H | []]. subst x. reflexivity.
Qed.

Lemma space_char_inv p s v r :
  In (v, r) (space_char p s) -> exists r1, s = String " " r1 /\ p r1 = Some (v, r).
Proof.
  unfold space_char. destruct s as [| a rest]; [intros [] |].
  destruct (Ascii.eqb_spec a " ") as [-> | _]; [| intros []].
  intros H. exists rest. split; [reflexivity | exact (one_char_inv _ _ _ _ H)].
Qed.

Lemma re_dash_inv s r : In r (re_dash s) -> s = String "-" r.
Proof.
  unfold re_dash. destruct s as [| a rest]; [intros [] |].
  destruct (Ascii.eqb_spec a "-") as [-> | _]; [| intros []].
  intros [-> | []]. reflexivity.
Qed.

Ltac range_inv H :=
  apply re_range_inv in H; [| vm_compute; discriminate | vm_compute; discriminate];
  let Hb := fresh "Hb" in
  destruct H as [-> Hb];
  match type of Hb with
  | (digit_val ?lo <= _ <= digit_val ?hi)%Z =>
      let l := eval vm_compute in (digit_val lo) in
      let h := eval vm_compute in (digit_val hi) in
      change (digit_val lo) with l in Hb; change (digit_val hi) with h in Hb
  end.

Lemma re_Y_inv s y r :
  In (y, r) (re_Y s) -> exists t, s = (t ++ r)%string /\ year_text t y.
Proof.
  unfold re_Y.
  destruct (re_digit s) as [[k1 r1] |] eqn:H1; [| intros []].
  destruct (re_digit r1) as [[k2 r2] |] eqn:H2; [| intros []].
  destruct (re_digit r2) as [[k3 r3] |] eqn:H3; [| intros []].
  destruct (re_digit r3) as [[k4 r4] |] eqn:H4; [| intros []].
  intros [H | []]. injection H as <- <-.
  destruct (re_digit_inv _ _ _ H1) as (c1 & -> & Hc1).
  destruct (re_digit_inv _ _ _ H2) as (c2 & -> & Hc2).
  destruct (re_digit_inv _ _ _ H3) as (c3 & -> & Hc3).
  destruct (re_digit_inv _ _ _ H4) as (c4 & -> & Hc4).
  exists (c1 ++ c2 ++ c3 ++ c4)%string. split.
  - rewrite !append_assoc. reflexivity.
  - exists c1, c2, c3, c4, k1, k2, k3, k4. repeat split; assumption.
Qed.

Lemma re_m_inv s m r :
  In (m, r) (re_m s) -> exists t, s = (t ++ r)%string /\ month_text t m.
Proof.
  unfold re_m. intros H.
  repeat (apply in_app_or in H; destruct H as [H | H]).
  - apply two_chars_inv in H. destruct H as (a & b & r1 & Ha & Hb & ->).
    range_inv Ha. range_inv Hb.
    exists ("1" ++ digit b)%string. split; [assert (a = 1%Z) as -> by lia; reflexivity |].
    right. split; [lia |]. replace (10 * a + b - 10)%Z with b by lia. reflexivity.
  - apply two_chars_inv in H. destruct H as (a & b & r1 & Ha & Hb & ->).
    range_inv Ha. range_inv Hb.
    exists ("0" ++ digit b)%string. split; [assert (a = 0%Z) as -> by lia; reflexivity |].
    left. split; [lia |]. right. replace (10 * a + b)%Z with b by lia. reflexivity.
  - apply one_char_inv in H. range_inv H.
    exists (digit m). split; [reflexivity |]. left. split; [lia | left; reflexivity].
Qed.

Lemma re_d_inv s d r :
  In (d, r) (re_d s) -> exists t, s = (t ++ r)%string /\ day_text t d.
Proof.
  unfold re_d. intros H.
  repeat (apply in_app_or in H; destruct H as [H | H]).
  - apply two_chars_inv in H. destruct H as (a & b & r1 & Ha & Hb & ->).
    range_inv Ha. range_inv Hb.
    exists ("3" ++ digit b)%string. split; [assert (a = 3%Z) as -> by lia; reflexivity |].
    right. right. split; [lia |]. replace (10 * a + b - 30)%Z with b by lia. reflexivity.
  - apply two_chars_inv in H. destruct H as (a & b & r1 & Ha & Hb & ->).
    range_inv Ha. destruct (re_digit_inv _ _ _ Hb) as (c & -> & Hc).
    pose proof (decimal_bound _ _ Hc) as Hk.
    exists (digit a ++ c)%string. split; [reflexivity |].
    right. left. split; [lia |]. exists c.
    replace ((10 * a + b) / 10)%Z with a by (apply Z.div_unique with b; lia).
    replace ((10 * a + b) mod 10)%Z with b by (apply Z.mod_unique with a; lia).
    split; [reflexivity | exact Hc].
  - apply two_chars_inv in H. destruct H as (a & b & r1 & Ha & Hb & ->).
    range_inv Ha. range_inv Hb.
    exists ("0" ++ digit b)%string. split; [assert (a = 0%Z) as -> by lia; reflexivity |].
    left. split; [lia |]. right. left. replace (10 * a + b)%Z with b by lia. reflexivity.
  - apply one_char_inv in H. range_inv H.
    exists (digit d). split; [reflexivity |]. left. split; [lia | left; reflexivity].
  - apply space_char_inv in H. destruct H as (r1 & -> & H). range_inv H.
    exists (" " ++ digit d)%string. split; [reflexivity |].
    left. split; [lia | right; right; reflexivity].
Qed.

Lemma re_Ymd_inv s y m d r :
  In (y, m, d, r) (re_Ymd s) ->
  exists ty tm td,
    s = (ty ++ "-" ++ tm ++ "-" ++ td ++ r)%string /\
    year_text ty y /\ month_text tm m /\ day_text td d.
Proof.
  unfold re_Ymd. intros Hin.
  apply in_flat_map in Hin. destruct Hin as [[y' r1] [HY Hin]].
  apply in_flat_map in Hin. destruct Hin as [r2 [Hd1 Hin]].
  apply in_flat_map in Hin. destruct Hin as [[m' r3] [Hm Hin]].
  apply in_flat_map in Hin. destruct Hin as [r4 [Hd2 Hin]].
  apply in_map_iff in Hin. destruct Hin as [[d' r5] [Heq Hd]].
  injection Heq as -> -> -> ->.
  destruct (re_Y_inv _ _ _ HY) as (ty & -> & Hty).
  apply re_dash_inv in Hd1. subst r1.
  destruct (re_m_inv _ _ _ Hm) as (tm & -> & Htm).
  apply re_dash_inv in Hd2. subst r3.
  destruct (re_d_inv _ _ _ Hd) as (td & -> & Htd).
  exists ty, tm, td. split; [reflexivity | repeat split; assumption].
Qed.

(** The other way round: what the groups give on the written forms. *)
Lemma re_Y_year t y r : year_text t y -> re_Y (t ++ r) = [(y, r)].
Proof.
  intros (c1 & c2 & c3 & c4 & k1 & k2 & k3 & k4 & -> & H1 & H2 & H3 & H4 & ->).
  unfold re_Y. rewrite !append_assoc.
  rewrite (re_digit_app _ _ _ H1), (re_digit_app _ _ _ H2), (re_digit_app _ _ _ H3),
    (re_digit_app _ _ _ H4).
  reflexivity.
Qed.

Lemma re_m_month t m r :
  month_text t m -> exists others, re_m (t ++ String "-" r) = (m, String "-" r) :: others.
Proof.
  intros [[Hm [-> | ->]] | [Hm ->]].
  - assert (H : (0 <= m <= 9)%Z) by lia. unfold re_m, two_chars, one_char, digit.
    cbn [append]. rewrite !(re_range_digit _ _ m _ H).
    each_digit m H; try lia; eexists; reflexivity.
  - assert (H : (0 <= m <= 9)%Z) by lia. unfold re_m, two_chars, one_char, digit.
    cbn [append].
    change (re_range "1" "1" (String "0" ?x)) with (@None (Z * string)).
    change (re_range "1" "9" (String "0" ?x)) with (@None (Z * string)).
    change (re_range "0" "0" (String "0" ?x)) with (Some (0%Z, x)).
    cbv iota beta. rewrite !(re_range_digit _ _ m _ H).
    each_digit m H; try lia; eexists; reflexivity.
  - assert (H : (0 <= m - 10 <= 9)%Z) by lia. unfold re_m, two_chars, one_char, digit.
    cbn [append].
    change (re_range "1" "1" (String "1" ?x)) with (Some (1%Z, x)).
    cbv iota beta. rewrite !(re_range_digit _ _ (m - 10) _ H).
    assert (Hc : (m = 10 \/ m = 11 \/ m = 12)%Z) by lia.
    destruct Hc as [-> | [-> | ->]]; eexists; reflexivity.
Qed.

Lemma re_d_day t d : day_text t d -> exists others, re_d t = (d, EmptyString) :: others.
Proof.
  intros [[Hd [-> | [-> | ->]]] | [[Hd (c & -> & Hc)] | [Hd ->]]].
  - assert (H : (0 <= d <= 9)%Z) by lia. each_digit d H; try lia; eexists; reflexivity.
  - assert (H : (0 <= d <= 9)%Z) by lia. each_digit d H; try lia; eexists; reflexivity.
  - assert (H : (0 <= d <= 9)%Z) by lia. each_digit d H; try lia; eexists; reflexivity.
  - assert (Hq : (d / 10 = 1 \/ d / 10 = 2)%Z) by (Z.div_mod_to_equations; lia).
    assert (Hd' : d = (10 * (d / 10) + d mod 10)%Z) by (apply Z.div_mod; lia).
    unfold decimal in Hc. unfold re_d, two_chars.
    destruct Hq as [Hq | Hq]; rewrite Hq in *; cbn [digit append].
    + change (re_range "3" "3" (String (digit_char 1) c)) with (@None (Z * string)).
      change (re_range "1" "2" (String (digit_char 1) c)) with (Some (1%Z, c)).
      cbv iota beta. rewrite Hc. rewrite <- Hd'. eexists. reflexivity.
    + change (re_range "3" "3" (String (digit_char 2) c)) with (@None (Z * string)).
      change (re_range "1" "2" (String (digit_char 2) c)) with (Some (2%Z, c)).
      cbv iota beta. rewrite Hc. rewrite <- Hd'. eexists. reflexivity.
  - assert (Hc : (d = 30 \/ d = 31)%Z) by lia.
    destruct Hc as [-> | ->]; eexists; reflexivity.
Qed.

Lemma written_date_parses s d : written_date s d -> strptime_Ymd s = Some d.
Proof.
  intros (ty & tm & td & -> & Hy & Hm & Hd & Hcheck).
  destruct (re_m_month tm (month d) td Hm) as [others_m Hre_m].
  destruct (re_d_day td (day d) Hd) as [others_d Hre_d].
  unfold strptime_Ymd, re_Ymd. cbn [append].
  rewrite (re_Y_year ty (year d) _ Hy). cbn [flat_map re_dash].
  change (Ascii.eqb "-" "-") with true. cbv iota. cbn [flat_map].
  rewrite Hre_m. cbn [flat_map re_dash].
  change (Ascii.eqb "-" "-") with true. cbv iota. cbn [flat_map].
  rewrite Hre_d. cbn [map app]. rewrite Hcheck. destruct d. reflexivity.
Qed.

Lemma parsed_date_written s d : strptime_Ymd s = Some d -> written_date s d.
Proof.
  unfold strptime_Ymd.
  destruct (re_Ymd s) as [| [[[y m] d'] rest] l] eqn:Hre; [discriminate |].
  destruct rest; [| discriminate].
  destruct (check_date_fields y m d') eqn:Hcheck; [| discriminate].
  intros H. injection H as <-.
  destruct (re_Ymd_inv s y m d' EmptyString) as (ty & tm & td & -> & Hy & Hm & Hd).
  { rewrite Hre. left. reflexivity. }
  exists ty, tm, td. rewrite append_nil_r. repeat split; assumption.
Qed.

Lemma strptime_written s d : strptime_Ymd s = Some d <-> written_date s d.
Proof. split; [apply parsed_date_written | apply written_date_parses]. Qed.

Lemma invalid_date_iff E s h ev :
  generate_predictions E s h ev = (Returned invalid_date_error, []) <-> strptime_Ymd s = None.
Proof.
  unfold generate_predictions. destruct (strptime_Ymd s) as [d |]; [| tauto].
  split; [| discriminate]. unfold get_hourly_weather_forecast.
  destruct (negb _).
  - cbn. intros H. discriminate H.
  - destruct (fetch_hour E _ h) as [w | e].
    + destruct (py_in "error" w) as [[|] | e']; try (intros H; discriminate H).
      destruct (prepare_features E d h ev w) as [[scenarios X] | e'];
        intros H; discriminate H.
    + cbn. intros H. discriminate H.
Qed.

(** C5, as the code has it. The texts read as a date are those that write a
    date of the calendar as four decimal digits, a dash, the month (1 to
    12, a zero before it allowed below 10), a dash, and the day (1 to 31
    within the month, a zero or a space before it allowed below 10); the
    year's digits and the second digit of a day from 10 to 29 may be decimal
    digits of any script.  Every other text, such as "25-12-2024", yields
    the invalid-date error and no outbound call, and only such a text does;
    "2025-1-5" is read as a date although it is not of the form
    YYYY-MM-DD. *)
Theorem C5_malformed_date_rejected E s h ev :
  (forall d, written_date s d <-> strptime_Ymd s = Some d) /\
  ((forall d, ~ written_date s d) <->
   generate_predictions E s h ev = (Returned invalid_date_error, [])) /\
  (forall d, ~ written_date "25-12-2024" d) /\
  written_date "2025-1-5" (mkdate 2025 1 5) /\
  exactly_YYYY_MM_DD "2025-1-5" = false.
Proof.
  split; [intros d; symmetry; apply strptime_written |].
  split; [| split; [| split]].
  - rewrite invalid_date_iff. split.
    + intros Hnone. destruct (strptime_Ymd s) as [d |] eqn:Hs; [| reflexivity].
      exfalso. exact (Hnone d (proj1 (strptime_written s d) Hs)).
    + intros Hs d Hd. apply strptime_written in Hd. congruence.
  - intros d Hd. apply strptime_written in Hd. discriminate Hd.
  - apply strptime_written. reflexivity.
  - reflexivity.
Qed.

Lemma C5_malformed_date_rejected_witness :
  (forall d, ~ written_date "25-12-2024" d) /\
  generate_predictions sample_env "25-12-2024" 19 false = (Returned invalid_date_error, []).
Proof.
  destruct (C5_malformed_date_rejected sample_env "25-12-2024" 19 false)
    as (_ & Hiff & Hnone & _).
  split; [exact Hnone | exact (proj1 Hiff Hnone)].
Defined.

(** C5 as stated fails: "2025-1-5" is not of the form YYYY-MM-DD, yet it is
    parsed, the weather provider is called and a prediction comes back. *)
Lemma C5_counterexample :
  exactly_YYYY_MM_DD "2025-1-5" = false /\
  strptime_Ymd "2025-1-5" = Some (mkdate 2025 1 5) /\
  fst (generate_predictions (sample_env_on (mkdate 2025 1 3)) "2025-1-5" 19 false)
    <> Returned invalid_date_error /\
  exists r, In (Outbound r)
              (snd (generate_predictions (sample_env_on (mkdate 2025 1 3)) "2025-1-5" 19 false)).
Proof.
  split; [reflexivity |]. split; [reflexivity |]. split.
  - vm_compute. discriminate.
  - eexists. vm_compute. left. reflexivity.
Qed.

(** A year in fullwidth digits, and a day whose second digit is
    Arabic-Indic, are read like their ASCII forms. *)
Example strptime_other_scripts :
  strptime_Ymd "２０２５-01-05" = Some (mkdate 2025 1 5) /\
  strptime_Ymd "2025-1-1٥" = Some (mkdate 2025 1 15) /\
  strptime_Ymd "2025-1-3١" = None /\
  strptime_Ymd "2025-١-5" = None.
Proof. repeat split; reflexivity. Qed.

(** ** The weather lookup *)

Lemma in_window_spec days :
  ((0 <? days) && (days <=? 14))%Z = true <-> (0 < days <= 14)%Z.
Proof. rewrite andb_true_iff, Z.ltb_lt, Z.leb_le. reflexivity. Qed.

Lemma weather_out_of_range E location d h :
  ~ (0 < forecast_days E d <= 14)%Z ->
  get_hourly_weather_forecast E location d h = (out_of_range_error, []).
Proof.
  intros Hout. unfold get_hourly_weather_forecast.
  destruct ((0 <? forecast_days E d) && (forecast_days E d <=? 14))%Z eqn:Hw.
  - apply in_window_spec in Hw. contradiction.
  - reflexivity.
Qed.

Lemma weather_in_range E location d h :
  (0 < forecast_days E d <= 14)%Z ->
  get_hourly_weather_forecast E location d h
  = (match fetch_hour E (weather_request E location (forecast_days E d)) h with
     | Returned hour => hour
     | Raised e => error_dict ("API or data parsing error: " ++ exn_str E e)
     end, [Outbound (weather_request E location (forecast_days E d))]).
Proof.
  intros Hin. unfold get_hourly_weather_forecast.
  apply in_window_spec in Hin. rewrite Hin. simpl.
  destruct (fetch_hour E _ h); reflexivity.
Qed.

(** C6. The weather lookup computes the offset as (target - today) + 1 and
    returns the out-of-range error without issuing a request exactly when the
    offset is outside (0, 14]; inside the window it issues one request for
    that many days.  A request for such a date ends with that error and an
    empty trace: no outbound call and no scoring. *)
Theorem C6_out_of_range E location d h :
  let days := (date_diff_days d (today E) + 1)%Z in
  let result := get_hourly_weather_forecast E location d h in
  ((fst result = out_of_range_error /\ snd result = []) <-> ~ (0 < days <= 14)%Z) /\
  ((0 < days <= 14)%Z -> snd result = [Outbound (weather_request E location days)]) /\
  (~ (0 < days <= 14)%Z ->
   forall s ev, strptime_Ymd s = Some d ->
     generate_predictions E s h ev = (Returned out_of_range_error, [])).
Proof.
  intros days result. subst result. change days with (forecast_days E d).
  split; [| split].
  - split.
    + intros [_ Htr] Hin. rewrite (weather_in_range _ _ _ _ Hin) in Htr. discriminate Htr.
    + intros Hout. rewrite (weather_out_of_range _ _ _ _ Hout). split; reflexivity.
  - intros Hin. rewrite (weather_in_range _ _ _ _ Hin). reflexivity.
  - intros Hout s ev Hparse. unfold generate_predictions.
    rewrite Hparse, (weather_out_of_range _ _ _ _ Hout). reflexivity.
Qed.

Lemma C6_out_of_range_witness :
  let d := mkdate 2025 1 20 in
  ~ (0 < date_diff_days d (today sample_env) + 1 <= 14)%Z /\
  strptime_Ymd "2025-01-20" = Some d /\
  generate_predictions sample_env "2025-01-20" 19 false = (Returned out_of_range_error, []).
Proof.
  intros d.
  assert (Hout : ~ (0 < date_diff_days d (today sample_env) + 1 <= 14)%Z).
  { vm_compute. intros [_ H]. apply H. reflexivity. }
  split; [exact Hout |]. split; [reflexivity |].
  exact (proj2 (proj2 (C6_out_of_range sample_env RESTAURANT_LOCATION d 19)) Hout
               "2025-01-20" false eq_refl).
Defined.

(** The three ways the lookup fails upstream. *)
Lemma fetch_hour_transport_failure E req h e :
  requests_get E req = Raised e -> fetch_hour E req h = Raised e.
Proof. unfold fetch_hour. intros ->. reflexivity. Qed.

Lemma fetch_hour_bad_status E req h r :
  requests_get E req = Returned r -> (400 <= status_code r < 600)%Z ->
  fetch_hour E req h = Raised (HTTPError (status_code r)).
Proof.
  unfold fetch_hour, raise_for_status. intros -> [H1 H2]. simpl.
  apply Z.leb_le in H1. apply Z.ltb_lt in H2. rewrite H1, H2. reflexivity.
Qed.

Lemma fetch_hour_missing_hour E req h r hours :
  requests_get E req = Returned r ->
  raise_for_status r = Returned tt ->
  body r = Some (JObj [("forecast", JObj [("forecastday", JArr [JObj [("hour", JArr hours)]])])]) ->
  (Z.of_nat (List.length hours) <= h)%Z ->
  fetch_hour E req h = Raised IndexError.
Proof.
  unfold fetch_hour, response_json. intros -> Hst Hbody Hlen. simpl.
  rewrite Hst, Hbody. simpl. unfold seq_index.
  destruct (0 <=? h)%Z eqn:H0; simpl.
  - destruct (h <? Z.of_nat (List.length hours))%Z eqn:H1; [apply Z.ltb_lt in H1; lia |].
    destruct (- Z.of_nat (List.length hours) <=? h)%Z; simpl.
    + destruct (h <? 0)%Z eqn:H2; [apply Z.ltb_lt in H2; apply Z.leb_le in H0; lia |].
      reflexivity.
    + reflexivity.
  - apply Z.leb_gt in H0. lia.
Qed.

(** C7. When the lookup fails upstream, the service returns the lookup's
    error dict as it is: it has the [error] key and neither prediction key,
    the classifier is not called, and the reply does not depend on the menu,
    the schema, the classifier, the holiday calendar or the sort routine. *)
Theorem C7_weather_failure_propagates E s h ev d e :
  strptime_Ymd s = Some d ->
  (0 < forecast_days E d <= 14)%Z ->
  fetch_hour E (weather_request E RESTAURANT_LOCATION (forecast_days E d)) h = Raised e ->
  let req := weather_request E RESTAURANT_LOCATION (forecast_days E d) in
  let msg := ("API or data parsing error: " ++ exn_str E e)%string in
  get_hourly_weather_forecast E RESTAURANT_LOCATION d h = (error_dict msg, [Outbound req]) /\
  generate_predictions E s h ev = (Returned (error_dict msg), [Outbound req]) /\
  getitem_str (error_dict msg) "error" = Returned (JStr msg) /\
  py_in "overall_prediction" (error_dict msg) = Returned false /\
  py_in "detailed_prediction" (error_dict msg) = Returned false /\
  (forall X, ~ In (Scored X) (snd (generate_predictions E s h ev))) /\
  (forall menu schema classifier calendar sorter,
     generate_predictions
       (mkenv (today E) (api_key E) menu schema classifier calendar
              (requests_get E) sorter (exn_str E)) s h ev
     = generate_predictions E s h ev).
Proof.
  intros Hparse Hin Hfail req msg.
  assert (Hw : get_hourly_weather_forecast E RESTAURANT_LOCATION d h
               = (error_dict msg, [Outbound req])).
  { rewrite (weather_in_range _ _ _ _ Hin), Hfail. reflexivity. }
  assert (Hgp : generate_predictions E s h ev = (Returned (error_dict msg), [Outbound req])).
  { unfold generate_predictions. rewrite Hparse, Hw. reflexivity. }
  split; [exact Hw |]. split; [exact Hgp |].
  split; [reflexivity |]. split; [reflexivity |]. split; [reflexivity |]. split.
  - intros X HX. rewrite Hgp in HX. simpl in HX. destruct HX as [HX | []]. discriminate HX.
  - intros menu schema classifier calendar sorter. rewrite Hgp.
    unfold generate_predictions. rewrite Hparse.
    set (E' := mkenv _ _ _ _ _ _ _ _ _).
    assert (Hw' : get_hourly_weather_forecast E' RESTAURANT_LOCATION d h
                  = (error_dict msg, [Outbound req])).
    { rewrite (weather_in_range E' _ _ _ Hin).
      change (weather_request E' RESTAURANT_LOCATION (forecast_days E' d)) with req.
      change (fetch_hour E' req h) with (fetch_hour E req h).
      unfold req at 1. rewrite Hfail. reflexivity. }
    rewrite Hw'. reflexivity.
Qed.

Lemma C7_weather_failure_propagates_witness :
  let d := mkdate 2024 12 25 in
  let e := TransportError "connection refused" in
  let req := weather_request offline_env RESTAURANT_LOCATION (forecast_days offline_env d) in
  let msg := ("API or data parsing error: " ++ exn_str offline_env e)%string in
  strptime_Ymd "2024-12-25" = Some d /\
  (0 < forecast_days offline_env d <= 14)%Z /\
  fetch_hour offline_env req 19 = Raised e /\
  generate_predictions offline_env "2024-12-25" 19 false
  = (Returned (error_dict msg), [Outbound req]).
Proof.
  intros d e req msg.
  assert (Hin : (0 < forecast_days offline_env d <= 14)%Z) by (vm_compute; split; congruence).
  split; [reflexivity |]. split; [exact Hin |]. split; [reflexivity |].
  exact (proj1 (proj2 (C7_weather_failure_propagates offline_env "2024-12-25" 19 false d e
                         eq_refl Hin eq_refl))).
Defined.

(** ** Determinism *)

Section Determinism.

(** Two runs of the module: the same clock, the same artifacts, and a
    provider that gives the same answer to the request the runs issue. *)
Variables E1 E2 : env.
Variable target_date_str : string.

Hypothesis same_today : today E1 = today E2.
Hypothesis same_key : api_key E1 = api_key E2.
Hypothesis same_menu : df_base E1 = df_base E2.
Hypothesis same_schema : model_columns E1 = model_columns E2.
Hypothesis same_model : forall X, predict_proba E1 X = predict_proba E2 X.
Hypothesis same_calendar : forall d, holiday_calendar E1 d = holiday_calendar E2 d.
Hypothesis same_sort : forall l, argsort E1 l = argsort E2 l.
Hypothesis same_str : forall e, exn_str E1 e = exn_str E2 e.
Hypothesis same_weather : forall d,
  strptime_Ymd target_date_str = Some d ->
  requests_get E1 (weather_request E1 RESTAURANT_LOCATION (forecast_days E1 d))
  = requests_get E2 (weather_request E1 RESTAURANT_LOCATION (forecast_days E1 d)).

Lemma forecast_days_agree d : forecast_days E1 d = forecast_days E2 d.
Proof. unfold forecast_days. rewrite same_today. reflexivity. Qed.

Lemma weather_request_agree loc days :
  weather_request E1 loc days = weather_request E2 loc days.
Proof. unfold weather_request. rewrite same_key. reflexivity. Qed.

Lemma weather_agree d h :
  strptime_Ymd target_date_str = Some d ->
  get_hourly_weather_forecast E1 RESTAURANT_LOCATION d h
  = get_hourly_weather_forecast E2 RESTAURANT_LOCATION d h.
Proof.
  intros Hparse. unfold get_hourly_weather_forecast, fetch_hour.
  rewrite <- forecast_days_agree, <- weather_request_agree, <- (same_weather d Hparse).
  destruct (negb _); [reflexivity |].
  destruct (bind _ _); [reflexivity |]. rewrite same_str. reflexivity.
Qed.

Lemma prepare_features_agree d h ev w :
  prepare_features E1 d h ev w = prepare_features E2 d h ev w.
Proof.
  unfold prepare_features. rewrite same_menu, same_calendar, same_schema. reflexivity.
Qed.

Lemma aggregate_agree s d h ev w future_df :
  aggregate E1 s d h ev w future_df = aggregate E2 s d h ev w future_df.
Proof.
  unfold aggregate, overall_frame, overall_ranking, sort_values_desc, nargsort_desc.
  rewrite same_sort, same_calendar. reflexivity.
Qed.

(** C9. Two requests with the same date text, hour and event flag, run
    against the same clock, the same artifacts and an unchanged weather
    answer, give the same result and the same trace. *)
Theorem C9_determinism h ev :
  generate_predictions E1 target_date_str h ev
  = generate_predictions E2 target_date_str h ev.
Proof.
  unfold generate_predictions. pose proof weather_agree as Hweather.
  destruct (strptime_Ymd target_date_str) as [d |]; [| reflexivity].
  rewrite (Hweather d h eq_refl).
  destruct (get_hourly_weather_forecast E2 RESTAURANT_LOCATION d h) as [w tr].
  destruct (py_in "error" w) as [[|] | e]; try reflexivity.
  rewrite prepare_features_agree.
  destruct (prepare_features E2 d h ev w) as [[scenarios X] | e]; [| reflexivity].
  rewrite same_model.
  destruct (predict_proba E2 X) as [probs | e]; [| reflexivity].
  simpl. destruct (assign_probability scenarios probs) as [future_df | e]; [| reflexivity].
  simpl. rewrite aggregate_agree. reflexivity.
Qed.

End Determinism.

Lemma C9_determinism_witness :
  generate_predictions sample_env "2024-12-25" 19 false
  = generate_predictions two_day_env "2024-12-25" 19 false /\
  requests_get sample_env (mkrequest base_url [("days", JInt 3)])
  <> requests_get two_day_env (mkrequest base_url [("days", JInt 3)]).
Proof.
  split.
  - apply C9_determinism; try reflexivity.
    intros d Hd. injection Hd as <-. reflexivity.
  - discriminate.
Defined.

(** ** [pivot] and duplicate entries *)

Lemma duplicated_pair_spec r rest :
  duplicated_pair r rest = true <-> In (fst r) (map fst rest).
Proof.
  unfold duplicated_pair, same_entry. rewrite existsb_exists, in_map_iff. split.
  - intros [r' [Hin Heq]]. exists r'. split; [| exact Hin].
    apply andb_true_iff in Heq. destruct Heq as [H1 H2].
    apply cell_eqb_eq in H1. apply String.eqb_eq in H2.
    destruct r as [[i c] v], r' as [[i' c'] v']. simpl in *. congruence.
  - intros [r' [Heq Hin]]. exists r'. split; [exact Hin |].
    rewrite Heq, cell_eqb_refl, String.eqb_refl. reflexivity.
Qed.

Lemma has_duplicate_pairs_spec rows :
  has_duplicate_pairs rows = false <-> NoDup (map fst rows).
Proof.
  induction rows as [| r rest IH]; simpl.
  - split; [constructor | reflexivity].
  - rewrite orb_false_iff, IH. split.
    + intros [Hr Hrest]. constructor; [| exact Hrest].
      intros Hin. apply duplicated_pair_spec in Hin. congruence.
    + intros H. inversion H as [| ? ? Hr Hrest]; subst. split; [| exact Hrest].
      destruct (duplicated_pair r rest) eqn:Hd; [| reflexivity].
      apply duplicated_pair_spec in Hd. contradiction.
Qed.

Lemma future_df_keys scenarios probs :
  List.length probs = List.length scenarios ->
  map fst (map name_type_probability (combine scenarios probs)) = map pivot_key scenarios.
Proof.
  revert probs. induction scenarios as [| s ss IH]; intros [| p ps] Hlen;
    simpl in *; try discriminate; [reflexivity |].
  rewrite IH by lia. reflexivity.
Qed.

Lemma pivot_keys_names bases n :
  In n (map food_item_name bases) ->
  In (n, "Dine In") (map pivot_key (flat_map two_rows bases)).
Proof.
  induction bases as [| b bases IH]; simpl; [tauto |].
  intros [<- | Hin]; [left; reflexivity | right; right; exact (IH Hin)].
Qed.

Lemma pivot_keys_NoDup_names bases :
  NoDup (map pivot_key (flat_map two_rows bases)) -> NoDup (map food_item_name bases).
Proof.
  induction bases as [| b bases IH]; simpl; intros H; [constructor |].
  inversion H as [| ? ? Hdi H']; subst. inversion H' as [| ? ? _ Hrest]; subst.
  constructor; [| exact (IH Hrest)].
  intros Hin. apply Hdi. right. apply pivot_keys_names. exact Hin.
Qed.

Lemma NoDup_fst_functional {A B : Type} (l : list (A * B)) a b1 b2 :
  NoDup (map fst l) -> In (a, b1) l -> In (a, b2) l -> b1 = b2.
Proof.
  induction l as [| [a' b'] l IH]; simpl; [tauto |].
  intros H. inversion H as [| ? ? Hnot Hl]; subst.
  intros [H1 | H1] [H2 | H2].
  - congruence.
  - injection H1 as -> ->. exfalso. apply Hnot. apply (in_map fst) in H2. exact H2.
  - injection H2 as -> ->. exfalso. apply Hnot. apply (in_map fst) in H1. exact H1.
  - exact (IH Hl H1 H2).
Qed.

Lemma map_fst_item_of bases :
  map fst (map item_of bases) = map food_item_name bases.
Proof. rewrite map_map. reflexivity. Qed.

Lemma aggregate_pivot E s d h ev w future_df v :
  aggregate E s d h ev w future_df = Returned v ->
  has_duplicate_pairs (map name_type_probability future_df) = false.
Proof.
  unfold aggregate, detailed_frame, pivot. intros H.
  destruct (has_duplicate_pairs (map name_type_probability future_df));
    [discriminate H | reflexivity].
Qed.

(** On a successful request no item name occurs twice among the distinct
    menu items. *)
Lemma success_names_NoDup E s h ev :
  is_success (generate_predictions E s h ev) ->
  NoDup (map fst (drop_duplicates (df_base E))).
Proof.
  intros [v [Hv Herr]].
  destruct (generate_predictions_success _ _ _ _ _ Hv Herr)
    as (d & w & tr & scenarios & X & probs & _ & _ & _ & Hprep & _ & Hlen & Hagg & _).
  destruct (prepare_features_inv _ _ _ _ _ _ _ Hprep) as (enc & Hbuild & _ & _).
  destruct (build_scenarios_inv _ _ _ _ _ _ _ _ Hbuild) as (bases & -> & Hitems & _).
  apply aggregate_pivot, has_duplicate_pairs_spec in Hagg.
  rewrite (future_df_keys _ _ Hlen) in Hagg.
  rewrite <- Hitems, map_fst_item_of. apply pivot_keys_NoDup_names. exact Hagg.
Qed.

(** C10. A request succeeds only if every item name of the reference set
    has one category.  Distinct items are distinct (name, category) pairs, so
    a name with two categories stays twice among them, and once scoring has
    come back the pivot step leaves by [ValueError]: an exception, not an
    error result. *)
Theorem C10_one_category_per_name E :
  (forall s h ev,
     is_success (generate_predictions E s h ev) ->
     forall n c1 c2, In (n, c1) (df_base E) -> In (n, c2) (df_base E) -> c1 = c2) /\
  (forall n c1 c2,
     In (n, c1) (df_base E) -> In (n, c2) (df_base E) -> c1 <> c2 ->
     In (n, c1) (drop_duplicates (df_base E)) /\
     In (n, c2) (drop_duplicates (df_base E)) /\
     forall s h ev d w tr scenarios X probs,
       strptime_Ymd s = Some d ->
       get_hourly_weather_forecast E RESTAURANT_LOCATION d h = (w, tr) ->
       py_in "error" w = Returned false ->
       prepare_features E d h ev w = Returned (scenarios, X) ->
       predict_proba E X = Returned probs ->
       List.length probs = List.length scenarios ->
       generate_predictions E s h ev
       = (Raised (ValueError "Index contains duplicate entries, cannot reshape"),
          tr ++ [Scored X])).
Proof.
  split.
  - intros s h ev Hok n c1 c2 H1 H2.
    apply (NoDup_fst_functional (drop_duplicates (df_base E)) n c1 c2).
    + exact (success_names_NoDup _ _ _ _ Hok).
    + apply drop_duplicates_In. exact H1.
    + apply drop_duplicates_In. exact H2.
  - intros n c1 c2 H1 H2 Hne.
    apply drop_duplicates_In in H1, H2.
    split; [exact H1 |]. split; [exact H2 |].
    intros s h ev d w tr scenarios X probs Hparse Hw Herr Hprep Hprobs Hlen.
    unfold generate_predictions. rewrite Hparse, Hw, Herr, Hprep, Hprobs.
    cbn [bind]. unfold assign_probability. rewrite Hlen, Nat.eqb_refl. cbn [bind].
    destruct (prepare_features_inv _ _ _ _ _ _ _ Hprep) as (enc & Hbuild & _ & _).
    destruct (build_scenarios_inv _ _ _ _ _ _ _ _ Hbuild) as (bases & -> & Hitems & _).
    unfold aggregate, detailed_frame, pivot.
    destruct (has_duplicate_pairs _) eqn:Hdup; [reflexivity |].
    exfalso. apply Hne.
    apply has_duplicate_pairs_spec in Hdup. rewrite (future_df_keys _ _ Hlen) in Hdup.
    apply pivot_keys_NoDup_names in Hdup. rewrite <- map_fst_item_of, Hitems in Hdup.
    exact (NoDup_fst_functional _ n c1 c2 Hdup H1 H2).
Qed.

Lemma C10_one_category_per_name_witness :
  In (Str "Burger", Str "Main") (df_base ambiguous_env) /\
  In (Str "Burger", Str "Snack") (df_base ambiguous_env) /\
  Str "Main" <> Str "Snack" /\
  exists tr X,
    generate_predictions ambiguous_env "2024-12-25" 19 false
    = (Raised (ValueError "Index contains duplicate entries, cannot reshape"),
       tr ++ [Scored X]).
Proof.
  assert (H1 : In (Str "Burger", Str "Main") (df_base ambiguous_env)) by (left; reflexivity).
  assert (H2 : In (Str "Burger", Str "Snack") (df_base ambiguous_env))
    by (right; left; reflexivity).
  assert (Hne : Str "Main" <> Str "Snack") by discriminate.
  split; [exact H1 |]. split; [exact H2 |]. split; [exact Hne |].
  destruct (proj2 (C10_one_category_per_name ambiguous_env) _ _ _ H1 H2 Hne) as (_ & _ & Hraise).
  destruct (get_hourly_weather_forecast ambiguous_env RESTAURANT_LOCATION
              (mkdate 2024 12 25) 19) as [w tr] eqn:Hw.
  destruct (prepare_features ambiguous_env (mkdate 2024 12 25) 19 false w)
    as [[scenarios X] | e] eqn:Hprep.
  - destruct (predict_proba ambiguous_env X) as [probs | e] eqn:Hprobs.
    + exists tr, X.
      apply (Hraise "2024-12-25" 19%Z false (mkdate 2024 12 25) w tr scenarios X probs);
        try reflexivity; try assumption.
      * vm_compute in Hw. injection Hw as <- <-. reflexivity.
      * vm_compute in Hw. injection Hw as <- <-.
        vm_compute in Hprep. injection Hprep as <- <-.
        vm_compute in Hprobs. injection Hprobs as <-. reflexivity.
    + exfalso. vm_compute in Hw. injection Hw as <- <-.
      vm_compute in Hprep. injection Hprep as <- <-.
      vm_compute in Hprobs. discriminate Hprobs.
  - exfalso. vm_compute in Hw. injection Hw as <- <-.
    vm_compute in Hprep. discriminate Hprep.
Defined.

(** ** Rows of a frame *)

Lemma map_seq_nth {A B : Type} (l : list A) (f : A -> B) : forall (g : nat -> B),
  (forall i a, nth_error l i = Some a -> g i = f a) ->
  map g (seq 0 (List.length l)) = map f l.
Proof.
  induction l as [| x l IH]; intros g Hg; [reflexivity |].
  cbn [List.length seq map]. f_equal.
  - apply (Hg 0%nat x). reflexivity.
  - rewrite <- seq_shift, map_map. apply IH.
    intros i a Hi. apply (Hg (S i) a). exact Hi.
Qed.

Lemma nth_map_of_error {A B : Type} (f : A -> B) (l : list A) i a d :
  nth_error l i = Some a -> nth i (map f l) d = f a.
Proof.
  revert i. induction l as [| x l IH]; intros [| i] H; simpl in *; try discriminate.
  - congruence.
  - exact (IH i H).
Qed.

Lemma to_dict_records_map {A : Type} (l : list A) (cols : list (string * (A -> json))) :
  to_dict_records (mkframe (List.length l) (map (fun cf => (fst cf, map (snd cf) l)) cols))
  = map (fun a => JObj (map (fun cf => (fst cf, snd cf a)) cols)) l.
Proof.
  unfold to_dict_records. cbn [nrows columns].
  apply map_seq_nth. intros i a Hi. f_equal.
  rewrite map_map. apply map_ext. intros [c f]. cbn [fst snd].
  rewrite (nth_map_of_error f l i a JNull Hi). reflexivity.
Qed.

Lemma map_nth_seq_id {A : Type} (d : A) (l : list A) :
  map (fun i => nth i l d) (seq 0 (List.length l)) = l.
Proof.
  rewrite (map_seq_nth l (fun a => a)); [apply map_id |].
  intros i a Hi. apply nth_error_nth. exact Hi.
Qed.

Lemma take_permutation {A : Type} (d : A) (l : list A) (idx : list nat) :
  Permutation idx (seq 0 (List.length l)) ->
  Permutation (map (fun i => nth i l d) idx) l.
Proof.
  intros H.
  apply Permutation_trans with (map (fun i => nth i l d) (seq 0 (List.length l))).
  - apply Permutation_map. exact H.
  - rewrite map_nth_seq_id. apply Permutation_refl.
Qed.

(** ** Floats *)

Lemma is_nan_spec x : is_nan x = true <-> Prim2SF x = S754_nan.
Proof.
  unfold is_nan. rewrite eqb_spec. unfold SFeqb, SFcompare.
  destruct (Prim2SF x) as [s | s | | s m e]; try destruct s; simpl;
    try rewrite Z.compare_refl; try rewrite Pos.compare_cont_refl; simpl;
    split; intros H; try reflexivity; discriminate H.
Qed.

Lemma is_nan_false x : is_nan x = false <-> Prim2SF x <> S754_nan.
Proof.
  rewrite <- is_nan_spec. destruct (is_nan x); split; intros H; congruence.
Qed.

Lemma sub_zero x : (x - 0 = x)%float.
Proof.
  apply Prim2SF_inj. rewrite sub_spec.
  change (Prim2SF 0) with (S754_zero false).
  destruct (Prim2SF x) as [s | s | | s m e]; try destruct s; reflexivity.
Qed.

(** After a first value that is not NaN, Kahan's compensation is zero. *)
Lemma compensation_zero a :
  is_nan a = false ->
  (let c := 0 + a - a in if is_nan c then 0 else c)%float = 0%float.
Proof.
  intros Ha. apply is_nan_false in Ha. cbv zeta.
  assert (Hc : Prim2SF (0 + a - a)%float = S754_zero false \/
               Prim2SF (0 + a - a)%float = S754_nan).
  { rewrite sub_spec, add_spec. change (Prim2SF 0) with (S754_zero false).
    destruct (Prim2SF a) as [s | s | | s m e]; [| | congruence |]; try destruct s;
      try (left; reflexivity); try (right; reflexivity).
    - left. cbn -[binary_normalize Z.sub shl_align Z.min]. rewrite Z.sub_diag. reflexivity.
    - left. cbn -[binary_normalize Z.sub shl_align Z.min]. rewrite Z.sub_diag. reflexivity. }
  destruct Hc as [Hc | Hc].
  - destruct (is_nan _) eqn:Hn; [reflexivity |].
    apply Prim2SF_inj. rewrite Hc. reflexivity.
  - apply is_nan_spec in Hc. rewrite Hc. reflexivity.
Qed.

Lemma mean_step_first a :
  is_nan a = false -> mean_step (mkmean 0 0%float 0%float) a = mkmean 1 (0 + a)%float 0%float.
Proof.
  intros Ha. unfold mean_step. cbn [nobs sumx compensation]. rewrite Ha, !sub_zero.
  f_equal. exact (compensation_zero a Ha).
Qed.

Lemma mean_step_nan st a : is_nan a = true -> mean_step st a = st.
Proof. intros Ha. unfold mean_step. rewrite Ha. reflexivity. Qed.

Lemma mean_step_next n t b :
  is_nan b = false ->
  exists c, mean_step (mkmean n t 0%float) b = mkmean (S n) (t + b)%float c.
Proof.
  intros Hb. unfold mean_step. cbn [nobs sumx compensation]. rewrite Hb, sub_zero.
  eexists. reflexivity.
Qed.

(** The mean of two values that are not NaN: their sum, halved. *)
Lemma mean_pair a b :
  is_nan a = false -> is_nan b = false -> mean [a; b] = ((0 + a + b) / 2)%float.
Proof.
  intros Ha Hb. unfold mean. cbn [fold_left]. rewrite (mean_step_first a Ha).
  destruct (mean_step_next 1 (0 + a)%float b Hb) as [c ->]. reflexivity.
Qed.

(** ** The order of floats *)

Lemma finite_order_spec (e1 e2 : Z) (m1 m2 : positive) :
  CompareSpec (e1 = e2 /\ m1 = m2)
              (e1 < e2 \/ (e1 = e2 /\ (m1 < m2)%positive))%Z
              (e2 < e1 \/ (e1 = e2 /\ (m2 < m1)%positive))%Z
              (match (e1 ?= e2)%Z with
               | Eq => Pos.compare_cont Eq m1 m2
               | Lt => Lt
               | Gt => Gt
               end).
Proof.
  destruct (Z.compare_spec e1 e2) as [He | He | He].
  - change (Pos.compare_cont Eq m1 m2) with (Pos.compare m1 m2).
    destruct (Pos.compare_spec m1 m2); constructor; tauto.
  - constructor. left. exact He.
  - constructor. left. exact He.
Qed.

Lemma finite_order_neg_spec (e1 e2 : Z) (m1 m2 : positive) :
  CompareSpec (e1 = e2 /\ m1 = m2)
              (e2 < e1 \/ (e1 = e2 /\ (m2 < m1)%positive))%Z
              (e1 < e2 \/ (e1 = e2 /\ (m1 < m2)%positive))%Z
              (match (e1 ?= e2)%Z with
               | Eq => CompOpp (Pos.compare_cont Eq m1 m2)
               | Lt => Gt
               | Gt => Lt
               end).
Proof.
  destruct (Z.compare_spec e1 e2) as [He | He | He].
  - change (Pos.compare_cont Eq m1 m2) with (Pos.compare m1 m2).
    destruct (Pos.compare_spec m1 m2); constructor; tauto.
  - constructor. left. exact He.
  - constructor. left. exact He.
Qed.

Ltac order_cases :=
  repeat match goal with
         | H : context [match (?e1 ?= ?e2)%Z with
                        | Eq => Pos.compare_cont Eq ?m1 ?m2 | Lt => _ | Gt => _ end] |- _ =>
             destruct (finite_order_spec e1 e2 m1 m2)
         | |- context [match (?e1 ?= ?e2)%Z with
                       | Eq => Pos.compare_cont Eq ?m1 ?m2 | Lt => _ | Gt => _ end] =>
             destruct (finite_order_spec e1 e2 m1 m2)
         | H : context [match (?e1 ?= ?e2)%Z with
                        | Eq => CompOpp (Pos.compare_cont Eq ?m1 ?m2)
                        | Lt => _ | Gt => _ end] |- _ =>
             destruct (finite_order_neg_spec e1 e2 m1 m2)
         | |- context [match (?e1 ?= ?e2)%Z with
                       | Eq => CompOpp (Pos.compare_cont Eq ?m1 ?m2)
                       | Lt => _ | Gt => _ end] =>
             destruct (finite_order_neg_spec e1 e2 m1 m2)
         end.

Ltac float_order :=
  unfold SFleb, SFltb, SFeqb, SFcompare;
  repeat match goal with
         | x : spec_float |- _ => destruct x as [[|] | [|] | | [|] ? ?]
         end;
  intros; try congruence; try reflexivity; try discriminate;
  order_cases; cbn [CompOpp] in *; try reflexivity; try discriminate; try lia.

Lemma SFleb_trans x y z : SFleb x y = true -> SFleb y z = true -> SFleb x z = true.
Proof. float_order. Qed.

Lemma SFleb_total x y :
  x <> S754_nan -> y <> S754_nan -> SFleb x y = false -> SFleb y x = true.
Proof. float_order. Qed.

Lemma SFleb_refl x : x <> S754_nan -> SFleb x x = true.
Proof. float_order. Qed.

Lemma SFeqb_leb x y : SFeqb x y = true <-> SFleb x y = true /\ SFleb y x = true.
Proof. float_order; split; intros; try split; try discriminate; try reflexivity; try lia; try tauto. Qed.

Lemma float_le_trans x y z : float_le x y -> float_le y z -> float_le x z.
Proof. unfold float_le. rewrite !leb_spec. apply SFleb_trans. Qed.

Lemma float_le_total x y :
  is_nan x = false -> is_nan y = false -> (x <=? y)%float = false -> float_le y x.
Proof.
  unfold float_le. rewrite !leb_spec, !is_nan_false. apply SFleb_total.
Qed.

Lemma float_le_refl x : is_nan x = false -> float_le x x.
Proof. unfold float_le. rewrite leb_spec, is_nan_false. apply SFleb_refl. Qed.

Lemma float_eqb_le x y : (x =? y)%float = true <-> float_le x y /\ float_le y x.
Proof. unfold float_le. rewrite eqb_spec, !leb_spec. apply SFeqb_leb. Qed.

Lemma float_le_not_nan x y : float_le x y -> is_nan x = false /\ is_nan y = false.
Proof.
  unfold float_le. rewrite leb_spec, !is_nan_false. unfold SFleb, SFcompare.
  destruct (Prim2SF x), (Prim2SF y); intros H; split; congruence.
Qed.

(** ** [sort_values] *)

Lemma StronglySorted_snoc {A : Type} (R : A -> A -> Prop) l a :
  StronglySorted R l -> Forall (fun x => R x a) l -> StronglySorted R (l ++ [a]).
Proof.
  induction 1 as [| x l Hl IH Hx]; intros Ha; simpl.
  - constructor; constructor.
  - inversion Ha as [| ? ? Hxa Hla]; subst. constructor; [exact (IH Hla) |].
    apply Forall_app. split; [exact Hx | constructor; [exact Hxa | constructor]].
Qed.

Lemma StronglySorted_rev {A : Type} (R : A -> A -> Prop) l :
  StronglySorted R l -> StronglySorted (fun x y => R y x) (rev l).
Proof.
  induction 1 as [| x l Hl IH Hx]; simpl; [constructor |].
  apply StronglySorted_snoc; [exact IH |].
  apply Forall_rev. exact Hx.
Qed.

Lemma StronglySorted_map {A B : Type} (R : B -> B -> Prop) (f : A -> B) l :
  StronglySorted R (map f l) -> StronglySorted (fun a b => R (f a) (f b)) l.
Proof.
  induction l as [| x l IH]; simpl; intros H; [constructor |].
  inversion H as [| ? ? Hl Hx]; subst. constructor; [exact (IH Hl) |].
  rewrite Forall_map in Hx. exact Hx.
Qed.

Lemma StronglySorted_weaken {A : Type} (R R' : A -> A -> Prop) l :
  (forall x y, In x l -> In y l -> R x y -> R' x y) ->
  StronglySorted R l -> StronglySorted R' l.
Proof.
  intros Himp H. induction H as [| x l Hl IH Hx]; [constructor |].
  constructor.
  - apply IH. intros a b Ha Hb. apply Himp; right; assumption.
  - rewrite Forall_forall in Hx |- *. intros y Hy.
    apply Himp; [left; reflexivity | right; exact Hy | exact (Hx y Hy)].
Qed.

Lemma StronglySorted_app {A : Type} (R : A -> A -> Prop) l1 l2 :
  StronglySorted R l1 -> StronglySorted R l2 ->
  (forall x y, In x l1 -> In y l2 -> R x y) ->
  StronglySorted R (l1 ++ l2).
Proof.
  intros H1 H2 H12. induction H1 as [| x l Hl IH Hx]; [exact H2 |].
  simpl. constructor.
  - apply IH. intros a b Ha Hb. apply H12; [right; exact Ha | exact Hb].
  - apply Forall_app. split; [exact Hx |].
    apply Forall_forall. intros y Hy. apply H12; [left; reflexivity | exact Hy].
Qed.

(** The positions of an array with and without its NaNs. *)
Lemma mask_split items : forall s,
  let mask := map is_nan items in
  let idx := seq s (List.length items) in
  map (fun i => nth (i - s) items 0%float) (mask_off idx mask) = mask_off items mask /\
  no_nan (mask_off items mask) /\
  Forall (fun i => is_nan (nth (i - s) items 0%float) = true) (mask_on idx mask) /\
  Permutation (mask_off idx mask ++ mask_on idx mask) idx /\
  StronglySorted lt (mask_off idx mask) /\
  StronglySorted lt (mask_on idx mask) /\
  Forall (fun i => s <= i)%nat (mask_off idx mask) /\
  Forall (fun i => s <= i)%nat (mask_on idx mask).
Proof.
  unfold mask_off, mask_on, no_nan.
  induction items as [| x rest IH]; intros s; cbn zeta.
  - simpl. repeat split; constructor.
  - destruct (IH (S s)) as (Hval & Hnn & Hnan & Hperm & Hoff & Hon & Hlo_off & Hlo_on).
    cbn zeta in *.
    assert (Hshift : forall l, Forall (fun i => S s <= i)%nat l ->
              map (fun i => nth (i - s) (x :: rest) 0%float) l
              = map (fun i => nth (i - S s) rest 0%float) l).
    { intros l Hl. apply map_ext_in. intros i Hi.
      rewrite Forall_forall in Hl. specialize (Hl i Hi). cbv beta in Hl.
      replace (i - s)%nat with (S (i - S s)) by lia. reflexivity. }
    assert (Hweak : forall l, Forall (fun i => S s <= i)%nat l -> Forall (fun i => s <= i)%nat l).
    { intros l Hl. eapply Forall_impl; [| exact Hl]. cbv beta. intros; lia. }
    assert (Hlt : forall l, Forall (fun i => S s <= i)%nat l -> Forall (lt s) l).
    { intros l Hl. eapply Forall_impl; [| exact Hl]. cbv beta. intros; lia. }
    cbn [List.length seq map combine filter snd fst].
    destruct (is_nan x) eqn:Hx; cbn [negb map fst].
    + rewrite (Hshift _ Hlo_off).
      split; [exact Hval |]. split; [exact Hnn |]. split.
      { constructor; [rewrite Nat.sub_diag; exact Hx |].
        rewrite Forall_forall in Hnan, Hlo_on |- *. intros i Hi.
        specialize (Hnan i Hi). specialize (Hlo_on i Hi). cbv beta in Hnan, Hlo_on.
        replace (i - s)%nat with (S (i - S s)) by lia. exact Hnan. }
      split.
      { apply Permutation_sym, Permutation_cons_app, Permutation_sym. exact Hperm. }
      split; [exact Hoff |]. split; [constructor; [exact Hon | exact (Hlt _ Hlo_on)] |].
      split; [exact (Hweak _ Hlo_off) |].
      constructor; [lia | exact (Hweak _ Hlo_on)].
    + rewrite Nat.sub_diag, (Hshift _ Hlo_off). cbn [nth].
      split; [f_equal; exact Hval |]. split; [constructor; [exact Hx | exact Hnn] |].
      split.
      { rewrite Forall_forall in Hnan, Hlo_on |- *. intros i Hi.
        specialize (Hnan i Hi). specialize (Hlo_on i Hi). cbv beta in Hnan, Hlo_on.
        replace (i - s)%nat with (S (i - S s)) by lia. exact Hnan. }
      split; [simpl; constructor; exact Hperm |].
      split; [constructor; [exact Hoff | exact (Hlt _ Hlo_off)] |]. split; [exact Hon |].
      split; [constructor; [lia | exact (Hweak _ Hlo_off)] | exact (Hweak _ Hlo_on)].
Qed.

Lemma mask_split_0 items :
  let mask := map is_nan items in
  let idx := seq 0 (List.length items) in
  map (fun i => nth i items 0%float) (mask_off idx mask) = mask_off items mask /\
  no_nan (mask_off items mask) /\
  Forall (fun i => is_nan (nth i items 0%float) = true) (mask_on idx mask) /\
  Permutation (mask_off idx mask ++ mask_on idx mask) idx /\
  StronglySorted lt (mask_off idx mask) /\
  StronglySorted lt (mask_on idx mask).
Proof.
  cbn zeta.
  destruct (mask_split items 0) as (Hval & Hnn & Hnan & Hperm & Hoff & Hon & _ & _).
  cbn zeta in *.
  split.
  { rewrite <- Hval. apply map_ext. intros i. rewrite Nat.sub_0_r. reflexivity. }
  split; [exact Hnn |]. split.
  { eapply Forall_impl; [| exact Hnan]. cbv beta. intros i Hi.
    rewrite Nat.sub_0_r in Hi. exact Hi. }
  repeat split; assumption.
Qed.

Lemma no_nan_rev l : no_nan l -> no_nan (rev l).
Proof. apply Forall_rev. Qed.

Lemma reversed_nth {A : Type} (l : list A) j d :
  (j < List.length l)%nat -> nth j (rev l) d = nth (List.length l - S j) l d.
Proof. intros Hj. apply rev_nth. exact Hj. Qed.

Section SortValues.

Variable E : env.
Hypothesis sort_ok : argsort_ok (argsort E).

(** The three parts of [nargsort]: the positions [K] of the values that are
    not NaN, the permutation [sigma] that sorts these values reversed, and
    the positions [N] of the NaNs. *)
Lemma nargsort_desc_parts items :
  exists K N sigma,
    nargsort_desc E items = rev (map (fun j => nth j (rev K) O) sigma) ++ N /\
    sigma = argsort E (rev (map (fun i => nth i items 0%float) K)) /\
    no_nan (map (fun i => nth i items 0%float) K) /\
    Forall (fun i => is_nan (nth i items 0%float) = true) N /\
    Permutation (K ++ N) (seq 0 (List.length items)) /\
    StronglySorted lt K /\ StronglySorted lt N /\
    Permutation sigma (seq 0 (List.length K)).
Proof.
  destruct (mask_split_0 items) as (Hval & Hnn & Hnan & Hperm & Hoff & Hon).
  cbn zeta in *.
  exists (mask_off (seq 0 (List.length items)) (map is_nan items)),
         (mask_on (seq 0 (List.length items)) (map is_nan items)),
         (argsort E (rev (mask_off items (map is_nan items)))).
  split; [reflexivity |]. rewrite Hval.
  split; [reflexivity |]. split; [exact Hnn |]. split; [exact Hnan |].
  split; [exact Hperm |]. split; [exact Hoff |]. split; [exact Hon |].
  destruct (sort_ok (rev (mask_off items (map is_nan items))) (no_nan_rev _ Hnn))
    as [Hsigma _].
  assert (Hlen : List.length (mask_off items (map is_nan items))
                 = List.length (mask_off (seq 0 (List.length items)) (map is_nan items)))
    by (rewrite <- Hval; apply length_map).
  rewrite length_rev, Hlen in Hsigma. exact Hsigma.
Qed.

Lemma nargsort_desc_perm items :
  Permutation (nargsort_desc E items) (seq 0 (List.length items)).
Proof.
  destruct (nargsort_desc_parts items)
    as (K & N & sigma & -> & _ & _ & _ & Hperm & _ & _ & Hsigma).
  eapply Permutation_trans; [| exact Hperm].
  apply Permutation_app_tail.
  eapply Permutation_trans; [apply Permutation_sym, Permutation_rev |].
  eapply Permutation_trans; [apply Permutation_map; exact Hsigma |].
  rewrite <- (length_rev K), map_nth_seq_id. apply Permutation_sym, Permutation_rev.
Qed.

Lemma nargsort_desc_values items :
  exists K N,
    map (fun i => nth i items 0%float) (nargsort_desc E items)
    = rev (map (fun j => nth j (rev (map (fun i => nth i items 0%float) K)) 0%float)
               (argsort E (rev (map (fun i => nth i items 0%float) K))))
      ++ map (fun i => nth i items 0%float) N /\
    no_nan (map (fun i => nth i items 0%float) K) /\
    Forall (fun i => is_nan (nth i items 0%float) = true) N.
Proof.
  destruct (nargsort_desc_parts items)
    as (K & N & sigma & -> & -> & Hnn & Hnan & _ & _ & _ & Hsigma).
  exists K, N. split; [| split; assumption].
  rewrite map_app, map_rev, map_map. f_equal. f_equal.
  apply map_ext_in. intros j Hj.
  apply (Permutation_in _ Hsigma) in Hj. apply in_seq in Hj.
  rewrite <- map_rev.
  rewrite (nth_indep (map _ (rev K)) 0%float (nth O items 0%float))
    by (rewrite length_map, length_rev; lia).
  rewrite (map_nth (fun i => nth i items 0%float) (rev K) O j). reflexivity.
Qed.

Lemma sort_values_desc_perm rows : Permutation (sort_values_desc E rows) rows.
Proof.
  unfold sort_values_desc. apply take_permutation.
  rewrite <- (length_map snd rows). apply nargsort_desc_perm.
Qed.

Lemma sort_values_desc_sorted rows : descending (sort_values_desc E rows).
Proof.
  unfold descending. apply (StronglySorted_map not_below snd).
  unfold sort_values_desc. rewrite map_map.
  rewrite (map_ext _ (fun i => nth i (map snd rows) 0%float))
    by (intros i; symmetry; apply (map_nth snd rows (EmptyString, 0%float))).
  destruct (nargsort_desc_values (map snd rows)) as (K & N & -> & Hnn & Hnan).
  apply StronglySorted_app.
  - apply (StronglySorted_weaken (fun x y => float_le y x)).
    + intros x y _ _ H. right. exact H.
    + apply StronglySorted_rev.
      apply (proj2 (sort_ok _ (no_nan_rev _ Hnn))).
  - apply (StronglySorted_weaken (fun x y => is_nan y = true)).
    + intros x y _ _ H. left. exact H.
    + clear Hnn. induction N as [| i N IH]; [constructor |].
      inversion Hnan as [| ? ? Hi HN]; subst. cbn [map]. constructor; [exact (IH HN) |].
      rewrite Forall_map. exact HN.
  - intros x y _ Hy. left. apply in_map_iff in Hy. destruct Hy as (i & <- & Hi).
    rewrite Forall_forall in Hnan. exact (Hnan i Hi).
Qed.

End SortValues.

(** ** [groupby(...).mean()] on the scored rows *)

Lemma group_absent k (rows : list (cell * float)) :
  ~ In (Str k) (map fst rows) -> group k rows = [].
Proof.
  unfold group. induction rows as [| r rows IH]; simpl; intros H; [reflexivity |].
  destruct (cell_eqb (fst r) (Str k)) eqn:Heq.
  - apply cell_eqb_eq in Heq. tauto.
  - apply IH. tauto.
Qed.

Lemma group_cons_same k p (rows : list (cell * float)) :
  group k ((Str k, p) :: rows) = p :: group k rows.
Proof. unfold group. simpl. rewrite String.eqb_refl. reflexivity. Qed.

Lemma group_cons_other k n p (rows : list (cell * float)) :
  n <> Str k -> group k ((n, p) :: rows) = group k rows.
Proof.
  intros Hne. unfold group. simpl.
  apply cell_eqb_neq in Hne. rewrite Hne. reflexivity.
Qed.

Lemma scored_names bases : forall probs,
  List.length probs = (2 * List.length bases)%nat ->
  forall k, In k (map fst (map name_probability (combine (flat_map two_rows bases) probs)))
            <-> In k (map food_item_name bases).
Proof.
  induction bases as [| b bases IH]; intros probs Hlen k.
  - simpl. tauto.
  - destruct probs as [| p1 [| p2 ps]]; simpl in Hlen; try lia.
    simpl. rewrite (IH ps) by lia. tauto.
Qed.

Lemma texts_In cells s : In s (texts cells) <-> In (Str s) cells.
Proof.
  unfold texts. rewrite in_flat_map. split.
  - intros [[x |] [Hc Hs]]; [| contradiction]. destruct Hs as [<- | []]. exact Hc.
  - intros H. exists (Str s). split; [exact H | left; reflexivity].
Qed.

Lemma texts_NoDup cells : NoDup cells -> NoDup (texts cells).
Proof.
  induction 1 as [| c cells Hc Hnd IH]; simpl; [constructor |].
  destruct c as [s |]; simpl; [| exact IH].
  constructor; [| exact IH]. rewrite texts_In. exact Hc.
Qed.

Lemma per_item_means_groups bases : forall probs,
  List.length probs = (2 * List.length bases)%nat ->
  NoDup (map food_item_name bases) ->
  per_item_means (map item_of bases) probs
  = map (fun k => (k, mean (group k (map name_probability
                                       (combine (flat_map two_rows bases) probs)))))
        (texts (map food_item_name bases)).
Proof.
  induction bases as [| b bases IH]; intros probs Hlen Hnd; [reflexivity |].
  destruct probs as [| p1 [| p2 ps]]; simpl in Hlen; try lia.
  inversion Hnd as [| ? ? Hb Hnd']; subst.
  assert (Hlen' : List.length ps = (2 * List.length bases)%nat) by lia.
  cbn [map flat_map two_rows app combine per_item_means].
  change (name_probability (mkscenario b "Dine In", p1)) with (food_item_name b, p1).
  change (name_probability (mkscenario b "Take Away", p2)) with (food_item_name b, p2).
  cbn [fst item_of]. rewrite (IH ps Hlen' Hnd').
  assert (Hrest : forall k, In k (texts (map food_item_name bases)) ->
            group k ((food_item_name b, p1) :: (food_item_name b, p2)
                     :: map name_probability (combine (flat_map two_rows bases) ps))
            = group k (map name_probability (combine (flat_map two_rows bases) ps))).
  { intros k Hk. apply texts_In in Hk.
    assert (Hne : food_item_name b <> Str k) by (intros Heq; rewrite Heq in Hb; contradiction).
    rewrite !(group_cons_other _ _ _ _ Hne). reflexivity. }
  unfold texts at 2. cbn [flat_map]. fold (texts (map food_item_name bases)).
  destruct (food_item_name b) as [name |] eqn:Hname.
  - cbn [app map]. f_equal.
    + rewrite !group_cons_same, group_absent; [reflexivity |].
      rewrite (scored_names bases ps Hlen'). exact Hb.
    + apply map_ext_in. intros k Hk. rewrite (Hrest k Hk). reflexivity.
  - cbn [app]. apply map_ext_in. intros k Hk. rewrite (Hrest k Hk). reflexivity.
Qed.

Lemma scored_levels bases probs :
  List.length probs = (2 * List.length bases)%nat ->
  NoDup (map food_item_name bases) ->
  Permutation
    (levels (texts (map fst (map name_probability (combine (flat_map two_rows bases) probs)))))
    (texts (map food_item_name bases)).
Proof.
  intros Hlen Hnd. apply NoDup_Permutation; [apply levels_NoDup | exact (texts_NoDup _ Hnd) |].
  intros k. rewrite levels_In, !texts_In. apply scored_names. exact Hlen.
Qed.

Lemma groupby_mean_per_item bases probs :
  List.length probs = (2 * List.length bases)%nat ->
  NoDup (map food_item_name bases) ->
  Permutation
    (groupby_mean (map name_probability (combine (flat_map two_rows bases) probs)))
    (per_item_means (map item_of bases) probs).
Proof.
  intros Hlen Hnd. rewrite (per_item_means_groups bases probs Hlen Hnd).
  unfold groupby_mean. apply Permutation_map. apply scored_levels; assumption.
Qed.

Lemma overall_records E future_df :
  to_dict_records (overall_frame E future_df)
  = map overall_record (overall_ranking E future_df).
Proof.
  unfold overall_frame.
  exact (to_dict_records_map (overall_ranking E future_df)
           [("food_item_name", fun r => JStr (fst r));
            ("probability", fun r => JStr (format_pct (snd r)))]).
Qed.

Lemma aggregate_overall E s d h ev w future_df v :
  aggregate E s d h ev w future_df = Returned v ->
  getitem_str v "overall_prediction"
  = Returned (JArr (to_dict_records (overall_frame E future_df))).
Proof.
  unfold aggregate. intros H. do 5 inv_bind H. injection H as <-. reflexivity.
Qed.

(** The ranking of a successful request, with what it is made of. *)
Lemma overall_ranking_of_success E s h ev v :
  fst (generate_predictions E s h ev) = Returned v ->
  py_in "error" v = Returned false ->
  exists X probs future_df,
    In (Scored X) (snd (generate_predictions E s h ev)) /\
    predict_proba E X = Returned probs /\
    List.length probs = (2 * List.length (drop_duplicates (df_base E)))%nat /\
    getitem_str v "overall_prediction"
    = Returned (JArr (map overall_record (overall_ranking E future_df))) /\
    Permutation (groupby_mean (map name_probability future_df))
                (per_item_means (drop_duplicates (df_base E)) probs).
Proof.
  intros Hv Herr.
  pose proof (success_names_NoDup E s h ev (ex_intro _ v (conj Hv Herr))) as Hnd.
  destruct (generate_predictions_success _ _ _ _ _ Hv Herr)
    as (d & w & tr & scenarios & X & probs & _ & _ & _ & Hprep & Hprobs & Hlen & Hagg & Htr).
  destruct (prepare_features_inv _ _ _ _ _ _ _ Hprep) as (enc & Hbuild & _ & _).
  destruct (build_scenarios_inv _ _ _ _ _ _ _ _ Hbuild) as (bases & -> & Hitems & _).
  rewrite flat_map_two_rows_length in Hlen.
  rewrite <- Hitems, map_fst_item_of in Hnd.
  exists X, probs, (combine (flat_map two_rows bases) probs).
  split; [rewrite Htr; apply in_or_app; right; left; reflexivity |].
  split; [exact Hprobs |].
  split; [rewrite <- Hitems, length_map; exact Hlen |].
  split.
  - rewrite (aggregate_overall _ _ _ _ _ _ _ _ Hagg), overall_records. reflexivity.
  - rewrite <- Hitems. apply groupby_mean_per_item; assumption.
Qed.


(** ** Percent strings *)

Lemma string_of_uint_digits u : all_digits (NilEmpty.string_of_uint u) = true.
Proof. induction u; simpl; try reflexivity; exact IHu. Qed.

Lemma str_of_Z_digits n :
  exists c rest, str_of_Z n = String c rest /\ is_digit c = true /\ all_digits rest = true.
Proof.
  unfold str_of_Z, NilZero.string_of_uint.
  pose proof (string_of_uint_digits (N.to_uint (Z.to_N n))) as Hd.
  destruct (N.to_uint (Z.to_N n)) eqn:Hu;
    (simpl in Hd |- *; eexists; eexists;
     split; [reflexivity | split; [reflexivity | exact Hd]]).
Qed.

Lemma digit_char_digit d : (0 <= d < 10)%Z -> is_digit (digit_char d) = true.
Proof.
  intros Hd. assert (H : (0 <= d <= 9)%Z) by lia. each_digit d H; reflexivity.
Qed.

Lemma skip_digits_app ds rest :
  all_digits ds = true ->
  skip_digits (ds ++ String "." rest) = String "." rest.
Proof.
  induction ds as [| c ds IH]; simpl; intros H; [reflexivity |].
  apply andb_true_iff in H. destruct H as [Hc Hds]. rewrite Hc. exact (IH Hds).
Qed.

(** A number in fixed notation with two decimals, and the percent sign:
    the form [\d+\.\d{2}%]. *)
Lemma fixed2_matches n : matches_pct (fixed2 n ++ "%") = true.
Proof.
  unfold fixed2.
  destruct (str_of_Z_digits (n / 100)) as (c & rest & -> & Hc & Hrest).
  rewrite !append_assoc. cbn [append]. unfold matches_pct. rewrite Hc.
  rewrite (skip_digits_app rest _ Hrest). unfold two_digits. cbn [append].
  rewrite !digit_char_digit;
    [reflexivity
    | apply Z.mod_pos_bound; lia
    | split; [apply Z.div_pos; [apply Z.mod_pos_bound |]; lia
             | apply Z.div_lt_upper_bound; [lia | apply Z.mod_pos_bound; lia]]].
Qed.

(** The text of a float matches the form exactly when its hundredfold is a
    finite number with a clear sign bit. *)
Lemma format_pct_matches p :
  matches_pct (format_pct p) = true
  <-> sign_bit (p * 100) = false /\ is_number (p * 100) = true.
Proof.
  unfold format_pct, sign_bit, is_number.
  destruct (Prim2SF (p * 100)) as [s | s | | s m e]; try destruct s; cbn [sign_text append].
  - split; [discriminate | intros [H _]; discriminate H].
  - split; [intros _; split; reflexivity | reflexivity].
  - split; [discriminate | intros [H _]; discriminate H].
  - split; [discriminate | intros [_ H]; discriminate H].
  - split; [discriminate | intros [_ H]; discriminate H].
  - split; [intros H | intros [H _]; discriminate H].
    exfalso. revert H. unfold matches_pct. discriminate.
  - split; [intros _; split; reflexivity | intros _; apply fixed2_matches].
Qed.

Lemma binary_round_aux_sign s m e l :
  match binary_round_aux prec emax s m e l with
  | S754_zero s' | S754_infinity s' | S754_finite s' _ _ => s' = s
  | S754_nan => True
  end.
Proof.
  unfold binary_round_aux.
  destruct (shr_fexp prec emax m e l) as [mrs' e'].
  destruct (shr_fexp prec emax _ e' loc_Exact) as [mrs'' e''].
  destruct (shr_m mrs''); [reflexivity | | exact I].
  destruct (e'' <=? emax - prec)%Z; reflexivity.
Qed.

(** The hundredfold of a float has its sign. *)
Lemma sign_bit_hundredfold p :
  is_number (p * 100) = true -> sign_bit (p * 100) = sign_bit p.
Proof.
  unfold sign_bit, is_number. rewrite mul_spec.
  change (Prim2SF 100) with (S754_finite false 7036874417766400 (-46)).
  destruct (Prim2SF p) as [s | s | | s m e]; cbn [SF64mul SFmul].
  - intros _. destruct s; reflexivity.
  - discriminate.
  - discriminate.
  - pose proof (binary_round_aux_sign (xorb s false) (Z.pos (m * 7036874417766400)) (e + -46)
                  loc_Exact) as Hs.
    destruct (binary_round_aux _ _ _ _ _ _); intros H; try discriminate H;
      rewrite Hs; destruct s; reflexivity.
Qed.

Lemma plain_probability_matches p :
  plain_probability p -> matches_pct (format_pct p) = true.
Proof.
  intros [Hs Hn]. apply format_pct_matches. split; [| exact Hn].
  rewrite (sign_bit_hundredfold p Hn). exact Hs.
Qed.

(** What [fillna(0)] leaves of a NaN is written [0.00%]. *)
Lemma fillna0_nan x : is_nan x = true -> format_pct (fillna0 x) = "0.00%".
Proof. intros H. unfold fillna0. rewrite H. reflexivity. Qed.

Lemma fillna0_matches p :
  is_nan p = true \/ plain_probability p -> matches_pct (format_pct (fillna0 p)) = true.
Proof.
  intros [H | H].
  - rewrite (fillna0_nan p H). reflexivity.
  - unfold fillna0. destruct (is_nan p); [reflexivity | exact (plain_probability_matches p H)].
Qed.

(** Right shifts and rounding to nearest keep a mantissa within bounds. *)
Lemma shr_1_bounds mrs :
  (0 <= shr_m mrs)%Z -> (0 <= shr_m (shr_1 mrs) <= shr_m mrs)%Z.
Proof.
  destruct mrs as [m r s]. destruct m as [| [p | p |] | [p | p |]]; simpl; lia.
Qed.

Lemma iter_shr_1_bounds p : forall mrs,
  (0 <= shr_m mrs)%Z -> (0 <= shr_m (iter_pos shr_1 p mrs) <= shr_m mrs)%Z.
Proof.
  induction p as [p IH | p IH |]; intros mrs H; simpl.
  - pose proof (shr_1_bounds mrs H) as H1.
    pose proof (IH _ (proj1 H1)) as H2. pose proof (IH _ (proj1 H2)) as H3. lia.
  - pose proof (IH _ H) as H2. pose proof (IH _ (proj1 H2)) as H3. lia.
  - apply shr_1_bounds. exact H.
Qed.

Lemma shr_fexp_bounds m e l :
  (0 <= m)%Z ->
  (0 <= shr_m (fst (shr_fexp prec emax m e l)) <= m)%Z /\
  snd (shr_fexp prec emax m e l) = Z.max e (fexp prec emax (Zdigits2 m + e)).
Proof.
  intros Hm. unfold shr_fexp, shr.
  assert (H0 : shr_m (shr_record_of_loc m l) = m) by (destruct l as [| []]; reflexivity).
  destruct (fexp prec emax (Zdigits2 m + e) - e)%Z as [| n | n] eqn:Hn; cbn [fst snd].
  - rewrite H0. lia.
  - pose proof (iter_shr_1_bounds n (shr_record_of_loc m l)) as H. rewrite H0 in H. lia.
  - rewrite H0. lia.
Qed.

Lemma digits2_pos_size p : digits2_pos p = Pos.size p.
Proof. induction p as [p IH | p IH |]; simpl; [rewrite IH | rewrite IH |]; reflexivity. Qed.

Lemma Zdigits2_bound m k : (0 <= m < 2 ^ k)%Z -> (0 <= k)%Z -> (Zdigits2 m <= k)%Z.
Proof.
  intros [Hm Hlt] Hk. destruct m as [| p | p]; [exact Hk | | lia].
  cbn [Zdigits2]. rewrite digits2_pos_size.
  assert (Hle : (2 ^ Z.pos (Pos.size p) <= 2 * Z.pos p)%Z).
  { rewrite <- Pos2Z.inj_pow. change (2 * Z.pos p)%Z with (Z.pos p~0).
    apply Pos2Z.pos_le_pos. apply Pos.size_le. }
  assert (Hlt' : (2 ^ Z.pos (Pos.size p) < 2 ^ Z.succ k)%Z).
  { rewrite Z.pow_succ_r by lia. lia. }
  apply Z.pow_lt_mono_r_iff in Hlt'; lia.
Qed.

Lemma round_nearest_even_bounds m l :
  (0 <= m)%Z -> (0 <= round_nearest_even m l <= m + 1)%Z.
Proof.
  intros Hm. destruct l as [| []]; cbn [round_nearest_even]; try lia.
  destruct (Z.even m); lia.
Qed.

Lemma binary_round_aux_number s m e :
  (0 <= m < 2 ^ 106)%Z -> (e <= -98)%Z ->
  match binary_round_aux prec emax s m e loc_Exact with
  | S754_zero _ | S754_finite _ _ _ => true
  | S754_infinity _ | S754_nan => false
  end = true.
Proof.
  intros Hm He. unfold binary_round_aux.
  pose proof (shr_fexp_bounds m e loc_Exact (proj1 Hm)) as [Hm1 He1].
  destruct (shr_fexp prec emax m e loc_Exact) as [mrs' e']. cbn [fst snd] in Hm1, He1.
  pose proof (round_nearest_even_bounds (shr_m mrs') (loc_of_shr_record mrs') (proj1 Hm1))
    as Hr.
  set (m' := round_nearest_even (shr_m mrs') (loc_of_shr_record mrs')) in *.
  pose proof (shr_fexp_bounds m' e' loc_Exact (proj1 Hr)) as [Hm2 He2].
  destruct (shr_fexp prec emax m' e' loc_Exact) as [mrs'' e'']. cbn [fst snd] in Hm2, He2.
  assert (Hd1 : (Zdigits2 m <= 106)%Z) by (apply Zdigits2_bound; lia).
  assert (Hd2 : (Zdigits2 m' <= 107)%Z).
  { apply Zdigits2_bound; [| lia]. change (2 ^ 107)%Z with (2 * 2 ^ 106)%Z. lia. }
  unfold fexp, emin, prec, emax in *.
  destruct (shr_m mrs'') as [| q | q]; [reflexivity | | lia].
  destruct (e'' <=? 1024 - 53)%Z eqn:Hfit; [reflexivity |].
  apply Z.leb_gt in Hfit. lia.
Qed.

(** Every float from 0.0 to 1.0 is a plain probability: its hundredfold is
    at most 100 and has no sign. *)
Lemma unit_interval_plain p :
  sign_bit p = false -> (p <=? 1)%float = true -> plain_probability p.
Proof.
  intros Hs Hle. split; [exact Hs |].
  pose proof (Prim2SF_valid p) as Hvalid.
  revert Hs Hle Hvalid. unfold sign_bit, is_number. rewrite leb_spec, mul_spec.
  change (Prim2SF 1) with (S754_finite false 4503599627370496 (-52)).
  change (Prim2SF 100) with (S754_finite false 7036874417766400 (-46)).
  destruct (Prim2SF p) as [s | s | | s m e]; cbn [SF64mul SFmul]; try reflexivity.
  - intros ->. discriminate.
  - discriminate.
  - intros -> Hle Hvalid. cbn [xorb].
    apply binary_round_aux_number.
    + cbn [valid_binary] in Hvalid. unfold bounded, canonical_mantissa in Hvalid.
      apply andb_true_iff in Hvalid. destruct Hvalid as [Hc _].
      apply Z.eqb_eq in Hc. unfold fexp, emin, prec, emax in Hc.
      rewrite digits2_pos_size in Hc.
      assert (Hm : (Z.pos m < 2 ^ 53)%Z).
      { pose proof (Pos.size_gt m) as Hgt. apply Pos2Z.pos_lt_pos in Hgt.
        rewrite Pos2Z.inj_pow in Hgt. change (Z.pos 2) with 2%Z in Hgt.
        assert (Hp : (2 ^ Z.pos (Pos.size m) <= 2 ^ 53)%Z)
          by (apply Z.pow_le_mono_r; lia).
        lia. }
      rewrite Pos2Z.inj_mul. change (2 ^ 106)%Z with (2 ^ 53 * 2 ^ 53)%Z.
      split; [lia |]. apply Z.mul_lt_mono_nonneg; [lia | exact Hm | lia | reflexivity].
    + unfold SFleb, SFcompare in Hle.
      destruct (Z.compare_spec e (-52)) as [H | H | H]; [lia | lia | discriminate Hle].
Qed.

Example plain_probability_examples :
  plain_probability 0 /\ plain_probability 1 /\
  ~ plain_probability (-0) /\ ~ plain_probability nan /\
  ~ plain_probability infinity /\ ~ plain_probability (-0.5).
Proof.
  repeat split; try reflexivity; intros [Hs Hn]; vm_compute in Hs, Hn; discriminate.
Qed.

(** ** The wide table *)

Lemma scored_rows_eq bases : forall probs,
  List.length probs = (2 * List.length bases)%nat ->
  map name_type_probability (combine (flat_map two_rows bases) probs)
  = scored_rows (map item_of bases) probs.
Proof.
  induction bases as [| b bases IH]; intros probs Hlen.
  - destruct probs; [reflexivity | discriminate Hlen].
  - destruct probs as [| p1 [| p2 ps]]; simpl in Hlen; try lia.
    cbn [map flat_map two_rows app combine scored_rows]. rewrite (IH ps) by lia.
    reflexivity.
Qed.

Lemma scored_rows_names items : forall probs,
  List.length probs = (2 * List.length items)%nat ->
  forall k, In k (map (fun r => fst (fst r)) (scored_rows items probs)) <-> In k (map fst items).
Proof.
  induction items as [| item items IH]; intros probs Hlen k.
  - simpl. tauto.
  - destruct probs as [| p1 [| p2 ps]]; simpl in Hlen; try lia.
    simpl. rewrite (IH ps) by lia. tauto.
Qed.

Lemma scored_rows_types items : forall probs,
  items <> [] ->
  List.length probs = (2 * List.length items)%nat ->
  nodup string_dec (map (fun r => snd (fst r)) (scored_rows items probs))
  = ["Dine In"; "Take Away"].
Proof.
  induction items as [| item items IH]; intros probs Hne Hlen; [congruence |].
  destruct probs as [| p1 [| p2 ps]]; simpl in Hlen; try lia.
  destruct items as [| item' items].
  - destruct ps; [reflexivity | discriminate Hlen].
  - assert (Hps : List.length ps = (2 * List.length (item' :: items))%nat)
      by (simpl in *; lia).
    specialize (IH ps ltac:(discriminate) Hps).
    destruct ps as [| p3 [| p4 ps']]; simpl in Hps; try lia.
    cbn [scored_rows map fst snd] in IH |- *.
    cbn [nodup].
    destruct (in_dec string_dec "Dine In" _) as [_ | Hn];
      [| exfalso; apply Hn; right; left; reflexivity].
    destruct (in_dec string_dec "Take Away" _) as [_ | Hn];
      [| exfalso; apply Hn; right; left; reflexivity].
    exact IH.
Qed.

Lemma pivot_cell_absent rows k c :
  ~ In k (map (fun r => fst (fst r)) rows) -> pivot_cell rows k c = nan.
Proof.
  unfold pivot_cell. induction rows as [| r rows IH]; simpl; intros H; [reflexivity |].
  destruct (cell_eqb (fst (fst r)) k) eqn:Heq.
  - apply cell_eqb_eq in Heq. tauto.
  - simpl. apply IH. tauto.
Qed.

Lemma per_item_pairs_rows items : forall probs,
  List.length probs = (2 * List.length items)%nat ->
  NoDup (map fst items) ->
  per_item_pairs items probs = map (pivot_row (scored_rows items probs)) (map fst items).
Proof.
  induction items as [| item items IH]; intros probs Hlen Hnd; [reflexivity |].
  destruct probs as [| p1 [| p2 ps]]; simpl in Hlen; try lia.
  inversion Hnd as [| ? ? Hitem Hnd']; subst.
  assert (Hlen' : List.length ps = (2 * List.length items)%nat) by lia.
  cbn [map per_item_pairs scored_rows]. f_equal.
  - unfold pivot_row, pivot_cell. simpl. rewrite !cell_eqb_refl. reflexivity.
  - rewrite (IH ps Hlen' Hnd'). apply map_ext_in. intros k Hk.
    assert (Hne : cell_eqb (fst item) k = false).
    { apply cell_eqb_neq. intros Heq. subst k. contradiction. }
    unfold pivot_row, pivot_cell. simpl. rewrite Hne. reflexivity.
Qed.

Lemma per_item_pairs_length items : forall probs,
  List.length probs = (2 * List.length items)%nat ->
  List.length (per_item_pairs items probs) = List.length items.
Proof.
  induction items as [| item items IH]; intros probs Hlen; [destruct probs as [| ? [| ? ?]]; reflexivity |].
  destruct probs as [| p1 [| p2 ps]]; simpl in Hlen; try lia.
  simpl. rewrite (IH ps) by lia. reflexivity.
Qed.

Lemma per_item_pairs_Forall (P : float -> Prop) items : forall probs,
  Forall P probs ->
  Forall (fun r => P (snd (fst r)) /\ P (snd r)) (per_item_pairs items probs).
Proof.
  induction items as [| item items IH]; intros probs Hall.
  - destruct probs as [| ? [| ? ?]]; constructor.
  - destruct probs as [| p1 [| p2 ps]]; try constructor.
    + inversion Hall as [| ? ? H1 Hall']; subst. inversion Hall' as [| ? ? H2 Hall'']; subst.
      simpl. split; assumption.
    + apply IH. inversion Hall as [| ? ? H1 Hall']; subst.
      inversion Hall' as [| ? ? H2 Hall'']; subst. exact Hall''.
Qed.

Lemma order_type_levels items probs :
  items <> [] ->
  List.length probs = (2 * List.length items)%nat ->
  levels (map (fun r => snd (fst r)) (scored_rows items probs)) = ["Dine In"; "Take Away"].
Proof.
  intros Hne Hlen. unfold levels. rewrite (scored_rows_types items probs Hne Hlen).
  reflexivity.
Qed.

(** The index of the wide table holds the names of the rows, each once. *)
Lemma pivot_index_In names c : In c (pivot_index names) <-> In c names.
Proof.
  unfold pivot_index. rewrite in_app_iff, in_map_iff. split.
  - intros [H | (s & <- & Hs)].
    + destruct (existsb is_na names) eqn:Hna; [| contradiction].
      destruct H as [<- | []]. apply existsb_exists in Hna.
      destruct Hna as ([x |] & Hin & Hx); [discriminate Hx | exact Hin].
    + apply levels_In, texts_In in Hs. exact Hs.
  - intros H. destruct c as [s |].
    + right. exists s. split; [reflexivity |]. apply levels_In, texts_In. exact H.
    + left. replace (existsb is_na names) with true; [left; reflexivity |].
      symmetry. apply existsb_exists. exists NA. split; [exact H | reflexivity].
Qed.

Lemma pivot_index_NoDup names : NoDup (pivot_index names).
Proof.
  unfold pivot_index. apply NoDup_app.
  - destruct (existsb is_na names); repeat constructor. intros [].
  - apply NoDup_map_injective; [intros a b H; injection H as ->; reflexivity |].
    apply levels_NoDup.
  - intros c H1 H2. destruct (existsb is_na names); [| contradiction].
    destruct H1 as [<- | []]. apply in_map_iff in H2. destruct H2 as (s & Hs & _).
    discriminate Hs.
Qed.

Lemma scored_index_items items probs :
  List.length probs = (2 * List.length items)%nat ->
  NoDup (map fst items) ->
  Permutation (pivot_index (map (fun r => fst (fst r)) (scored_rows items probs)))
              (map fst items).
Proof.
  intros Hlen Hnd. apply NoDup_Permutation; [apply pivot_index_NoDup | exact Hnd |].
  intros k. rewrite pivot_index_In. apply scored_rows_names. exact Hlen.
Qed.

(** The frame [detailed] of a request whose menu is not empty. *)
Lemma detailed_frame_rows items probs future_df :
  items <> [] ->
  List.length probs = (2 * List.length items)%nat ->
  map name_type_probability future_df = scored_rows items probs ->
  forall detailed, detailed_frame future_df = Returned detailed ->
  to_dict_records detailed
  = map detailed_record
        (map (pivot_row (scored_rows items probs))
             (pivot_index (map (fun r => fst (fst r)) (scored_rows items probs)))).
Proof.
  intros Hne Hlen Hrows detailed. unfold detailed_frame, pivot. rewrite Hrows.
  destruct (has_duplicate_pairs (scored_rows items probs)); [discriminate |].
  cbn [bind pt_columns pt_index].
  rewrite (order_type_levels items probs Hne Hlen).
  set (index := pivot_index _).
  cbn [map fst snd].
  change (has_key "Dine In" _) with true. change (has_key "Take Away" _) with true.
  change (formatted_column "Dine In") with true.
  change (formatted_column "Take Away") with true.
  cbv iota. cbn [negb]. intros H. injection H as <-.
  rewrite !map_map.
  exact (to_dict_records_map index
           [("food_item_name", fillna0_name);
            ("Dine In", fun x => JStr (format_pct (fillna0
                           (pivot_cell (scored_rows items probs) x "Dine In"))));
            ("Take Away", fun x => JStr (format_pct (fillna0
                           (pivot_cell (scored_rows items probs) x "Take Away"))))]).
Qed.

Lemma aggregate_detailed E s d h ev w future_df v :
  aggregate E s d h ev w future_df = Returned v ->
  exists detailed,
    detailed_frame future_df = Returned detailed /\
    getitem_str v "detailed_prediction" = Returned (JArr (to_dict_records detailed)).
Proof.
  unfold aggregate. intros H. do 5 inv_bind H. injection H as <-.
  exists a. split; [exact Ha | reflexivity].
Qed.

(** A combination that no scored row has is shown as 0, and so is a
    probability that is NaN. *)
Example pivot_row_missing :
  detailed_record
    (pivot_row [(Str "Tea", "Dine In", 0.25%float); (Str "Cake", "Take Away", nan)] (Str "Tea"))
  = JObj [("food_item_name", JStr "Tea"); ("Dine In", JStr "25.00%");
          ("Take Away", JStr "0.00%")] /\
  detailed_record
    (pivot_row [(Str "Tea", "Dine In", 0.25%float); (Str "Cake", "Take Away", nan)] (Str "Cake"))
  = JObj [("food_item_name", JStr "Cake"); ("Dine In", JStr "0.00%");
          ("Take Away", JStr "0.00%")].
Proof. split; reflexivity. Qed.


Lemma sample_classifier_plain X probs :
  sample_classifier X = Returned probs -> Forall plain_probability probs.
Proof.
  unfold sample_classifier.
  destruct (assoc "order_type_Dine In" (columns X)) as [cells |];
    intros H; injection H as <-.
  - apply Forall_forall. intros p Hp. apply in_map_iff in Hp.
    destruct Hp as [c [<- _]]. destruct c as [| [|] | | | | |]; split; reflexivity.
  - apply Forall_forall. intros p Hp. apply repeat_spec in Hp. subst p. split; reflexivity.
Qed.


(** A menu row without a name belongs to no group of the overall ranking;
    in the wide table it is the first row, and [fillna(0)] writes its name
    as 0. *)
Example unnamed_row :
  exists v,
    fst (generate_predictions unnamed_env "2024-12-25" 19 false) = Returned v /\
    getitem_str v "overall_prediction"
    = Returned (JArr [JObj [("food_item_name", JStr "Burger");
                            ("probability", JStr "62.50%")]]) /\
    getitem_str v "detailed_prediction"
    = Returned (JArr [JObj [("food_item_name", JInt 0);
                            ("Dine In", JStr "75.00%"); ("Take Away", JStr "50.00%")];
                      JObj [("food_item_name", JStr "Burger");
                            ("Dine In", JStr "75.00%"); ("Take Away", JStr "50.00%")]]).
Proof.
  eexists. split; [vm_compute; reflexivity |]. split; reflexivity.
Qed.

(** ** Insertion sort is a stable [argsort] *)

Lemma insert_by_value_perm x l : Permutation (insert_by_value x l) (x :: l).
Proof.
  induction l as [| y l IH]; simpl; [reflexivity |].
  destruct (snd x <=? snd y)%float; [reflexivity |].
  rewrite IH. apply perm_swap.
Qed.

Lemma insert_by_value_sorted x l :
  is_nan (snd x) = false ->
  Forall (fun y => is_nan (snd y) = false) l ->
  StronglySorted by_value_then_index l ->
  Forall (fun y => (fst x < fst y)%nat) l ->
  StronglySorted by_value_then_index (insert_by_value x l).
Proof.
  intros Hx Hnn Hsorted. revert Hnn.
  induction Hsorted as [| y l Hl IH Hy]; intros Hnn Hidx; simpl.
  - constructor; constructor.
  - inversion Hidx as [| ? ? Hxy Hidx']; subst.
    inversion Hnn as [| ? ? Hynn Hnn']; subst.
    destruct (snd x <=? snd y)%float eqn:Hle.
    + constructor; [constructor; assumption |].
      constructor; [split; [exact Hle | intros _; exact Hxy] |].
      rewrite Forall_forall in Hy, Hidx' |- *. intros z Hz. split.
      * apply (float_le_trans _ (snd y)); [exact Hle | apply (Hy z Hz)].
      * intros _. exact (Hidx' z Hz).
    + pose proof (float_le_total _ _ Hx Hynn Hle) as Hge.
      constructor; [exact (IH Hnn' Hidx') |].
      apply (Permutation_Forall (Permutation_sym (insert_by_value_perm x l))).
      constructor; [| exact Hy]. split; [exact Hge |].
      intros Heq. apply float_eqb_le in Heq. destruct Heq as [_ Hxy'].
      unfold float_le in Hxy'. congruence.
Qed.

Lemma combine_seq_In (l : list float) : forall s i v,
  In (i, v) (combine (seq s (List.length l)) l) ->
  (s <= i)%nat /\ nth_error l (i - s) = Some v.
Proof.
  induction l as [| x l IH]; intros s i v; simpl; [tauto |].
  intros [H | H].
  - injection H as <- <-. rewrite Nat.sub_diag. split; [lia | reflexivity].
  - destruct (IH (S s) i v H) as [Hs Hnth]. split; [lia |].
    replace (i - s)%nat with (S (i - S s)) by lia. exact Hnth.
Qed.

Lemma map_fst_combine_seq (l : list float) s :
  map fst (combine (seq s (List.length l)) l) = seq s (List.length l).
Proof.
  revert s. induction l as [| x l IH]; intros s; simpl; [reflexivity |].
  rewrite IH. reflexivity.
Qed.

Lemma insertion_sorted (l : list float) : forall s,
  no_nan l ->
  let pairs := combine (seq s (List.length l)) l in
  StronglySorted by_value_then_index (fold_right insert_by_value [] pairs) /\
  Permutation (fold_right insert_by_value [] pairs) pairs.
Proof.
  induction l as [| x l IH]; intros s Hnn; simpl.
  - split; [constructor | constructor].
  - inversion Hnn as [| ? ? Hx Hnn']; subst.
    destruct (IH (S s) Hnn') as [Hsorted Hperm]. split.
    + apply insert_by_value_sorted; [exact Hx | | exact Hsorted |].
      * apply (Permutation_Forall (Permutation_sym Hperm)).
        apply Forall_forall. intros [i v] Hin. apply combine_seq_In in Hin.
        destruct Hin as [_ Hnth]. apply nth_error_In in Hnth.
        unfold no_nan in Hnn'. rewrite Forall_forall in Hnn'. exact (Hnn' v Hnth).
      * apply (Permutation_Forall (Permutation_sym Hperm)).
        apply Forall_forall. intros [i v] Hin. apply combine_seq_In in Hin. simpl. lia.
    + rewrite insert_by_value_perm. apply perm_skip. exact Hperm.
Qed.

Lemma insertion_pairs_value (l : list float) x :
  no_nan l ->
  In x (fold_right insert_by_value [] (combine (seq 0 (List.length l)) l)) ->
  nth (fst x) l 0%float = snd x.
Proof.
  intros Hnn Hin. apply (Permutation_in _ (proj2 (insertion_sorted l 0 Hnn))) in Hin.
  destruct x as [i v]. apply combine_seq_In in Hin. destruct Hin as [_ Hnth].
  rewrite Nat.sub_0_r in Hnth. simpl. apply nth_error_nth. exact Hnth.
Qed.

Lemma StronglySorted_map_intro {A B : Type} (R : B -> B -> Prop) (f : A -> B) l :
  StronglySorted (fun a b => R (f a) (f b)) l -> StronglySorted R (map f l).
Proof.
  induction 1 as [| x l Hl IH Hx]; simpl; constructor; [exact IH |].
  rewrite Forall_map. exact Hx.
Qed.

Lemma StronglySorted_nth {A : Type} (R : A -> A -> Prop) (d : A) l :
  StronglySorted R l ->
  forall p q, (p < q < List.length l)%nat -> R (nth p l d) (nth q l d).
Proof.
  induction 1 as [| x l Hl IH Hx]; intros p q Hpq; simpl in Hpq; [lia |].
  destruct q as [| q]; [lia |]. destruct p as [| p]; simpl.
  - rewrite Forall_forall in Hx. apply Hx. apply nth_In. lia.
  - apply IH. lia.
Qed.

Lemma insertion_argsort_ok : argsort_ok insertion_argsort.
Proof.
  intros l Hnn. unfold insertion_argsort.
  destruct (insertion_sorted l 0 Hnn) as [Hsorted Hperm]. cbv zeta in Hsorted, Hperm. split.
  - rewrite (Permutation_map fst Hperm). rewrite map_fst_combine_seq. reflexivity.
  - rewrite map_map.
    rewrite (map_ext_in _ snd) by (intros x Hx; apply insertion_pairs_value; assumption).
    apply StronglySorted_map_intro.
    apply (StronglySorted_weaken by_value_then_index); [| exact Hsorted].
    intros a b _ _ [H _]. exact H.
Qed.

Lemma insertion_argsort_stable : argsort_stable insertion_argsort.
Proof.
  intros l p q Hnn Hpq Heq. unfold insertion_argsort in *.
  set (sorted := fold_right insert_by_value [] (combine (seq 0 (List.length l)) l)) in *.
  rewrite length_map in Hpq.
  change O with (fst (O, 0%float)) in Heq |- *. rewrite !map_nth in Heq |- *.
  assert (Hp : In (nth p sorted (O, 0%float)) sorted) by (apply nth_In; lia).
  assert (Hq : In (nth q sorted (O, 0%float)) sorted) by (apply nth_In; lia).
  rewrite (insertion_pairs_value l _ Hnn Hp), (insertion_pairs_value l _ Hnn Hq) in Heq.
  destruct (StronglySorted_nth _ (O, 0%float) sorted (proj1 (insertion_sorted l 0 Hnn)) p q Hpq)
    as [_ Hidx].
  exact (Hidx Heq).
Qed.


(** ** The order of strings *)

Lemma ascii_compare_lt_trans a b c :
  Ascii.compare a b = Lt -> Ascii.compare b c = Lt -> Ascii.compare a c = Lt.
Proof.
  unfold Ascii.compare. rewrite !N.compare_lt_iff. apply N.lt_trans.
Qed.

Lemma string_compare_lt_trans a : forall b c,
  String.compare a b = Lt -> String.compare b c = Lt -> String.compare a c = Lt.
Proof.
  induction a as [| x a IH]; intros [| y b] [| z c]; simpl; try discriminate; try reflexivity.
  destruct (Ascii.compare x y) eqn:Hxy; try discriminate.
  - apply Ascii.compare_eq_iff in Hxy. subst y.
    destruct (Ascii.compare x z) eqn:Hxz; try discriminate; [apply IH | reflexivity].
  - destruct (Ascii.compare y z) eqn:Hyz; try discriminate.
    + apply Ascii.compare_eq_iff in Hyz. subst z. rewrite Hxy. reflexivity.
    + rewrite (ascii_compare_lt_trans _ _ _ Hxy Hyz). reflexivity.
Qed.

Lemma ltb_trans a b c :
  String.ltb a b = true -> String.ltb b c = true -> String.ltb a c = true.
Proof.
  unfold String.ltb.
  destruct (String.compare a b) eqn:Hab; try discriminate.
  destruct (String.compare b c) eqn:Hbc; try discriminate.
  rewrite (string_compare_lt_trans _ _ _ Hab Hbc). reflexivity.
Qed.

Lemma leb_ltb a b : String.leb a b = true -> a <> b -> String.ltb a b = true.
Proof.
  unfold String.leb, String.ltb.
  destruct (String.compare a b) eqn:Hab; try discriminate; [| reflexivity].
  apply String.compare_eq_iff in Hab. contradiction.
Qed.

Lemma not_leb_ltb a b : String.leb a b = false -> String.ltb b a = true.
Proof.
  unfold String.leb, String.ltb. rewrite (String.compare_antisym a b).
  destruct (String.compare b a); simpl; try discriminate. reflexivity.
Qed.

Lemma insert_sorted_strict x l :
  StronglySorted str_lt l -> ~ In x l -> StronglySorted str_lt (insert_sorted x l).
Proof.
  induction 1 as [| y l Hl IH Hy]; intros Hx; simpl.
  - constructor; constructor.
  - destruct (String.leb x y) eqn:Hle.
    + assert (Hxy : str_lt x y).
      { apply leb_ltb; [exact Hle |]. intros Heq. apply Hx. left. symmetry. exact Heq. }
      constructor; [constructor; assumption |].
      constructor; [exact Hxy |].
      apply (Forall_impl _ (fun z Hz => ltb_trans x y z Hxy Hz) Hy).
    + constructor; [apply IH; intros Hin; apply Hx; right; exact Hin |].
      apply (Permutation_Forall (Permutation_sym (insert_sorted_perm x l))).
      constructor; [apply not_leb_ltb; exact Hle | exact Hy].
Qed.

Lemma levels_sorted l : StronglySorted str_lt (levels l).
Proof.
  unfold levels. pose proof (NoDup_nodup string_dec l) as Hnd.
  induction Hnd as [| x l' Hx Hnd IH]; simpl; [constructor |].
  apply insert_sorted_strict; [exact IH |].
  intros Hin. apply Hx. apply (Permutation_in _ (sort_strings_perm l')). exact Hin.
Qed.

(** ** Ties under a stable sort *)

Lemma nth_map_lt {A B : Type} (f : A -> B) (l : list A) p (d : B) (d' : A) :
  (p < List.length l)%nat -> nth p (map f l) d = f (nth p l d').
Proof.
  intros Hp. rewrite (nth_indep (map f l) d (f d')) by (rewrite length_map; exact Hp).
  apply map_nth.
Qed.

Lemma float_eqb_sym x y : (x =? y)%float = true -> (y =? x)%float = true.
Proof. rewrite !float_eqb_le. tauto. Qed.

Lemma tied_not_nan x y :
  is_nan x = false -> tied x y -> (x =? y)%float = true /\ is_nan y = false.
Proof.
  intros Hx [H | [H _]]; [| congruence]. split; [exact H |].
  apply float_eqb_le in H. destruct H as [H _].
  exact (proj2 (float_le_not_nan _ _ H)).
Qed.

Section StableSort.

Variable E : env.
Hypothesis sort_ok : argsort_ok (argsort E).
Hypothesis sort_stable : argsort_stable (argsort E).

Lemma nargsort_desc_length items :
  List.length (nargsort_desc E items) = List.length items.
Proof.
  rewrite (Permutation_length (nargsort_desc_perm E sort_ok items)). apply length_seq.
Qed.

Lemma nargsort_desc_in_range items p :
  (p < List.length items)%nat -> (nth p (nargsort_desc E items) O < List.length items)%nat.
Proof.
  intros Hp.
  assert (Hin : In (nth p (nargsort_desc E items) O) (nargsort_desc E items))
    by (apply nth_In; rewrite nargsort_desc_length; exact Hp).
  apply (Permutation_in _ (nargsort_desc_perm E sort_ok items)) in Hin.
  apply in_seq in Hin. lia.
Qed.

(** Two positions of the sorted order whose values are tied select
    ascending positions of the array. *)
Lemma nargsort_desc_stable items p q :
  (p < q < List.length items)%nat ->
  tied (nth (nth p (nargsort_desc E items) O) items 0%float)
       (nth (nth q (nargsort_desc E items) O) items 0%float) ->
  (nth p (nargsort_desc E items) O < nth q (nargsort_desc E items) O)%nat.
Proof.
  intros Hpq.
  destruct (nargsort_desc_parts E sort_ok items)
    as (K & N & sigma & Hidx & Hsigma & Hnn & Hnan & Hperm & HK & HN & Hsperm).
  rewrite Hidx. clear Hidx.
  set (m := List.length K) in *.
  set (f := fun j => nth j (rev K) O).
  assert (Hls : List.length sigma = m)
    by (rewrite (Permutation_length Hsperm); apply length_seq).
  assert (HlA : List.length (rev (map f sigma)) = m)
    by (rewrite length_rev, length_map; exact Hls).
  assert (HlN : (m + List.length N = List.length items)%nat).
  { rewrite <- (length_seq (List.length items) 0), <- (Permutation_length Hperm),
      length_app. reflexivity. }
  assert (Hsel : forall r, (r < m)%nat ->
            let j := nth (m - S r) sigma O in
            (j < m)%nat /\
            nth r (rev (map f sigma)) O = nth (m - S j) K O /\
            nth (nth (m - S j) K O) items 0%float
            = nth j (rev (map (fun i => nth i items 0%float) K)) 0%float).
  { intros r Hr j.
    assert (Hj : (j < m)%nat).
    { assert (Hin : In j sigma) by (apply nth_In; lia).
      apply (Permutation_in _ Hsperm) in Hin. apply in_seq in Hin. lia. }
    split; [exact Hj |]. split.
    - rewrite rev_nth by (rewrite length_map; lia).
      rewrite length_map, Hls, (nth_map_lt f sigma _ O O) by lia.
      unfold f. apply rev_nth. exact Hj.
    - rewrite rev_nth by (rewrite length_map; exact Hj).
      rewrite length_map. fold m. symmetry.
      apply (nth_map_lt (fun i => nth i items 0%float)). lia. }
  assert (Hvalue : forall r, (r < m)%nat ->
            is_nan (nth (nth r (rev (map f sigma)) O) items 0%float) = false).
  { intros r Hr. destruct (Hsel r Hr) as (Hj & -> & _).
    unfold no_nan in Hnn. rewrite Forall_forall in Hnn. apply Hnn.
    apply (in_map (fun i => nth i items 0%float)). apply nth_In. fold m. lia. }
  assert (Hmissing : forall r, (m <= r < List.length items)%nat ->
            is_nan (nth (nth (r - m) N O) items 0%float) = true).
  { intros r Hr. rewrite Forall_forall in Hnan. apply (Hnan (nth (r - m) N O)).
    apply nth_In. lia. }
  destruct (lt_dec q m) as [Hq | Hq].
  - rewrite !app_nth1 by lia. intros Htied.
    destruct (Hsel p ltac:(lia)) as (Hjp & Hp' & Hvp).
    destruct (Hsel q Hq) as (Hjq & Hq' & Hvq).
    cbv zeta in *.
    pose proof (Hvalue p ltac:(lia)) as Hnp.
    apply (tied_not_nan _ _ Hnp) in Htied. destruct Htied as [Heq _].
    rewrite Hp', Hq' in Heq |- *. rewrite Hvp, Hvq in Heq. apply float_eqb_sym in Heq.
    assert (Hlt : (nth (m - S q) sigma O < nth (m - S p) sigma O)%nat).
    { rewrite Hsigma. apply sort_stable.
      - apply no_nan_rev. exact Hnn.
      - rewrite <- Hsigma, Hls. lia.
      - rewrite <- Hsigma. exact Heq. }
    apply (StronglySorted_nth lt O K HK). fold m. lia.
  - destruct (lt_dec p m) as [Hp | Hp].
    + rewrite app_nth1, app_nth2 by lia. rewrite HlA. intros Htied.
      pose proof (Hvalue p Hp) as Hnp. pose proof (Hmissing q ltac:(lia)) as Hnq.
      apply (tied_not_nan _ _ Hnp) in Htied. destruct Htied as [_ Hq'].
      congruence.
    + rewrite !app_nth2 by lia. rewrite HlA. intros _.
      apply (StronglySorted_nth lt O N HN). lia.
Qed.

Lemma overall_ranking_ties future_df : ties_in_name_order (overall_ranking E future_df).
Proof.
  unfold ties_in_name_order, overall_ranking, sort_values_desc.
  set (rows := groupby_mean (map name_probability future_df)).
  set (d := (EmptyString, 0%float)).
  assert (Hlen : List.length (nargsort_desc E (map snd rows)) = List.length rows)
    by (rewrite nargsort_desc_length; apply length_map).
  intros p q Hpq Htied. rewrite length_map, Hlen in Hpq.
  rewrite !(nth_map_lt _ _ _ d O) in Htied |- * by lia.
  change 0%float with (snd d) in Htied. rewrite <- !(map_nth snd) in Htied.
  change (snd d) with 0%float in Htied.
  apply nargsort_desc_stable in Htied; [| rewrite length_map; exact Hpq].
  change EmptyString with (fst d). rewrite <- !(map_nth fst).
  apply (StronglySorted_nth str_lt).
  - unfold rows, groupby_mean. rewrite map_map. cbn [fst]. rewrite map_id.
    apply levels_sorted.
  - split; [exact Htied |]. rewrite length_map, <- (length_map snd rows).
    apply nargsort_desc_in_range. rewrite length_map. lia.
Qed.

End StableSort.





(** * Further properties of the code *)

(** ** What a request may do *)

Lemma weather_trace E location d h :
  (~ (0 < forecast_days E d <= 14)%Z /\
   get_hourly_weather_forecast E location d h = (out_of_range_error, [])) \/
  ((0 < forecast_days E d <= 14)%Z /\
   snd (get_hourly_weather_forecast E location d h)
   = [Outbound (weather_request E location (forecast_days E d))]).
Proof.
  destruct (in_window_spec (forecast_days E d)) as [H1 H2].
  destruct ((0 <? forecast_days E d) && (forecast_days E d <=? 14))%Z eqn:Hw.
  - right. split; [exact (H1 eq_refl) |].
    rewrite (weather_in_range _ _ _ _ (H1 eq_refl)). reflexivity.
  - left. assert (Hout : ~ (0 < forecast_days E d <= 14)%Z).
    { intros Hin. apply H2 in Hin. congruence. }
    split; [exact Hout | apply weather_out_of_range; exact Hout].
Qed.

(** X1. Whatever the request, the service sends at most one forecast request
    and calls the classifier at most once, and only after the forecast
    request; every request it sends asks the forecast URL for 1 to 14 days
    at the fixed location with the configured key. *)
Theorem request_trace_shape E s h ev :
  let tr := snd (generate_predictions E s h ev) in
  tr = [] \/
  (exists r, tr = [Outbound r] /\ forecast_request E r) \/
  (exists r X, tr = [Outbound r; Scored X] /\ forecast_request E r).
Proof.
  unfold generate_predictions.
  destruct (strptime_Ymd s) as [d |]; [| left; reflexivity].
  destruct (weather_trace E RESTAURANT_LOCATION d h) as [[_ Hw] | [Hin Htr]].
  - rewrite Hw. left. reflexivity.
  - destruct (get_hourly_weather_forecast E RESTAURANT_LOCATION d h) as [w tr].
    cbn [snd] in Htr. subst tr.
    assert (Hreq : forecast_request E
                     (weather_request E RESTAURANT_LOCATION (forecast_days E d))).
    { exists (forecast_days E d). split; [lia | reflexivity]. }
    destruct (py_in "error" w) as [[|] | e]; cbn [snd].
    + right. left. eexists. split; [reflexivity | exact Hreq].
    + destruct (prepare_features E d h ev w) as [[scenarios X] | e]; cbn [snd].
      * right. right. eexists. eexists. split; [reflexivity | exact Hreq].
      * right. left. eexists. split; [reflexivity | exact Hreq].
    + right. left. eexists. split; [reflexivity | exact Hreq].
Qed.

(** ** Which hour slice the lookup returns *)

Lemma seq_index_last {A : Type} (l : list A) (x : A) : seq_index (l ++ [x]) (-1) = Some x.
Proof.
  unfold seq_index. rewrite length_app. cbn [List.length].
  set (n := Z.of_nat (List.length l + 1)).
  assert (Hn : (n = Z.of_nat (List.length l) + 1)%Z) by (unfold n; lia).
  destruct ((0 <=? -1) && (-1 <? n))%Z eqn:H1; [apply andb_true_iff in H1; lia |].
  destruct ((- n <=? -1) && (-1 <? 0))%Z eqn:H2.
  - replace (Z.to_nat (n + -1)) with (List.length l + 0)%nat by lia.
    rewrite nth_error_app2 by lia.
    replace (List.length l + 0 - List.length l)%nat with O by lia. reflexivity.
  - apply andb_false_iff in H2. destruct H2 as [H2 | H2];
      [apply Z.leb_gt in H2 | apply Z.ltb_ge in H2]; lia.
Qed.

Lemma seq_index_mod {A : Type} (l : list A) (i : Z) :
  (- Z.of_nat (List.length l) <= i < Z.of_nat (List.length l))%Z ->
  seq_index l i = nth_error l (Z.to_nat (i mod Z.of_nat (List.length l))).
Proof.
  intros Hi. unfold seq_index. set (n := Z.of_nat (List.length l)) in *.
  destruct ((0 <=? i) && (i <? n))%Z eqn:H1.
  - apply andb_true_iff in H1. destruct H1 as [H0 H1].
    apply Z.leb_le in H0. apply Z.ltb_lt in H1.
    rewrite Z.mod_small by lia. reflexivity.
  - assert (Hneg : (i < 0)%Z).
    { apply andb_false_iff in H1. destruct H1 as [H1 | H1];
        [apply Z.leb_gt in H1 | apply Z.ltb_ge in H1]; lia. }
    destruct ((- n <=? i) && (i <? 0))%Z eqn:H2.
    + f_equal. f_equal. rewrite <- (Z.mod_add i 1 n) by lia.
      rewrite Z.mod_small by lia. lia.
    + apply andb_false_iff in H2. destruct H2 as [H2 | H2];
        [apply Z.leb_gt in H2 | apply Z.ltb_ge in H2]; lia.
Qed.

Lemma seq_index_outside {A : Type} (l : list A) (i : Z) :
  (i < - Z.of_nat (List.length l) \/ Z.of_nat (List.length l) <= i)%Z ->
  seq_index l i = None.
Proof.
  intros Hi. unfold seq_index. set (n := Z.of_nat (List.length l)) in *.
  destruct ((0 <=? i) && (i <? n))%Z eqn:H1.
  - apply andb_true_iff in H1. destruct H1 as [H0 H1].
    apply Z.leb_le in H0. apply Z.ltb_lt in H1. lia.
  - destruct ((- n <=? i) && (i <? 0))%Z eqn:H2; [| reflexivity].
    apply andb_true_iff in H2. destruct H2 as [H0 H2].
    apply Z.leb_le in H0. apply Z.ltb_lt in H2. lia.
Qed.

Lemma fetch_hour_carries E req h r hours :
  requests_get E req = Returned r ->
  carries_hours r hours ->
  fetch_hour E req h = getitem_int (JArr hours) h.
Proof.
  intros Hget [Hstatus (top & forecast & earlier & last_day & Hbody & Hf & Hfd & Hh)].
  unfold fetch_hour, raise_for_status, response_json. rewrite Hget. cbn [bind].
  destruct ((400 <=? status_code r) && (status_code r <? 600))%Z eqn:Hs.
  - apply andb_true_iff in Hs. destruct Hs as [H1 H2].
    apply Z.leb_le in H1. apply Z.ltb_lt in H2. exfalso. apply Hstatus. lia.
  - cbn [bind]. rewrite Hbody. cbn [bind getitem_str]. rewrite Hf. cbn [bind getitem_str].
    rewrite Hfd. cbn [bind getitem_int]. rewrite seq_index_last. cbn [bind getitem_str].
    rewrite Hh. reflexivity.
Qed.

(** X2. When the provider answers with a forecast, the lookup returns the
    slice of the last forecast day at the Python index [target_hour]: for an
    hour from -n to n-1 (n slices) that is slice [target_hour mod n], so -1
    selects the last hour of the day; any other hour gives the parsing-error
    dict.  One request is sent either way. *)
Theorem weather_hour_index E location d h r hours :
  (0 < forecast_days E d <= 14)%Z ->
  requests_get E (weather_request E location (forecast_days E d)) = Returned r ->
  carries_hours r hours ->
  let n := Z.of_nat (List.length hours) in
  let result := get_hourly_weather_forecast E location d h in
  snd result = [Outbound (weather_request E location (forecast_days E d))] /\
  ((- n <= h < n)%Z -> nth_error hours (Z.to_nat (h mod n)) = Some (fst result)) /\
  ((h < - n \/ n <= h)%Z ->
   fst result = error_dict ("API or data parsing error: " ++ exn_str E IndexError)).
Proof.
  intros Hin Hget Hcarry n result. subst result.
  rewrite (weather_in_range _ _ _ _ Hin), (fetch_hour_carries _ _ _ _ _ Hget Hcarry).
  cbn [fst snd getitem_int]. split; [reflexivity |]. split.
  - intros Hh. rewrite (seq_index_mod hours h Hh). fold n.
    destruct (nth_error hours (Z.to_nat (h mod n))) as [x |] eqn:Hx; [reflexivity |].
    exfalso. apply nth_error_None in Hx.
    assert (0 <= h mod n < n)%Z by (apply Z.mod_pos_bound; lia). lia.
  - intros Hh. rewrite (seq_index_outside hours h Hh). reflexivity.
Qed.

(** ** When a request succeeds *)

Lemma has_key_getitem k slice :
  has_key k slice = true -> exists v, getitem_str (JObj slice) k = Returned v.
Proof.
  unfold has_key, getitem_str. destruct (assoc k slice) as [v |]; [| discriminate].
  intros _. exists v. reflexivity.
Qed.

Lemma make_base_complete h row dow dt slice hol ev :
  (forall k, In k weather_keys -> has_key k slice = true) ->
  exists b, make_base h row dow dt (JObj slice) hol ev = Returned b.
Proof.
  intros Hkeys. unfold make_base.
  destruct (has_key_getitem "temp_c" slice) as [v1 ->]; [apply Hkeys; simpl; tauto |].
  destruct (has_key_getitem "wind_kph" slice) as [v2 ->]; [apply Hkeys; simpl; tauto |].
  destruct (has_key_getitem "precip_mm" slice) as [v3 ->]; [apply Hkeys; simpl; tauto |].
  destruct (has_key_getitem "cloud" slice) as [v4 ->]; [apply Hkeys; simpl; tauto |].
  destruct (has_key_getitem "humidity" slice) as [v5 ->]; [apply Hkeys; simpl; tauto |].
  destruct (has_key_getitem "pressure_mb" slice) as [v6 ->]; [apply Hkeys; simpl; tauto |].
  eexists. reflexivity.
Qed.

Lemma build_scenarios_complete h dow dt slice hol ev items :
  (forall k, In k weather_keys -> has_key k slice = true) ->
  exists bases,
    build_scenarios h dow dt (JObj slice) hol ev items = Returned (flat_map two_rows bases) /\
    map item_of bases = items.
Proof.
  intros Hkeys. induction items as [| row rest IH].
  - exists []. split; reflexivity.
  - destruct IH as (bases & Hbuild & Hitems).
    destruct (make_base_complete h row dow dt slice hol ev Hkeys) as [b Hb].
    exists (b :: bases). simpl. rewrite Hb, Hbuild. cbn [bind]. split; [reflexivity |].
    f_equal; [| exact Hitems]. apply (make_base_inv _ _ _ _ _ _ _ _ Hb).
Qed.

Lemma encode_align_complete E scenarios :
  scenarios <> [] ->
  exists enc X,
    get_dummies (DataFrame scenarios) categorical = Returned enc /\
    reindex enc (model_columns E) (JInt 0) = Returned X /\
    nrows X = List.length scenarios.
Proof.
  intros Hne. pose proof (get_dummies_DataFrame scenarios Hne) as Henc.
  pose proof (encoded_labels_NoDup _ _ Henc) as Hnd. apply all_distinct_NoDup in Hnd.
  eexists. eexists. split; [exact Henc |]. unfold reindex. rewrite Hnd.
  split; reflexivity.
Qed.

Lemma scored_rows_keys_NoDup items : forall probs,
  List.length probs = (2 * List.length items)%nat ->
  NoDup (map fst items) ->
  NoDup (map fst (scored_rows items probs)).
Proof.
  induction items as [| item items IH]; intros probs Hlen Hnd.
  - destruct probs as [| ? [| ? ?]]; constructor.
  - destruct probs as [| p1 [| p2 ps]]; simpl in Hlen; try lia.
    inversion Hnd as [| ? ? Hitem Hnd']; subst.
    assert (Hlen' : List.length ps = (2 * List.length items)%nat) by lia.
    assert (Habsent : forall c, ~ In (fst item, c) (map fst (scored_rows items ps))).
    { intros c Hin. apply Hitem. apply (scored_rows_names items ps Hlen').
      apply in_map_iff in Hin. destruct Hin as [r [Hr Hin]].
      apply in_map_iff. exists r. split; [rewrite Hr; reflexivity | exact Hin]. }
    cbn [scored_rows map fst]. constructor.
    + intros [Heq | Hin]; [discriminate Heq | exact (Habsent _ Hin)].
    + constructor; [apply Habsent | exact (IH ps Hlen' Hnd')].
Qed.

Lemma detailed_frame_complete items probs future_df :
  items <> [] ->
  List.length probs = (2 * List.length items)%nat ->
  NoDup (map fst items) ->
  map name_type_probability future_df = scored_rows items probs ->
  exists detailed, detailed_frame future_df = Returned detailed.
Proof.
  intros Hne Hlen Hnd Hrows. unfold detailed_frame, pivot. rewrite Hrows.
  rewrite (proj2 (has_duplicate_pairs_spec _) (scored_rows_keys_NoDup items probs Hlen Hnd)).
  cbn [bind pt_columns pt_index]. rewrite (order_type_levels items probs Hne Hlen).
  cbn [map fst snd].
  change (has_key "Dine In" _) with true. change (has_key "Take Away" _) with true.
  cbn [negb]. eexists. reflexivity.
Qed.

Lemma functional_names_NoDup {A B : Type} (items : list (A * B)) :
  NoDup items ->
  (forall n c1 c2, In (n, c1) items -> In (n, c2) items -> c1 = c2) ->
  NoDup (map fst items).
Proof.
  induction 1 as [| [n c] items Hx Hnd IH]; intros Hfun; simpl; constructor.
  - intros Hin. apply in_map_iff in Hin. destruct Hin as [[n' c'] [Heq Hin]].
    simpl in Heq. subst n'. apply Hx.
    rewrite (Hfun n c c') by (simpl; auto). exact Hin.
  - apply IH. intros n0 c1 c2 H1 H2. apply (Hfun n0); right; assumption.
Qed.

Lemma drop_duplicates_nonempty rows : rows <> [] -> drop_duplicates rows <> [].
Proof. destruct rows as [| r rest]; [congruence | discriminate]. Qed.

(** X3. A request succeeds whenever: the date parses and lies in the
    window, the provider's slice is a dict without an [error] key that has
    the six weather fields, the menu is not empty and gives each name one
    category, and the classifier returns one probability per row.  The
    forecast request and the classifier call are then the whole trace. *)
Theorem request_succeeds E s h ev d slice :
  strptime_Ymd s = Some d ->
  (0 < forecast_days E d <= 14)%Z ->
  fetch_hour E (weather_request E RESTAURANT_LOCATION (forecast_days E d)) h
  = Returned (JObj slice) ->
  has_key "error" slice = false ->
  (forall k, In k weather_keys -> has_key k slice = true) ->
  df_base E <> [] ->
  (forall n c1 c2, In (n, c1) (df_base E) -> In (n, c2) (df_base E) -> c1 = c2) ->
  (forall X, exists probs,
     predict_proba E X = Returned probs /\ List.length probs = nrows X) ->
  is_success (generate_predictions E s h ev) /\
  exists X, snd (generate_predictions E s h ev)
            = [Outbound (weather_request E RESTAURANT_LOCATION (forecast_days E d));
               Scored X].
Proof.
  intros Hparse Hin Hfetch Herr Hkeys Hmenu Hfun Hmodel.
  set (items := drop_duplicates (df_base E)).
  assert (Hitems_ne : items <> []).
  { apply drop_duplicates_nonempty. exact Hmenu. }
  assert (Hnd : NoDup (map fst items)).
  { apply functional_names_NoDup; [apply drop_duplicates_NoDup |].
    intros n c1 c2 H1 H2. unfold items in H1, H2.
    apply (proj1 (drop_duplicates_In _ _)) in H1.
    apply (proj1 (drop_duplicates_In _ _)) in H2. exact (Hfun n c1 c2 H1 H2). }
  destruct (build_scenarios_complete h (strftime_A d) (day_type_of (strftime_A d)) slice
              (holiday_calendar E d) ev items Hkeys) as (bases & Hbuild & Hbases).
  assert (Hsc_ne : flat_map two_rows bases <> []).
  { destruct bases; [simpl in Hbases; congruence | discriminate]. }
  destruct (encode_align_complete E _ Hsc_ne) as (enc & X & Henc & HX & Hrows).
  destruct (Hmodel X) as (probs & Hprobs & Hlen). rewrite Hrows in Hlen.
  assert (Hlen' : List.length probs = (2 * List.length items)%nat).
  { rewrite Hlen, flat_map_two_rows_length, <- Hbases, length_map. reflexivity. }
  assert (Hlenb : List.length probs = (2 * List.length bases)%nat).
  { rewrite Hlen. apply flat_map_two_rows_length. }
  destruct (detailed_frame_complete items probs (combine (flat_map two_rows bases) probs)
              Hitems_ne Hlen' Hnd) as [detailed Hdet].
  { rewrite <- Hbases. apply scored_rows_eq. exact Hlenb. }
  destruct (has_key_getitem "temp_c" slice) as [v1 H1]; [apply Hkeys; simpl; tauto |].
  destruct (has_key_getitem "precip_mm" slice) as [v2 H2]; [apply Hkeys; simpl; tauto |].
  destruct (has_key_getitem "wind_kph" slice) as [v3 H3]; [apply Hkeys; simpl; tauto |].
  destruct (has_key_getitem "cloud" slice) as [v4 H4]; [apply Hkeys; simpl; tauto |].
  assert (Hgp : exists v,
            generate_predictions E s h ev
            = (Returned v,
               [Outbound (weather_request E RESTAURANT_LOCATION (forecast_days E d));
                Scored X]) /\
            py_in "error" v = Returned false).
  { unfold generate_predictions. rewrite Hparse, (weather_in_range _ _ _ _ Hin), Hfetch.
    cbn [py_in]. rewrite Herr. unfold prepare_features. fold items.
    rewrite Hbuild. cbn [bind]. rewrite Henc. cbn [bind]. rewrite HX. cbn [bind].
    rewrite Hprobs. cbn [bind]. unfold assign_probability.
    rewrite Hlen, Nat.eqb_refl. cbn [bind]. unfold aggregate.
    rewrite Hdet. cbn [bind]. rewrite H1. cbn [bind]. rewrite H2. cbn [bind].
    rewrite H3. cbn [bind]. rewrite H4. cbn [bind app].
    eexists. split; reflexivity. }
  destruct Hgp as (v & Hgp & Hv). rewrite Hgp. split.
  - exists v. split; [reflexivity | exact Hv].
  - exists X. reflexivity.
Qed.

(** ** The response of a successful request *)

Lemma getitem_str_inv w k x :
  getitem_str w k = Returned x -> exists slice, w = JObj slice /\ assoc k slice = Some x.
Proof.
  destruct w as [| b | z | fl | t | l | slice]; simpl; try discriminate.
  destruct (assoc k slice) as [y |] eqn:Hk; [| discriminate].
  intros H. injection H as <-. exists slice. split; [reflexivity | exact Hk].
Qed.

(** X4. The response of a successful request has four entries, in this
    order: the metadata, which repeats the date text as it was sent, the
    hour and the event flag, and adds the holiday flag and the day name of
    the parsed date; the weather conditions, which are four fields of the
    slice the lookup returned; the overall and the detailed prediction. *)
Theorem success_envelope E s h ev v :
  fst (generate_predictions E s h ev) = Returned v ->
  py_in "error" v = Returned false ->
  exists d slice temp precip wind cloud_cover overall detailed,
    strptime_Ymd s = Some d /\
    fst (get_hourly_weather_forecast E RESTAURANT_LOCATION d h) = JObj slice /\
    assoc "temp_c" slice = Some temp /\
    assoc "precip_mm" slice = Some precip /\
    assoc "wind_kph" slice = Some wind /\
    assoc "cloud" slice = Some cloud_cover /\
    v = JObj
          [("prediction_metadata", JObj
              [("target_date", JStr s);
               ("target_hour", JInt h);
               ("is_special_event", JBool ev);
               ("is_public_holiday", JBool (holiday_calendar E d));
               ("day_of_week", JStr (strftime_A d))]);
           ("weather_conditions", JObj
              [("temperature_c", temp);
               ("precipitation_mm", precip);
               ("wind_kph", wind);
               ("cloud_percent", cloud_cover)]);
           ("overall_prediction", JArr overall);
           ("detailed_prediction", JArr detailed)].
Proof.
  intros Hv Herr.
  destruct (generate_predictions_success _ _ _ _ _ Hv Herr)
    as (d & w & tr & scenarios & X & probs & Hparse & Hw & _ & _ & _ & _ & Hagg & _).
  unfold aggregate in Hagg. do 5 inv_bind Hagg. injection Hagg as <-.
  destruct (getitem_str_inv _ _ _ Ha0) as (slice & -> & Ht).
  destruct (getitem_str_inv _ _ _ Ha1) as (slice1 & Heq1 & Hp). injection Heq1 as <-.
  destruct (getitem_str_inv _ _ _ Ha2) as (slice2 & Heq2 & Hwd). injection Heq2 as <-.
  destruct (getitem_str_inv _ _ _ Ha3) as (slice3 & Heq3 & Hc). injection Heq3 as <-.
  exists d, slice, a0, a1, a2, a3. eexists. eexists.
  rewrite Hw. repeat split; try assumption; reflexivity.
Qed.

(** ** Requests that end in an exception *)

(** X5. With a menu that is not empty, a slice that lacks one of the six
    weather fields makes the request leave by [KeyError] on the first field
    missing, after the forecast request and before any scoring.  All six are
    read, humidity and pressure included, though the response shows four. *)
Theorem missing_weather_field E s h ev d slice k :
  strptime_Ymd s = Some d ->
  (0 < forecast_days E d <= 14)%Z ->
  fetch_hour E (weather_request E RESTAURANT_LOCATION (forecast_days E d)) h
  = Returned (JObj slice) ->
  has_key "error" slice = false ->
  df_base E <> [] ->
  find (fun key => negb (has_key key slice)) weather_keys = Some k ->
  generate_predictions E s h ev
  = (Raised (KeyError k),
     [Outbound (weather_request E RESTAURANT_LOCATION (forecast_days E d))]).
Proof.
  intros Hparse Hin Hfetch Herr Hmenu Hfind.
  unfold generate_predictions. rewrite Hparse, (weather_in_range _ _ _ _ Hin), Hfetch.
  cbn [py_in]. rewrite Herr. unfold prepare_features.
  destruct (drop_duplicates (df_base E)) as [| row rest] eqn:Hitems.
  { exfalso. exact (drop_duplicates_nonempty _ Hmenu Hitems). }
  cbn [build_scenarios]. unfold make_base, getitem_str.
  unfold weather_keys, has_key in Hfind. cbn [find] in Hfind.
  destruct (assoc "temp_c" slice);
    [| cbn [negb] in Hfind; injection Hfind as <-; reflexivity].
  destruct (assoc "wind_kph" slice);
    [| cbn [negb] in Hfind; injection Hfind as <-; reflexivity].
  destruct (assoc "precip_mm" slice);
    [| cbn [negb] in Hfind; injection Hfind as <-; reflexivity].
  destruct (assoc "cloud" slice);
    [| cbn [negb] in Hfind; injection Hfind as <-; reflexivity].
  destruct (assoc "humidity" slice);
    [| cbn [negb] in Hfind; injection Hfind as <-; reflexivity].
  destruct (assoc "pressure_mb" slice);
    [| cbn [negb] in Hfind; injection Hfind as <-; reflexivity].
  discriminate Hfind.
Qed.

(** X6. With an empty menu a request whose weather lookup worked leaves by
    the [KeyError] of [data[columns]] inside [get_dummies]: there are no
    feature rows, so the frame has no columns, and none of the five labels
    to encode is one.  The exception carries those five labels, all of them
    missing (pandas words it "None of [Index([...])] are in the [columns]");
    it is not [KeyError('food_item_name')].  The slice is not read and the
    classifier is not called. *)
Theorem empty_menu_raises E s h ev d w :
  strptime_Ymd s = Some d ->
  (0 < forecast_days E d <= 14)%Z ->
  fetch_hour E (weather_request E RESTAURANT_LOCATION (forecast_days E d)) h = Returned w ->
  py_in "error" w = Returned false ->
  df_base E = [] ->
  generate_predictions E s h ev
  = (Raised (KeyErrorLabels categorical categorical),
     [Outbound (weather_request E RESTAURANT_LOCATION (forecast_days E d))]) /\
  categorical
  = ["food_item_name"; "food_item_category"; "day_of_the_week"; "day_type"; "order_type"].
Proof.
  intros Hparse Hin Hfetch Herr Hmenu. split; [| reflexivity].
  unfold generate_predictions. rewrite Hparse, (weather_in_range _ _ _ _ Hin), Hfetch, Herr.
  unfold prepare_features. rewrite Hmenu. reflexivity.
Qed.

(** ** Calendar facts *)

(** X7. The day name is one of the seven English names, chosen by the
    weekday number (Monday 0 to Sunday 6), and the day type is "Weekend"
    exactly on weekdays 5 and 6, "Weekday" otherwise. *)
Theorem day_type_weekend d :
  (0 <= weekday d < 7)%Z /\
  nth_error ["Monday"; "Tuesday"; "Wednesday"; "Thursday"; "Friday"; "Saturday"; "Sunday"]
            (Z.to_nat (weekday d)) = Some (strftime_A d) /\
  (day_type_of (strftime_A d) = "Weekend" <-> (weekday d = 5 \/ weekday d = 6)%Z) /\
  (day_type_of (strftime_A d) = "Weekday" <-> (weekday d < 5)%Z).
Proof.
  assert (Hw : (0 <= weekday d < 7)%Z) by (unfold weekday; apply Z.mod_pos_bound; lia).
  split; [exact Hw |]. unfold strftime_A.
  assert (Hcases : (weekday d = 0 \/ weekday d = 1 \/ weekday d = 2 \/ weekday d = 3 \/
                    weekday d = 4 \/ weekday d = 5 \/ weekday d = 6)%Z) by lia.
  repeat (destruct Hcases as [Hc | Hcases]);
    try rewrite Hc; try rewrite Hcases; cbn;
    (split; [reflexivity | split; split; intros H; try discriminate H; try lia]);
    try reflexivity.
Qed.

(** ** The indicator columns *)

Lemma strings_of_In cells i s :
  nth_error cells i = Some (JStr s) -> In s (strings_of cells).
Proof.
  intros H. apply nth_error_In in H. unfold strings_of. apply in_flat_map.
  exists (JStr s). split; [exact H | left; reflexivity].
Qed.

Lemma assoc_map_injective {A : Type} (key : string -> string) (f : string -> A) k l :
  (forall a b, key a = key b -> a = b) ->
  In k l -> assoc (key k) (map (fun x => (key x, f x)) l) = Some (f k).
Proof.
  intros Hinj. induction l as [| x l IH]; simpl; [tauto |].
  destruct (String.eqb_spec (key k) (key x)) as [Heq | Hne].
  - intros _. apply Hinj in Heq. subst x. reflexivity.
  - intros [Hx | Hin]; [subst x; congruence | exact (IH Hin)].
Qed.

Lemma dummies_lookup prefix cells level :
  In level (levels (strings_of cells)) ->
  assoc (prefix ++ "_" ++ level) (dummies prefix cells)
  = Some (map (fun c => JBool (is_str level c)) cells).
Proof.
  intros Hin. unfold dummies.
  apply (assoc_map_injective (fun l => (prefix ++ "_" ++ l)%string)
           (fun l => map (fun c => JBool (is_str l c)) cells) level _); [| exact Hin].
  intros a b H. apply append_inj in H. apply append_inj in H. exact H.
Qed.

(** X8. [get_dummies] is one-hot: in the indicator columns of a field, a
    row whose value is [s] holds true in the column labelled with [s] and
    false in every other column. *)
Theorem dummies_one_hot prefix cells i s :
  nth_error cells i = Some (JStr s) ->
  (exists column,
     assoc (prefix ++ "_" ++ s) (dummies prefix cells) = Some column /\
     nth_error column i = Some (JBool true)) /\
  (forall label column,
     In (label, column) (dummies prefix cells) ->
     label <> (prefix ++ "_" ++ s)%string ->
     nth_error column i = Some (JBool false)).
Proof.
  intros Hcell. split.
  - eexists. split.
    + apply dummies_lookup. apply levels_In. exact (strings_of_In _ _ _ Hcell).
    + rewrite nth_error_map, Hcell. cbn. rewrite String.eqb_refl. reflexivity.
  - intros label column Hin Hne. unfold dummies in Hin. apply in_map_iff in Hin.
    destruct Hin as (level & Heq & _). injection Heq as <- <-.
    rewrite nth_error_map, Hcell. cbn.
    destruct (String.eqb_spec s level) as [Heq | _]; [| reflexivity].
    exfalso. apply Hne. rewrite Heq. reflexivity.
Qed.

(** ** Percent strings, again *)

(** X9. The text that ['{:.2%}'.format] gives for a float has the form
    [\d+\.\d{2}%] exactly when the sign bit of the float is clear and its
    hundredfold, taken as a float, is finite.  A negative number and -0.0
    are written with a minus sign, an infinity as [inf%], NaN as [nan%].
    The digits are those of the hundredfold rounded half to even at the
    second decimal: 0.41045, a float below 41045/100000, is written
    [41.05%], since its hundredfold as a float lies above 41.045. *)
Theorem format_pct_pattern p :
  (matches_pct (format_pct p) = true <-> plain_probability p) /\
  format_pct (-0) = "-0.00%" /\
  format_pct (-0.5) = "-50.00%" /\
  format_pct infinity = "inf%" /\
  format_pct neg_infinity = "-inf%" /\
  format_pct nan = "nan%" /\
  format_pct (41045 / 100000) = "41.05%".
Proof.
  split; [| repeat split; reflexivity].
  rewrite format_pct_matches. unfold plain_probability. split.
  - intros [Hs Hn]. split; [| exact Hn]. rewrite <- (sign_bit_hundredfold p Hn). exact Hs.
  - intros [Hs Hn]. split; [| exact Hn]. rewrite (sign_bit_hundredfold p Hn). exact Hs.
Qed.

(** ** The route of [api.py] *)

(** X10. [create_prediction] does what [generate_predictions] does and
    nothing more: its trace is that of the call.  It answers with the
    returned dict exactly when that dict has no [error] entry, and the only
    [HTTPException] it raises has status 400 and carries the value of the
    [error] entry. *)
Theorem create_prediction_status E payload :
  let run := generate_predictions E (Api.target_date payload) (Api.target_hour payload)
                                  (Api.is_special_event payload) in
  let out := Api.create_prediction E payload in
  snd out = snd run /\
  (forall content,
     fst out = Api.Ok content <->
     fst run = Returned content /\ py_in "error" content = Returned false) /\
  (forall code detail,
     fst out = Api.HTTPException code detail ->
     code = 400%Z /\
     exists result,
       fst run = Returned result /\ py_in "error" result = Returned true /\
       getitem_str result "error" = Returned detail) /\
  fst out <> Api.ValidationError.
Proof.
  intros run out. subst run out. unfold Api.create_prediction.
  destruct (generate_predictions E _ _ _) as [[result | e] tr]; cbn [fst snd].
  - destruct (py_in "error" result) as [[|] | e] eqn:Hin.
    + destruct (getitem_str result "error") as [detail | e] eqn:Hget; cbn [fst snd].
      * split; [reflexivity |]. split; [| split]; try discriminate.
        -- intros content. split; [discriminate |]. intros [H1 H2].
           injection H1 as <-. congruence.
        -- intros code detail' H. injection H as <- <-. split; [reflexivity |].
           exists result. repeat split; assumption.
      * split; [reflexivity |]. split; [| split]; try discriminate.
        intros content. split; [discriminate |]. intros [H1 H2].
        injection H1 as <-. congruence.
    + cbn [fst snd]. split; [reflexivity |]. split; [| split]; try discriminate.
      intros content. split.
      * intros H. injection H as <-. split; [reflexivity | exact Hin].
      * intros [H1 _]. injection H1 as <-. reflexivity.
    + cbn [fst snd]. split; [reflexivity |]. split; [| split]; try discriminate.
      intros content. split; [discriminate |]. intros [H1 H2].
      injection H1 as <-. congruence.
  - split; [reflexivity |]. split; [| split]; try discriminate.
    intros content. split; [discriminate |]. intros [H1 _]. discriminate H1.
Qed.

(** X11. The three expected failures each become a 400 whose detail is the
    message text: a date that does not parse (nothing is sent), a date
    outside the window (nothing is sent), and a failed lookup (one forecast
    request was sent). *)
Theorem business_errors_become_400 E payload :
  let s := Api.target_date payload in
  let h := Api.target_hour payload in
  (strptime_Ymd s = None ->
   Api.create_prediction E payload
   = (Api.HTTPException 400 (JStr "Invalid date format. Please use YYYY-MM-DD."), [])) /\
  (forall d,
     strptime_Ymd s = Some d -> ~ (0 < forecast_days E d <= 14)%Z ->
     Api.create_prediction E payload
     = (Api.HTTPException 400 (JStr "Date must be within the next 14 days."), [])) /\
  (forall d e,
     strptime_Ymd s = Some d -> (0 < forecast_days E d <= 14)%Z ->
     fetch_hour E (weather_request E RESTAURANT_LOCATION (forecast_days E d)) h = Raised e ->
     Api.create_prediction E payload
     = (Api.HTTPException 400 (JStr ("API or data parsing error: " ++ exn_str E e)),
        [Outbound (weather_request E RESTAURANT_LOCATION (forecast_days E d))])).
Proof.
  intros s h. subst s h. unfold Api.create_prediction, generate_predictions.
  split; [| split].
  - intros ->. reflexivity.
  - intros d -> Hout. rewrite (weather_out_of_range _ _ _ _ Hout). reflexivity.
  - intros d e -> Hin Hfail. rewrite (weather_in_range _ _ _ _ Hin), Hfail. reflexivity.
Qed.

(** X12. The lookup marks failure by an [error] key, so a slice from the
    provider that itself has an [error] entry is taken for a failure: the
    service returns the slice as its result, the classifier is not called,
    and the route answers 400 with that entry as detail. *)
Theorem slice_with_error_key E payload d slice detail :
  strptime_Ymd (Api.target_date payload) = Some d ->
  (0 < forecast_days E d <= 14)%Z ->
  fetch_hour E (weather_request E RESTAURANT_LOCATION (forecast_days E d))
             (Api.target_hour payload) = Returned (JObj slice) ->
  assoc "error" slice = Some detail ->
  generate_predictions E (Api.target_date payload) (Api.target_hour payload)
                       (Api.is_special_event payload)
  = (Returned (JObj slice),
     [Outbound (weather_request E RESTAURANT_LOCATION (forecast_days E d))]) /\
  Api.create_prediction E payload
  = (Api.HTTPException 400 detail,
     [Outbound (weather_request E RESTAURANT_LOCATION (forecast_days E d))]).
Proof.
  intros Hparse Hin Hfetch Hkey.
  assert (Hgp : generate_predictions E (Api.target_date payload) (Api.target_hour payload)
                  (Api.is_special_event payload)
                = (Returned (JObj slice),
                   [Outbound (weather_request E RESTAURANT_LOCATION (forecast_days E d))])).
  { unfold generate_predictions. rewrite Hparse, (weather_in_range _ _ _ _ Hin), Hfetch.
    cbn [py_in]. unfold has_key. rewrite Hkey. reflexivity. }
  split; [exact Hgp |].
  unfold Api.create_prediction. rewrite Hgp. cbn [py_in getitem_str]. unfold has_key.
  rewrite Hkey. reflexivity.
Qed.

(** X13. A slice that is not a JSON object never gives a prediction nor a
    400: with a menu that is not empty the route ends in [TypeError],
    whatever the slice holds, after the one forecast request. *)
Theorem slice_not_an_object E payload d w :
  strptime_Ymd (Api.target_date payload) = Some d ->
  (0 < forecast_days E d <= 14)%Z ->
  fetch_hour E (weather_request E RESTAURANT_LOCATION (forecast_days E d))
             (Api.target_hour payload) = Returned w ->
  (forall slice, w <> JObj slice) ->
  df_base E <> [] ->
  Api.create_prediction E payload
  = (Api.InternalError TypeError,
     [Outbound (weather_request E RESTAURANT_LOCATION (forecast_days E d))]).
Proof.
  intros Hparse Hin Hfetch Hshape Hmenu.
  unfold Api.create_prediction, generate_predictions.
  rewrite Hparse, (weather_in_range _ _ _ _ Hin), Hfetch.
  assert (Hprep : forall ev, (forall slice, w <> JObj slice) ->
            prepare_features E d (Api.target_hour payload) ev w = Raised TypeError).
  { intros ev Hw. unfold prepare_features.
    destruct (drop_duplicates (df_base E)) as [| row rest] eqn:Hitems.
    { exfalso. exact (drop_duplicates_nonempty _ Hmenu Hitems). }
    cbn [build_scenarios]. unfold make_base.
    destruct w as [| b | z | fl | t | l | slice]; try reflexivity.
    exfalso. exact (Hw slice eq_refl). }
  destruct w as [| b | z | fl | t | l | slice]; try reflexivity.
  - cbn [py_in]. destruct (str_contains "error" t) eqn:Hc.
    + cbn [py_in]. rewrite Hc. reflexivity.
    + rewrite (Hprep _ Hshape). reflexivity.
  - cbn [py_in]. destruct (existsb (is_str "error") l) eqn:Hc.
    + cbn [py_in]. rewrite Hc. reflexivity.
    + rewrite (Hprep _ Hshape). reflexivity.
  - exfalso. exact (Hshape slice eq_refl).
Qed.

(** X14. The route turns away an hour outside 0 to 23 before anything is
    sent.  For an hour it lets through and a provider whose last forecast
    day has 24 slices, the lookup finds the slice of that very hour. *)
Theorem validated_hour E payload :
  (Api.valid payload = false -> Api.predict E payload = (Api.ValidationError, [])) /\
  (Api.valid payload = true ->
   Api.predict E payload = Api.create_prediction E payload /\
   forall d r hours,
     (0 < forecast_days E d <= 14)%Z ->
     requests_get E (weather_request E RESTAURANT_LOCATION (forecast_days E d)) = Returned r ->
     carries_hours r hours ->
     List.length hours = 24%nat ->
     nth_error hours (Z.to_nat (Api.target_hour payload))
     = Some (fst (get_hourly_weather_forecast E RESTAURANT_LOCATION d
                    (Api.target_hour payload)))).
Proof.
  unfold Api.predict. split; intros Hvalid; rewrite Hvalid; [reflexivity |].
  split; [reflexivity |]. intros d r hours Hin Hget Hcarry Hlen.
  unfold Api.valid in Hvalid. apply andb_true_iff in Hvalid. destruct Hvalid as [H0 H23].
  apply Z.leb_le in H0, H23.
  rewrite (weather_in_range _ _ _ _ Hin), (fetch_hour_carries _ _ _ _ _ Hget Hcarry).
  cbn [fst getitem_int]. unfold seq_index. rewrite Hlen.
  destruct ((0 <=? Api.target_hour payload) && (Api.target_hour payload <? Z.of_nat 24))%Z
    eqn:Hrange.
  - destruct (nth_error hours (Z.to_nat (Api.target_hour payload))) as [x |] eqn:Hx;
      [reflexivity |].
    apply nth_error_None in Hx. lia.
  - apply andb_false_iff in Hrange. destruct Hrange as [Hr | Hr];
      [apply Z.leb_gt in Hr | apply Z.ltb_ge in Hr]; lia.
Qed.

(** ** Dates in ISO form *)

Lemma div_mod_small a q r : (0 <= r < 10)%Z -> a = (10 * q + r)%Z -> (a / 10 = q /\ a mod 10 = r)%Z.
Proof. intros Hr ->. Z.div_mod_to_equations. lia. Qed.

Lemma four_digits_year y : (0 <= y <= 9999)%Z -> year_text (four_digits y) y.
Proof.
  intros Hy.
  assert (H1 : (0 <= y / 1000 <= 9)%Z) by (Z.div_mod_to_equations; lia).
  assert (H2 : (0 <= y / 100 mod 10 <= 9)%Z) by (Z.div_mod_to_equations; lia).
  assert (H3 : (0 <= y mod 100 / 10 <= 9)%Z) by (Z.div_mod_to_equations; lia).
  assert (H4 : (0 <= y mod 100 mod 10 <= 9)%Z) by (Z.div_mod_to_equations; lia).
  exists (digit (y / 1000)), (digit (y / 100 mod 10)),
         (digit (y mod 100 / 10)), (digit (y mod 100 mod 10)),
         (y / 1000)%Z, (y / 100 mod 10)%Z, (y mod 100 / 10)%Z, (y mod 100 mod 10)%Z.
  split; [reflexivity |].
  repeat (split; [apply decimal_digit; assumption |]).
  Z.div_mod_to_equations. lia.
Qed.

Lemma two_digits_month m : (1 <= m <= 12)%Z -> month_text (two_digits m) m.
Proof.
  intros Hm. unfold month_text, two_digits, digit.
  destruct (Z_le_gt_dec m 9) as [H | H].
  - left. split; [lia |]. right.
    destruct (div_mod_small m 0 m) as [-> ->]; [lia | lia |]. reflexivity.
  - right. split; [lia |].
    destruct (div_mod_small m 1 (m - 10)) as [-> ->]; [lia | lia |]. reflexivity.
Qed.

Lemma two_digits_day d : (1 <= d <= 31)%Z -> day_text (two_digits d) d.
Proof.
  intros Hd. unfold day_text.
  destruct (Z_le_gt_dec d 9) as [H | H]; [| destruct (Z_le_gt_dec d 29) as [H' | H']].
  - left. split; [lia |]. right. left. unfold two_digits, digit.
    destruct (div_mod_small d 0 d) as [-> ->]; [lia | lia |]. reflexivity.
  - right. left. split; [lia |]. exists (digit (d mod 10)). split; [reflexivity |].
    apply decimal_digit. Z.div_mod_to_equations. lia.
  - right. right. split; [lia |]. unfold two_digits, digit.
    destruct (div_mod_small d 3 (d - 30)) as [-> ->]; [lia | lia |]. reflexivity.
Qed.

Lemma month_cases m :
  (1 <= m <= 12)%Z ->
  (m = 1 \/ m = 2 \/ m = 3 \/ m = 4 \/ m = 5 \/ m = 6 \/ m = 7 \/ m = 8 \/ m = 9 \/
   m = 10 \/ m = 11 \/ m = 12)%Z.
Proof. lia. Qed.

Lemma days_in_month_le y m : (days_in_month y m <= 31)%Z.
Proof.
  unfold days_in_month. destruct ((m =? 2)%Z && is_leap y); [lia |].
  unfold DAYS_IN_MONTH.
  destruct (Z.to_nat m) as [| [| [| [| [| [| [| [| [| [| [| [| [| n]]]]]]]]]]]]];
    cbn; try lia. destruct n; cbn; lia.
Qed.

(** X15. Every date of the calendar (year 1 to 9999), written as
    [YYYY-MM-DD] with zero padding, is of the form the spec asks for and is
    parsed back to that date; and whatever text is parsed, the date obtained
    is a date of the calendar. *)
Theorem strptime_isoformat y m d :
  (check_date_fields y m d = true ->
   exactly_YYYY_MM_DD (isoformat (mkdate y m d)) = true /\
   strptime_Ymd (isoformat (mkdate y m d)) = Some (mkdate y m d)) /\
  (forall s, strptime_Ymd s = Some (mkdate y m d) -> check_date_fields y m d = true).
Proof.
  split.
  - intros Hcheck. pose proof Hcheck as Hc. unfold check_date_fields in Hc.
    repeat (apply andb_true_iff in Hc; destruct Hc as [Hc ?]).
    repeat match goal with H : (_ <=? _)%Z = true |- _ => apply Z.leb_le in H end.
    pose proof (days_in_month_le y m) as Hdim.
    assert (Hy : (0 <= y <= 9999)%Z) by lia.
    assert (Hm : (1 <= m <= 12)%Z) by lia.
    assert (Hd : (1 <= d <= 31)%Z) by lia.
    split.
    + unfold isoformat, four_digits, two_digits. cbn [year month day append].
      unfold exactly_YYYY_MM_DD.
      rewrite !digit_char_digit; try reflexivity;
        try (apply Z.mod_pos_bound; lia); Z.div_mod_to_equations; lia.
    + apply written_date_parses.
      exists (four_digits y), (two_digits m), (two_digits d). cbn [year month day].
      split; [reflexivity |]. split; [exact (four_digits_year y Hy) |].
      split; [exact (two_digits_month m Hm) |]. split; [exact (two_digits_day d Hd) |].
      exact Hcheck.
  - intros s. unfold strptime_Ymd.
    destruct (re_Ymd s) as [| [[[y' m'] d'] rest] l]; [discriminate |].
    destruct rest; [| discriminate].
    destruct (check_date_fields y' m' d') eqn:Hc; [| discriminate].
    intros H. injection H as <- <- <-. exact Hc.
Qed.

(** ** What the classifier sees under an item's label *)

Lemma assoc_app {A : Type} k (l1 l2 : list (string * A)) :
  assoc k (l1 ++ l2) = match assoc k l1 with
                       | Some v => Some v
                       | None => assoc k l2
                       end.
Proof.
  induction l1 as [| [k' v] l1 IH]; simpl; [reflexivity |].
  destruct (String.eqb k k'); [reflexivity | exact IH].
Qed.

Lemma assoc_other_kind {A : Type} k (l : list (string * A)) :
  (forall x, In x (map fst l) -> label_kind x <> label_kind k) -> assoc k l = None.
Proof.
  intros H. apply assoc_None. intros Hin. exact (H k Hin eq_refl).
Qed.

Lemma name_label_kind n : label_kind ("food_item_name_" ++ n) = 1%nat.
Proof. destruct n; reflexivity. Qed.

Lemma strings_of_names (scenarios : list scenario) :
  strings_of (map (fun s => cell_value (food_item_name (base s))) scenarios)
  = texts (map (fun s => food_item_name (base s)) scenarios).
Proof.
  induction scenarios as [| s ss IH]; [reflexivity |]. simpl.
  destruct (food_item_name (base s)); simpl; rewrite IH; reflexivity.
Qed.

Lemma is_str_cell n c : is_str n (cell_value c) = cell_eqb c (Str n).
Proof. destruct c; reflexivity. Qed.

Lemma encoded_name_column scenarios enc n :
  get_dummies (DataFrame scenarios) categorical = Returned enc ->
  assoc ("food_item_name_" ++ n) (columns enc)
  = if in_dec cell_eq_dec (Str n) (map (fun s => food_item_name (base s)) scenarios)
    then Some (map (fun s => JBool (cell_eqb (food_item_name (base s)) (Str n))) scenarios)
    else None.
Proof.
  intros Henc. pose proof (get_dummies_nonempty _ _ Henc) as Hne.
  rewrite (get_dummies_DataFrame _ Hne) in Henc.
  assert (Hshape : enc = mkframe (List.length scenarios)
                           (plain_columns scenarios ++ indicator_columns scenarios))
    by congruence.
  rewrite Hshape.
  change (columns (mkframe (List.length scenarios)
                     (plain_columns scenarios ++ indicator_columns scenarios)))
    with (plain_columns scenarios ++ indicator_columns scenarios).
  rewrite assoc_app.
  rewrite (assoc_other_kind _ (plain_columns scenarios)).
  2:{ intros x Hx. rewrite (plain_labels _ _ Hx), name_label_kind. discriminate. }
  unfold indicator_columns. rewrite assoc_app.
  set (cells := map (fun s => cell_value (food_item_name (base s))) scenarios).
  destruct (in_dec cell_eq_dec (Str n) (map (fun s => food_item_name (base s)) scenarios))
    as [Hin | Hnot].
  - change ("food_item_name_" ++ n)%string with ("food_item_name" ++ "_" ++ n)%string.
    rewrite dummies_lookup.
    + unfold cells. rewrite map_map. f_equal. apply map_ext. intros s.
      rewrite is_str_cell. reflexivity.
    + apply levels_In. unfold cells. rewrite strings_of_names. apply texts_In. exact Hin.
  - assert (Hfirst : assoc ("food_item_name_" ++ n) (dummies "food_item_name" cells) = None).
    { apply assoc_None. rewrite dummies_labels, in_map_iff. intros (level & Heq & Hlevel).
      change ("food_item_name_" ++ n)%string with ("food_item_name" ++ "_" ++ n)%string in Heq.
      apply append_inj in Heq. apply append_inj in Heq. subst level.
      apply (proj1 (levels_In _ _)) in Hlevel. unfold cells in Hlevel.
      rewrite strings_of_names in Hlevel. apply texts_In in Hlevel. exact (Hnot Hlevel). }
    rewrite Hfirst. apply assoc_other_kind. intros x Hx. rewrite name_label_kind.
    rewrite !map_app in Hx.
    repeat (apply in_app_or in Hx; destruct Hx as [Hx | Hx]);
      [kind_of_dummies Hx 2%nat | kind_of_dummies Hx 3%nat | kind_of_dummies Hx 4%nat
       | kind_of_dummies Hx 5%nat]; discriminate.
Qed.

(** X16. After encoding and alignment, a schema column labelled
    [food_item_name_<n>] holds, if [n] is the name of some feature row, true
    on the rows of that name and false on the others (a row without a name
    among them); if no row has that name it holds 0 on every row. *)
Theorem aligned_name_column scenarios schema enc X n :
  get_dummies (DataFrame scenarios) categorical = Returned enc ->
  reindex enc schema (JInt 0) = Returned X ->
  In ("food_item_name_" ++ n)%string schema ->
  (In (Str n) (map (fun s => food_item_name (base s)) scenarios) ->
   assoc ("food_item_name_" ++ n) (columns X)
   = Some (map (fun s => JBool (cell_eqb (food_item_name (base s)) (Str n))) scenarios)) /\
  (~ In (Str n) (map (fun s => food_item_name (base s)) scenarios) ->
   assoc ("food_item_name_" ++ n) (columns X)
   = Some (repeat (JInt 0) (List.length scenarios))).
Proof.
  intros Henc HX Hlabel.
  pose proof (encoded_name_column scenarios enc n Henc) as Hcol.
  pose proof (get_dummies_nrows _ _ _ Henc) as Hrows. rewrite DataFrame_nrows in Hrows.
  unfold reindex in HX. destruct (all_distinct (labels enc)); [| discriminate HX].
  injection HX as <-. cbn [columns].
  rewrite (assoc_map_key
             (fun c => match assoc c (columns enc) with
                       | Some cells => cells
                       | None => repeat (JInt 0) (nrows enc)
                       end) _ schema Hlabel).
  rewrite Hcol, Hrows.
  destruct (in_dec cell_eq_dec (Str n) (map (fun s => food_item_name (base s)) scenarios));
    split; intros H; try contradiction; reflexivity.
Qed.

(** ** Ordinals follow the calendar *)

Lemma valid_date_fields d :
  valid_date d ->
  (1 <= year d <= 9999 /\ 1 <= month d <= 12 /\
   1 <= day d <= days_in_month (year d) (month d))%Z.
Proof.
  unfold valid_date, check_date_fields. intros Hc.
  repeat (apply andb_true_iff in Hc; destruct Hc as [Hc ?]).
  repeat match goal with H : (_ <=? _)%Z = true |- _ => apply Z.leb_le in H end.
  lia.
Qed.

Lemma month_end y m1 m2 :
  (1 <= m1 < m2)%Z -> (m2 <= 12)%Z ->
  (days_before_month y m1 + days_in_month y m1 <= days_before_month y m2)%Z.
Proof.
  intros H1 H2. unfold days_before_month, days_in_month.
  assert (Hm1 : (1 <= m1 <= 12)%Z) by lia.
  assert (Hm2 : (1 <= m2 <= 12)%Z) by lia.
  destruct (month_cases m1 Hm1) as
    [-> | [-> | [-> | [-> | [-> | [-> | [-> | [-> | [-> | [-> | [-> | ->]]]]]]]]]]];
  destruct (month_cases m2 Hm2) as
    [-> | [-> | [-> | [-> | [-> | [-> | [-> | [-> | [-> | [-> | [-> | ->]]]]]]]]]]];
  try lia; destruct (is_leap y); vm_compute; discriminate.
Qed.

Lemma year_end y m :
  (1 <= m <= 12)%Z ->
  (0 <= days_before_month y m /\
   days_before_month y m + days_in_month y m <= 365 + (if is_leap y then 1 else 0))%Z.
Proof.
  intros Hm. unfold days_before_month, days_in_month.
  destruct (month_cases m Hm) as
    [-> | [-> | [-> | [-> | [-> | [-> | [-> | [-> | [-> | [-> | [-> | ->]]]]]]]]]]];
  destruct (is_leap y); vm_compute; (split; discriminate).
Qed.

Lemma next_year y :
  (days_before_year (y + 1) = days_before_year y + 365 + (if is_leap y then 1 else 0))%Z.
Proof.
  unfold days_before_year, is_leap. cbv zeta.
  replace (y + 1 - 1)%Z with y by lia.
  destruct (Z.eqb_spec (y mod 4) 0) as [H4 | H4];
    destruct (Z.eqb_spec (y mod 100) 0) as [H100 | H100];
    destruct (Z.eqb_spec (y mod 400) 0) as [H400 | H400];
    cbn [negb andb orb]; Z.div_mod_to_equations; lia.
Qed.

Lemma days_before_year_mono y1 y2 :
  (y1 <= y2)%Z -> (days_before_year y1 <= days_before_year y2)%Z.
Proof.
  intros H. unfold days_before_year. cbv zeta. Z.div_mod_to_equations. lia.
Qed.

Lemma toordinal_lt a b :
  valid_date a -> valid_date b -> date_lt a b -> (toordinal a < toordinal b)%Z.
Proof.
  intros Ha Hb Hlt. apply valid_date_fields in Ha, Hb.
  destruct Ha as (_ & Hma & Hda). destruct Hb as (_ & Hmb & Hdb).
  unfold toordinal. destruct Hlt as [Hy | [Hy [Hm | [Hm Hd]]]].
  - pose proof (year_end (year a) (month a) Hma) as [_ Hend].
    pose proof (year_end (year b) (month b) Hmb) as [Hstart _].
    pose proof (next_year (year a)) as Hnext.
    assert (Hle : (year a + 1 <= year b)%Z) by lia.
    pose proof (days_before_year_mono (year a + 1) (year b) Hle) as Hmono.
    destruct (is_leap (year a)); lia.
  - rewrite Hy in *.
    assert (Hm1 : (1 <= month a < month b)%Z) by lia.
    assert (Hm2 : (month b <= 12)%Z) by lia.
    pose proof (month_end (year b) (month a) (month b) Hm1 Hm2).
    lia.
  - rewrite Hy, Hm. lia.
Qed.

(** X17. The window follows the calendar: a parsed date that lies before
    the current date is always turned away with the out-of-range error, and
    nothing is sent; the current date itself is inside the window, with one
    request for a single day. *)
Theorem past_dates_rejected E s h ev d :
  valid_date (today E) ->
  strptime_Ymd s = Some d ->
  (date_lt d (today E) ->
   generate_predictions E s h ev = (Returned out_of_range_error, [])) /\
  (d = today E ->
   snd (generate_predictions E s h ev)
   <> [] /\
   In (Outbound (weather_request E RESTAURANT_LOCATION 1))
      (snd (generate_predictions E s h ev))).
Proof.
  intros Htoday Hparse.
  assert (Hvalid : valid_date d).
  { unfold valid_date, strptime_Ymd in *.
    destruct (re_Ymd s) as [| [[[y m] dd] rest] l]; [discriminate |].
    destruct rest; [| discriminate].
    destruct (check_date_fields y m dd) eqn:Hc; [| discriminate].
    injection Hparse as <-. exact Hc. }
  split.
  - intros Hlt. pose proof (toordinal_lt d (today E) Hvalid Htoday Hlt) as Hord.
    unfold generate_predictions. rewrite Hparse.
    rewrite weather_out_of_range; [reflexivity |].
    unfold forecast_days, date_diff_days. lia.
  - intros ->. 
    assert (Hdays : forecast_days E (today E) = 1%Z)
      by (unfold forecast_days, date_diff_days; lia).
    assert (Hin : (0 < forecast_days E (today E) <= 14)%Z) by lia.
    destruct (weather_trace E RESTAURANT_LOCATION (today E) h) as [[Hout _] | [_ Htr]];
      [contradiction |].
    rewrite Hdays in Htr.
    unfold generate_predictions. rewrite Hparse.
    destruct (get_hourly_weather_forecast E RESTAURANT_LOCATION (today E) h) as [w tr].
    cbn [snd] in Htr. subst tr.
    destruct (py_in "error" w) as [[|] | e]; cbn [snd];
      try (split; [discriminate | left; reflexivity]).
    destruct (prepare_features E (today E) h ev w) as [[scenarios X] | e]; cbn [snd];
      split; try discriminate; left; reflexivity.
Qed.

(** ** What the event flag changes *)

Lemma build_scenarios_event h dow dt w hol ev ev' items scenarios :
  build_scenarios h dow dt w hol ev items = Returned scenarios ->
  build_scenarios h dow dt w hol ev' items = Returned (map (with_event ev') scenarios).
Proof.
  revert scenarios. induction items as [| row rest IH]; simpl; intros scenarios H.
  - injection H as <-. reflexivity.
  - inv_bind H. inv_bind H. injection H as <-.
    rewrite (IH _ Ha0). unfold make_base in Ha |- *.
    do 6 inv_bind Ha. injection Ha as <-.
    rewrite Ha1, Ha2, Ha3, Ha4, Ha5, Ha6. reflexivity.
Qed.

Lemma indicator_columns_event ev scenarios :
  indicator_columns (map (with_event ev) scenarios) = indicator_columns scenarios.
Proof. unfold indicator_columns. rewrite !map_map. reflexivity. Qed.

Lemma plain_columns_event ev scenarios c :
  c <> "is_special_event" ->
  assoc c (plain_columns (map (with_event ev) scenarios)) = assoc c (plain_columns scenarios).
Proof.
  intros Hne. unfold plain_columns. rewrite !map_map. cbn [assoc].
  apply String.eqb_neq in Hne. rewrite Hne. reflexivity.
Qed.

Lemma map_const {A B : Type} (c : B) (l : list A) :
  map (fun _ => c) l = repeat c (List.length l).
Proof. induction l as [| x l IH]; simpl; [reflexivity | rewrite IH; reflexivity]. Qed.

Lemma plain_columns_flag ev scenarios :
  assoc "is_special_event" (plain_columns (map (with_event ev) scenarios))
  = Some (repeat (JBool ev) (List.length scenarios)).
Proof.
  unfold plain_columns. rewrite !map_map. cbn [assoc String.eqb Ascii.eqb Bool.eqb].
  cbn. rewrite <- map_const. reflexivity.
Qed.

Lemma reindex_lookup df schema fill X c :
  reindex df schema fill = Returned X ->
  assoc c (columns X)
  = if in_dec string_dec c schema
    then Some (match assoc c (columns df) with
               | Some cells => cells
               | None => repeat fill (nrows df)
               end)
    else None.
Proof.
  unfold reindex. destruct (all_distinct (labels df)); [| discriminate].
  intros H. injection H as <-. cbn [columns].
  destruct (in_dec string_dec c schema) as [Hin | Hnot].
  - apply (assoc_map_key (fun k => match assoc k (columns df) with
                                   | Some cells => cells
                                   | None => repeat fill (nrows df)
                                   end) c schema Hin).
  - apply assoc_None. rewrite map_fst_map_key. exact Hnot.
Qed.

Lemma reindex_labels df schema fill X :
  reindex df schema fill = Returned X -> labels X = schema.
Proof.
  unfold reindex. destruct (all_distinct (labels df)); [| discriminate].
  intros H. injection H as <-. unfold labels. cbn [columns]. apply map_fst_map_key.
Qed.

(** X18. The event flag reaches the classifier through its own column
    only: the same request with another flag gives an aligned frame with the
    same labels and rows, equal in every column but [is_special_event],
    which holds the flag on every row. *)
Theorem event_flag_only_its_column E d h w ev ev' scenarios X :
  prepare_features E d h ev w = Returned (scenarios, X) ->
  exists scenarios' X',
    prepare_features E d h ev' w = Returned (scenarios', X') /\
    labels X' = labels X /\
    nrows X' = nrows X /\
    (forall c, c <> "is_special_event" -> assoc c (columns X') = assoc c (columns X)) /\
    (In "is_special_event" (model_columns E) ->
     assoc "is_special_event" (columns X') = Some (repeat (JBool ev') (nrows X))).
Proof.
  intros Hprep.
  destruct (prepare_features_inv _ _ _ _ _ _ _ Hprep) as (enc & Hbuild & Henc & HX).
  pose proof (get_dummies_nonempty _ _ Henc) as Hne.
  set (scenarios' := map (with_event ev') scenarios).
  assert (Hne' : scenarios' <> []).
  { unfold scenarios'. destruct scenarios; [congruence | discriminate]. }
  destruct (encode_align_complete E scenarios' Hne') as (enc' & X' & Henc' & HX' & Hrows').
  exists scenarios', X'.
  assert (Hrows : nrows X = List.length scenarios).
  { rewrite (reindex_nrows _ _ _ _ HX), (get_dummies_nrows _ _ _ Henc). apply DataFrame_nrows. }
  assert (Hlen : List.length scenarios' = List.length scenarios) by apply length_map.
  pose proof Henc as Hshape. rewrite (get_dummies_DataFrame _ Hne) in Hshape.
  pose proof Henc' as Hshape'. rewrite (get_dummies_DataFrame _ Hne') in Hshape'.
  assert (Hcols : columns enc = plain_columns scenarios ++ indicator_columns scenarios)
    by (injection Hshape as <-; reflexivity).
  assert (Hcols' : columns enc' = plain_columns scenarios' ++ indicator_columns scenarios)
    by (injection Hshape' as <-; unfold scenarios';
        rewrite <- (indicator_columns_event ev' scenarios); reflexivity).
  assert (Hnrows : nrows enc' = nrows enc).
  { rewrite (get_dummies_nrows _ _ _ Henc), (get_dummies_nrows _ _ _ Henc'),
      !DataFrame_nrows. exact Hlen. }
  split; [| split; [| split; [| split]]].
  - unfold prepare_features.
    rewrite (build_scenarios_event _ _ _ _ _ _ ev' _ _ Hbuild). cbn [bind].
    fold scenarios'. rewrite Henc'. cbn [bind]. rewrite HX'. reflexivity.
  - rewrite (reindex_labels _ _ _ _ HX), (reindex_labels _ _ _ _ HX'). reflexivity.
  - rewrite Hrows', Hrows. exact Hlen.
  - intros c Hc.
    rewrite (reindex_lookup _ _ _ _ c HX), (reindex_lookup _ _ _ _ c HX').
    rewrite Hcols, Hcols', Hnrows, !assoc_app.
    unfold scenarios'. rewrite (plain_columns_event ev' scenarios c Hc). reflexivity.
  - intros Hin. rewrite (reindex_lookup _ _ _ _ _ HX').
    destruct (in_dec string_dec "is_special_event" (model_columns E)); [| contradiction].
    rewrite Hcols', assoc_app. unfold scenarios'.
    rewrite plain_columns_flag, Hrows. reflexivity.
Qed.

(** ** The further properties at concrete inputs *)

Lemma env_with_carries menu hours r :
  requests_get (env_with menu hours) r = Returned (mkresponse 200 (Some (body_of hours))) /\
  carries_hours (mkresponse 200 (Some (body_of hours))) hours.
Proof.
  split; [reflexivity |]. split.
  - cbn. lia.
  - eexists. eexists. exists []. eexists. repeat split; reflexivity.
Qed.

Lemma env_with_window menu hours :
  (0 < forecast_days (env_with menu hours) (mkdate 2024 12 25) <= 14)%Z.
Proof. vm_compute. split; [reflexivity | discriminate]. Qed.

Lemma weather_hour_index_witness :
  let E := env_with sample_menu (repeat (JObj sample_slice) 24) in
  let result := get_hourly_weather_forecast E RESTAURANT_LOCATION (mkdate 2024 12 25) (-1) in
  nth_error (repeat (JObj sample_slice) 24) 23 = Some (fst result).
Proof.
  intros E result.
  destruct (env_with_carries sample_menu (repeat (JObj sample_slice) 24)
              (weather_request E RESTAURANT_LOCATION (forecast_days E (mkdate 2024 12 25))))
    as [Hget Hcarry].
  destruct (weather_hour_index E RESTAURANT_LOCATION (mkdate 2024 12 25) (-1) _ _
              (env_with_window _ _) Hget Hcarry) as (_ & Hin & _).
  apply Hin. vm_compute. split; [discriminate | reflexivity].
Defined.

Lemma sample_fetch menu slice h :
  (0 <= h < 24)%Z ->
  fetch_hour (env_with menu (repeat slice 24))
             (weather_request (env_with menu (repeat slice 24)) RESTAURANT_LOCATION
                (forecast_days (env_with menu (repeat slice 24)) (mkdate 2024 12 25))) h
  = Returned slice.
Proof.
  intros Hh.
  destruct (env_with_carries menu (repeat slice 24)
              (weather_request (env_with menu (repeat slice 24)) RESTAURANT_LOCATION
                 (forecast_days (env_with menu (repeat slice 24)) (mkdate 2024 12 25))))
    as [Hget Hcarry].
  rewrite (fetch_hour_carries _ _ _ _ _ Hget Hcarry). cbn [getitem_int].
  rewrite seq_index_mod by (rewrite repeat_length; lia).
  rewrite repeat_length, Z.mod_small by lia.
  destruct (nth_error (repeat slice 24) (Z.to_nat h)) as [x |] eqn:Hx.
  - apply nth_error_In, repeat_spec in Hx. subst x. reflexivity.
  - apply nth_error_None in Hx. rewrite repeat_length in Hx. lia.
Qed.

Lemma request_succeeds_witness :
  is_success (generate_predictions
                (env_with sample_menu (repeat (JObj sample_slice) 24)) "2024-12-25" 19 false).
Proof.
  refine (proj1 (request_succeeds (env_with sample_menu (repeat (JObj sample_slice) 24))
                   "2024-12-25" 19 false (mkdate 2024 12 25) sample_slice
                   eq_refl (env_with_window _ _) (sample_fetch _ _ 19 _) eq_refl _ _ _ _)).
  - lia.
  - intros k Hk. simpl in Hk.
    repeat (destruct Hk as [<- | Hk]; [reflexivity |]). contradiction.
  - discriminate.
  - intros n c1 c2 H1 H2. cbn [df_base env_with sample_menu In] in H1, H2.
    unfold menu_row in H1, H2.
    destruct H1 as [H1 | [H1 | []]]; destruct H2 as [H2 | [H2 | []]]; congruence.
  - intros X. eexists. split; [reflexivity | apply repeat_length].
Defined.

Lemma success_envelope_witness :
  exists v,
    fst (generate_predictions sample_env "2024-12-25" 19 false) = Returned v /\
    getitem_str v "prediction_metadata"
    = Returned (JObj [("target_date", JStr "2024-12-25");
                      ("target_hour", JInt 19);
                      ("is_special_event", JBool false);
                      ("is_public_holiday", JBool false);
                      ("day_of_week", JStr "Wednesday")]).
Proof.
  destruct (fst (generate_predictions sample_env "2024-12-25" 19 false)) as [v | e] eqn:Hv;
    [| vm_compute in Hv; discriminate Hv].
  assert (Herr : py_in "error" v = Returned false).
  { vm_compute in Hv. injection Hv as <-. reflexivity. }
  destruct (success_envelope sample_env "2024-12-25" 19 false v Hv Herr)
    as (d & slice & t & p & w & c & overall & detailed & Hparse & _ & _ & _ & _ & _ & ->).
  exists (JObj
          [("prediction_metadata", JObj
              [("target_date", JStr "2024-12-25");
               ("target_hour", JInt 19);
               ("is_special_event", JBool false);
               ("is_public_holiday", JBool (holiday_calendar sample_env d));
               ("day_of_week", JStr (strftime_A d))]);
           ("weather_conditions", JObj
              [("temperature_c", t); ("precipitation_mm", p); ("wind_kph", w);
               ("cloud_percent", c)]);
           ("overall_prediction", JArr overall);
           ("detailed_prediction", JArr detailed)]).
  split; [reflexivity |]. injection Hparse as <-. reflexivity.
Defined.

Lemma missing_weather_field_witness :
  let E := env_with sample_menu (repeat (JObj dry_slice) 24) in
  generate_predictions E "2024-12-25" 19 false
  = (Raised (KeyError "humidity"),
     [Outbound (weather_request E RESTAURANT_LOCATION (forecast_days E (mkdate 2024 12 25)))]).
Proof.
  intros E.
  refine (missing_weather_field E "2024-12-25" 19 false (mkdate 2024 12 25) dry_slice
            "humidity" eq_refl (env_with_window _ _) (sample_fetch _ _ 19 _) eq_refl _ eq_refl).
  - lia.
  - discriminate.
Defined.

Lemma empty_menu_raises_witness :
  let E := env_with [] (repeat (JObj sample_slice) 24) in
  generate_predictions E "2024-12-25" 19 false
  = (Raised (KeyErrorLabels
               ["food_item_name"; "food_item_category"; "day_of_the_week"; "day_type";
                "order_type"]
               ["food_item_name"; "food_item_category"; "day_of_the_week"; "day_type";
                "order_type"]),
     [Outbound (weather_request E RESTAURANT_LOCATION (forecast_days E (mkdate 2024 12 25)))]).
Proof.
  intros E.
  refine (proj1 (empty_menu_raises E "2024-12-25" 19 false (mkdate 2024 12 25)
                   (JObj sample_slice) eq_refl (env_with_window _ _)
                   (sample_fetch _ _ 19 _) eq_refl eq_refl)).
  lia.
Defined.

Lemma dummies_one_hot_witness :
  exists column,
    assoc "order_type_Take Away" (dummies "order_type" [JStr "Dine In"; JStr "Take Away"])
    = Some column /\
    nth_error column 1 = Some (JBool true).
Proof.
  exact (proj1 (dummies_one_hot "order_type" [JStr "Dine In"; JStr "Take Away"] 1
                  "Take Away" eq_refl)).
Defined.

Lemma slice_with_error_key_witness :
  let E := env_with sample_menu (repeat (JObj odd_slice) 24) in
  Api.create_prediction E sample_payload
  = (Api.HTTPException 400 (JStr "sensor offline"),
     [Outbound (weather_request E RESTAURANT_LOCATION (forecast_days E (mkdate 2024 12 25)))]).
Proof.
  intros E.
  refine (proj2 (slice_with_error_key E sample_payload (mkdate 2024 12 25) odd_slice
                   (JStr "sensor offline") eq_refl (env_with_window _ _)
                   (sample_fetch _ _ 19 _) eq_refl)).
  lia.
Defined.

Lemma slice_not_an_object_witness :
  let E := env_with sample_menu (repeat (JStr "no data") 24) in
  Api.create_prediction E sample_payload
  = (Api.InternalError TypeError,
     [Outbound (weather_request E RESTAURANT_LOCATION (forecast_days E (mkdate 2024 12 25)))]).
Proof.
  intros E.
  refine (slice_not_an_object E sample_payload (mkdate 2024 12 25) (JStr "no data")
            eq_refl (env_with_window _ _) (sample_fetch sample_menu (JStr "no data") 19 _)
            _ _).
  - lia.
  - discriminate.
  - discriminate.
Defined.

Lemma aligned_name_column_witness :
  exists enc X,
    get_dummies (DataFrame burger_rows) categorical = Returned enc /\
    reindex enc sample_columns (JInt 0) = Returned X /\
    assoc "food_item_name_Burger" (columns X) = Some [JBool true; JBool true] /\
    assoc "food_item_name_Apple Pie" (columns X) = Some [JInt 0; JInt 0].
Proof.
  destruct (get_dummies (DataFrame burger_rows) categorical) as [enc | e] eqn:Henc;
    [| discriminate Henc].
  destruct (reindex enc sample_columns (JInt 0)) as [X | e] eqn:HX.
  2:{ exfalso. injection Henc as <-. discriminate HX. }
  assert (Hburger : In "food_item_name_Burger" sample_columns) by (simpl; tauto).
  assert (Hpie : In "food_item_name_Apple Pie" sample_columns) by (simpl; tauto).
  exists enc, X. split; [reflexivity |]. split; [exact HX |]. split.
  - apply (proj1 (aligned_name_column burger_rows sample_columns enc X "Burger"
                    Henc HX Hburger)).
    simpl. tauto.
  - apply (proj2 (aligned_name_column burger_rows sample_columns enc X "Apple Pie"
                    Henc HX Hpie)).
    simpl. intros [H | [H | []]]; discriminate H.
Defined.

Lemma past_dates_rejected_witness :
  date_lt (mkdate 2024 12 1) (today sample_env) /\
  generate_predictions sample_env "2024-12-01" 19 false = (Returned out_of_range_error, []).
Proof.
  assert (Hlt : date_lt (mkdate 2024 12 1) (today sample_env)).
  { right. split; [reflexivity |]. right. split; [reflexivity |]. reflexivity. }
  split; [exact Hlt |].
  exact (proj1 (past_dates_rejected sample_env "2024-12-01" 19 false (mkdate 2024 12 1)
                  eq_refl eq_refl) Hlt).
Defined.

Lemma event_flag_only_its_column_witness :
  exists scenarios X scenarios' X',
    prepare_features sample_env (mkdate 2024 12 25) 19 false (JObj sample_slice)
    = Returned (scenarios, X) /\
    prepare_features sample_env (mkdate 2024 12 25) 19 true (JObj sample_slice)
    = Returned (scenarios', X') /\
    assoc "hour" (columns X') = assoc "hour" (columns X) /\
    assoc "is_special_event" (columns X') = Some (repeat (JBool true) (nrows X)).
Proof.
  destruct (prepare_features sample_env (mkdate 2024 12 25) 19 false (JObj sample_slice))
    as [[scenarios X] | e] eqn:Hprep; [| vm_compute in Hprep; discriminate Hprep].
  destruct (event_flag_only_its_column sample_env (mkdate 2024 12 25) 19 (JObj sample_slice)
              false true scenarios X Hprep)
    as (scenarios' & X' & Hprep' & _ & _ & Hsame & Hflag).
  exists scenarios, X, scenarios', X'.
  split; [reflexivity |]. split; [exact Hprep' |]. split.
  - apply Hsame. discriminate.
  - apply Hflag. simpl. tauto.
Defined.


Lemma create_prediction_status_witness :
  exists content,
    fst (Api.create_prediction sample_env sample_payload) = Api.Ok content /\
    py_in "error" content = Returned false.
Proof.
  destruct (fst (generate_predictions sample_env "2024-12-25" 19 false)) as [v | e] eqn:Hv;
    [| vm_compute in Hv; discriminate Hv].
  assert (Herr : py_in "error" v = Returned false).
  { vm_compute in Hv. injection Hv as <-. reflexivity. }
  exists v. split; [| exact Herr].
  destruct (create_prediction_status sample_env sample_payload) as (_ & Hok & _).
  apply (proj2 (Hok v)). split; [exact Hv | exact Herr].
Defined.

Lemma business_errors_become_400_witness :
  Api.create_prediction sample_env (Api.mkPredictionInput "tomorrow" 19 false)
  = (Api.HTTPException 400 (JStr "Invalid date format. Please use YYYY-MM-DD."), []) /\
  Api.create_prediction sample_env (Api.mkPredictionInput "2025-06-01" 19 false)
  = (Api.HTTPException 400 (JStr "Date must be within the next 14 days."), []) /\
  Api.create_prediction offline_env sample_payload
  = (Api.HTTPException 400 (JStr "API or data parsing error: failure"),
     [Outbound (weather_request offline_env RESTAURANT_LOCATION 2)]).
Proof.
  split; [| split].
  - exact (proj1 (business_errors_become_400 sample_env
                    (Api.mkPredictionInput "tomorrow" 19 false)) eq_refl).
  - refine (proj1 (proj2 (business_errors_become_400 sample_env
                    (Api.mkPredictionInput "2025-06-01" 19 false)))
                  (mkdate 2025 6 1) eq_refl _).
    vm_compute. intros [_ H]. apply H. reflexivity.
  - refine (proj2 (proj2 (business_errors_become_400 offline_env sample_payload))
                  (mkdate 2024 12 25) (TransportError "connection refused") eq_refl _ eq_refl).
    vm_compute. split; [reflexivity | discriminate].
Defined.

Lemma validated_hour_witness :
  let E := env_with sample_menu (repeat (JObj sample_slice) 24) in
  Api.predict E (Api.mkPredictionInput "2024-12-25" 24 false) = (Api.ValidationError, []) /\
  nth_error (repeat (JObj sample_slice) 24) 19
  = Some (fst (get_hourly_weather_forecast E RESTAURANT_LOCATION (mkdate 2024 12 25) 19)).
Proof.
  intros E. split.
  - exact (proj1 (validated_hour E (Api.mkPredictionInput "2024-12-25" 24 false)) eq_refl).
  - destruct (env_with_carries sample_menu (repeat (JObj sample_slice) 24)
                (weather_request E RESTAURANT_LOCATION (forecast_days E (mkdate 2024 12 25))))
      as [Hget Hcarry].
    destruct (proj2 (validated_hour E sample_payload) eq_refl) as [_ Hslice].
    exact (Hslice (mkdate 2024 12 25) _ _ (env_with_window _ _) Hget Hcarry eq_refl).
Defined.

Lemma strptime_isoformat_witness :
  isoformat (mkdate 2024 2 29) = "2024-02-29" /\
  strptime_Ymd "2024-02-29" = Some (mkdate 2024 2 29).
Proof.
  split; [reflexivity |].
  exact (proj2 (proj1 (strptime_isoformat 2024 2 29) eq_refl)).
Defined.
